(** * Vayu build script ([build.py]): a shallow embedding and its properties

    The script is a command-line driver: it reads flags, probes the host for
    tools, launches external commands, prints a report and, for
    [--bump-version], rewrites five files.  The embedding keeps that shape:

    - text is a [string]: the bytes that spell a [str] in UTF-8, taken
      character by character where Python looks at characters ([strip],
      [\d], [int]);
    - a path is the list of its [pathlib] parts;
    - everything the script can observe of the machine but cannot change is a
      [Host]; everything it changes (files, environment, terminal, module
      globals, the log of launched commands) is a [World];
    - a Python function is a function [World -> outcome A * World], where the
      outcome is the returned value or the exception that left the function. *)

From Stdlib Require Import ZArith NArith Ascii String List Bool Lia.
From stdpp Require Import base option list strings pretty gmap.

Open Scope string_scope.
Set Warnings "-register-all".

(** ** Characters

    What the interpreter's character database ([unicodedata]) says of a code
    point above ASCII.  The database grows from one Python release to the
    next, so it belongs to the host. *)
Record Ucd := {
  decimal : N -> option N;                    (* [Py_UNICODE_TODECIMAL]: the value of a decimal digit *)
  whitespace : N -> bool }.                   (* [Py_UNICODE_ISSPACE] *)

(** ** Text *)

Module Text.

(** *** The characters of a text

    A [str] is kept as the bytes that spell it in UTF-8, and a character is
    a code point together with its bytes.  A byte that starts no
    well-formed sequence is a character of its own: the lone surrogate
    [U+DC00 + byte] that Python puts for an undecodable byte of the command
    line ([surrogateescape]). *)

Abbreviation char := (N * string)%type.

(** The payload of a continuation byte, [10xxxxxx]. *)
Definition continuation (c : ascii) : option N :=
  let n := N_of_ascii c in
  if ((128 <=? n) && (n <=? 191))%N then Some (n - 128)%N else None.

(** The payloads of the continuation bytes at the head of [s], three at
    most. *)
Definition continuations (s : string) : list N :=
  match s with
  | String c1 r1 =>
      match continuation c1 with
      | Some x1 =>
          x1 :: match r1 with
                | String c2 r2 =>
                    match continuation c2 with
                    | Some x2 =>
                        x2 :: match r2 with
                              | String c3 _ =>
                                  match continuation c3 with
                                  | Some x3 => [x3]
                                  | None => []
                                  end
                              | EmptyString => []
                              end
                    | None => []
                    end
                | EmptyString => []
                end
      | None => []
      end
  | EmptyString => []
  end.

(** The code point at the head of [String c r] and the number of bytes that
    spell it.  Overlong forms, surrogates and code points above [U+10FFFF]
    are not well formed. *)
Definition head_char (c : ascii) (r : string) : N * nat :=
  let b := N_of_ascii c in
  let lone := (56320 + b, 1%nat)%N in
  if (b <? 128)%N then (b, 1%nat)
  else
    match continuations r with
    | x1 :: t =>
        if ((194 <=? b) && (b <=? 223))%N then ((b - 192) * 64 + x1, 2%nat)%N
        else
          match t with
          | x2 :: t' =>
              if ((224 <=? b) && (b <=? 239))%N then
                let cp := ((b - 224) * 4096 + x1 * 64 + x2)%N in
                if ((2048 <=? cp) && negb ((55296 <=? cp) && (cp <=? 57343)))%N
                then (cp, 3%nat) else lone
              else
                match t' with
                | x3 :: _ =>
                    if ((240 <=? b) && (b <=? 244))%N then
                      let cp := ((b - 240) * 262144 + x1 * 4096 + x2 * 64 + x3)%N in
                      if ((65536 <=? cp) && (cp <=? 1114111))%N
                      then (cp, 4%nat) else lone
                    else lone
                | [] => lone
                end
          | [] => lone
          end
    | [] => lone
    end.

(** [chars_go skip s]: the [skip] bytes that the character begun before [s]
    still owns, then the characters that follow. *)
Fixpoint chars_go (skip : nat) (s : string) : string * list char :=
  match s with
  | EmptyString => (EmptyString, [])
  | String c r =>
      match skip with
      | S k => let '(owned, cs) := chars_go k r in (String c owned, cs)
      | O =>
          let '(cp, len) := head_char c r in
          let '(owned, cs) := chars_go (pred len) r in
          (EmptyString, (cp, String c owned) :: cs)
      end
  end.

(** [list(s)], each character with its bytes *)
Definition chars (s : string) : list char := snd (chars_go 0 s).

(** [''.join(cs)] *)
Fixpoint bytes (cs : list char) : string :=
  match cs with
  | [] => EmptyString
  | c :: r => snd c +:+ bytes r
  end.

Section Classes.
Variable u : Ucd.

(** [Py_UNICODE_TODECIMAL]: the value of a decimal digit, which is what
    [\d] matches and [int] reads. *)
Definition digit_value (cp : N) : option N :=
  if (cp <? 128)%N then
    if ((48 <=? cp) && (cp <=? 57))%N then Some (cp - 48)%N else None
  else
    match decimal u cp with
    | Some d => if (d <? 10)%N then Some d else None
    | None => None
    end.

Definition isdigit (c : char) : bool :=
  match digit_value (fst c) with Some _ => true | None => false end.

(** [Py_UNICODE_ISSPACE]: in ASCII tab, LF, VT, FF, CR, FS, GS, RS, US and
    space. *)
Definition isspace (c : char) : bool :=
  let cp := fst c in
  if (cp <? 128)%N then (((9 <=? cp) && (cp <=? 13)) || ((28 <=? cp) && (cp <=? 32)))%N
  else whitespace u cp.

Fixpoint lstrip (cs : list char) : list char :=
  match cs with
  | c :: r => if isspace c then lstrip r else cs
  | [] => []
  end.

Definition rstrip (cs : list char) : list char := rev (lstrip (rev cs)).

(** The characters of [s.strip()], and [s.strip()] itself. *)
Definition stripped (s : string) : list char := rstrip (lstrip (chars s)).
Definition strip (s : string) : string := bytes (stripped s).

(** The longest run of digits at the head, and what follows it. *)
Fixpoint span_digits (cs : list char) : list char * list char :=
  match cs with
  | c :: r =>
      if isdigit c then let '(d, t) := span_digits r in (c :: d, t)
      else ([], cs)
  | [] => ([], [])
  end.

(** The number a run of digits denotes: Horner's rule in base ten. *)
Fixpoint int_from (acc : N) (ds : list char) : N :=
  match ds with
  | c :: r => int_from (10 * acc + default 0 (digit_value (fst c)))%N r
  | [] => acc
  end.

Definition int_value (ds : list char) : N := int_from 0 ds.

(** Python's [$] (no MULTILINE flag): the end of the text, or the position
    just before a line feed that ends the text. *)
Definition at_dollar (cs : list char) : bool :=
  match cs with
  | [] => true
  | [c] => (fst c =? 10)%N
  | _ => false
  end.

(** [\d+] followed by [k]: the run is greedy, and giving digits back can
    never help here because what follows the run in the patterns below is a
    dot, the end of the text, or nothing. *)
Definition digits1 {A} (cs : list char) (k : list char -> list char -> option A)
  : option A :=
  let '(d, t) := span_digits cs in
  match d with
  | [] => None
  | _ => k d t
  end.

Definition dot {A} (cs : list char) (k : list char -> option A) : option A :=
  match cs with
  | c :: r => if (fst c =? 46)%N then k r else None
  | [] => None
  end.

(** [re.match(r'^(\d+)\.(\d+)\.(\d+)$', s)] on the characters of [s]: the
    three groups. *)
Definition match_version (cs : list char) : option (list char * list char * list char) :=
  digits1 cs (fun g1 s1 => dot s1 (fun s2 =>
  digits1 s2 (fun g2 s3 => dot s3 (fun s4 =>
  digits1 s4 (fun g3 s5 =>
  if at_dollar s5 then Some (g1, g2, g3) else None))))).

End Classes.

(** [s.isascii()] *)
Fixpoint isascii (s : string) : bool :=
  match s with
  | EmptyString => true
  | String c r => (N_of_ascii c <? 128)%N && isascii r
  end.

(** [sep.join(l)] *)
Fixpoint join (sep : string) (l : list string) : string :=
  match l with
  | [] => ""
  | [x] => x
  | x :: r => x +:+ sep +:+ join sep r
  end.

End Text.

(** ** Paths

    A path is the list of its [pathlib] parts, the anchor first.  [p / name]
    with a plain file name appends one part.  Reading a path from a string,
    printing it and taking its parent follow the rules of the operating
    system's path flavour and belong to the [Host]. *)

Abbreviation path := (list string).

Definition joinpath (p : path) (name : string) : path := p ++ [name].
Infix "</>" := joinpath (at level 40, left associativity).

(** ** Exceptions and outcomes *)

Inductive exn : Type :=
| SystemExit (code : Z)                      (* [sys.exit(code)] *)
| CalledProcessError (cmd : list string) (returncode : Z)
                     (out err : option string)
| FileNotFoundError (filename : string)
| PermissionError (filename : string)
| IsADirectoryError (filename : string)
| TimeoutExpired (cmd : list string)
| JSONDecodeError (doc : string)
| TypeError (msg : string)
| ValueError (msg : string)
| RuntimeError (msg : string).               (* any other [Exception] *)

(** [isinstance(e, Exception)]: [SystemExit] derives from [BaseException]
    only, so [except Exception] lets it through. *)
Definition is_Exception (e : exn) : bool :=
  match e with SystemExit _ => false | _ => true end.

Inductive outcome (A : Type) : Type :=
| Returned (a : A)
| Raised (e : exn).
Arguments Returned {A} a.
Arguments Raised {A} e.

(** ** JSON documents as [json.loads] builds them: an object is a [dict],
    which keeps its keys in insertion order. *)

Inductive json : Type :=
| JNull
| JBool (b : bool)
| JNumber (literal : string)
| JString (s : string)
| JArray (items : list json)
| JObject (members : list (string * json)).

(** [d[key] = value] on a [dict]: an existing key keeps its place. *)
Fixpoint dict_set (key : string) (value : json) (d : list (string * json))
  : list (string * json) :=
  match d with
  | [] => [(key, value)]
  | (k, v) :: r =>
      if String.eqb k key then (k, value) :: r else (k, v) :: dict_set key value r
  end.

Inductive indent := Spaces (n : nat) | Tab.

(** ** The host: what the script observes and cannot change *)

(** What a program does once started: its exit code and the text on its two
    output streams; [slow] marks a run that outlasts the 5 s allowed to the
    [npm] queries. *)
Record completed := Completed {
  returncode : Z;
  out_text : string;
  err_text : string;
  slow : bool }.

Inductive launch : Type :=
| NoSuchFile                                  (* nothing to execute under that name *)
| NotExecutable                               (* a file, but it cannot be run *)
| Runs (behaviour : list string -> option path -> completed).

Record Host := {
  (* the interpreter *)
  ucd : Ucd;                                  (* its character database *)
  int_max_str_digits : N;                     (* [sys.get_int_max_str_digits()], 0: no limit *)
  (* platform *)
  platform_system : string;                   (* [platform.system()] *)
  script_dir : path;                          (* [Path(__file__).parent.resolve()] *)
  (* pathlib, for this operating system *)
  Path : string -> path;                      (* [Path(s)] *)
  fspath : path -> string;                    (* [str(p)] *)
  parent : path -> path;                      (* [p.parent] *)
  expanduser : string -> string;              (* [os.path.expanduser] *)
  (* processes *)
  which : string -> option string;            (* [shutil.which] *)
  executable : string -> launch;              (* what [argv[0]] starts *)
  (* the json module *)
  json_loads : string -> option json;
  json_dumps : indent -> json -> string;
  (* [str(e)] for an exception raised by the runtime *)
  strerror : exn -> string }.

(** ** The world: what the script changes *)

Inductive spawn_result := SpawnNotFound | SpawnDenied | SpawnTimedOut | SpawnExited (rc : Z).

Record World := mkWorld {
  files : gmap path string;                   (* regular files and their text *)
  dirs : gset path;                           (* directories *)
  unwritable : gset path;                     (* paths that cannot be opened for writing *)
  environ : gmap string string;               (* [os.environ] *)
  stdout : list string;                       (* every chunk written, oldest first *)
  spawned : list (list string * spawn_result);(* every [subprocess.run], oldest first *)
  clock : Z;                                  (* [time.time()], in seconds *)
  VERBOSE : bool;                             (* module globals *)
  CMAKE_PATH : string;
  PNPM_PATH : string }.

Definition set_files (f : gmap path string) (w : World) : World :=
  mkWorld f (dirs w) (unwritable w) (environ w) (stdout w) (spawned w) (clock w)
          (VERBOSE w) (CMAKE_PATH w) (PNPM_PATH w).
Definition set_environ (e : gmap string string) (w : World) : World :=
  mkWorld (files w) (dirs w) (unwritable w) e (stdout w) (spawned w) (clock w)
          (VERBOSE w) (CMAKE_PATH w) (PNPM_PATH w).
Definition set_stdout (o : list string) (w : World) : World :=
  mkWorld (files w) (dirs w) (unwritable w) (environ w) o (spawned w) (clock w)
          (VERBOSE w) (CMAKE_PATH w) (PNPM_PATH w).
Definition set_spawned (l : list (list string * spawn_result)) (w : World) : World :=
  mkWorld (files w) (dirs w) (unwritable w) (environ w) (stdout w) l (clock w)
          (VERBOSE w) (CMAKE_PATH w) (PNPM_PATH w).
Definition set_VERBOSE (b : bool) (w : World) : World :=
  mkWorld (files w) (dirs w) (unwritable w) (environ w) (stdout w) (spawned w) (clock w)
          b (CMAKE_PATH w) (PNPM_PATH w).
Definition set_CMAKE_PATH (s : string) (w : World) : World :=
  mkWorld (files w) (dirs w) (unwritable w) (environ w) (stdout w) (spawned w) (clock w)
          (VERBOSE w) s (PNPM_PATH w).
Definition set_PNPM_PATH (s : string) (w : World) : World :=
  mkWorld (files w) (dirs w) (unwritable w) (environ w) (stdout w) (spawned w) (clock w)
          (VERBOSE w) (CMAKE_PATH w) s.

(** ** Python functions as state transformers *)

Definition M (A : Type) : Type := World -> outcome A * World.

Definition ret {A} (a : A) : M A := fun w => (Returned a, w).
Definition raise {A} (e : exn) : M A := fun w => (Raised e, w).
Definition bind {A B} (m : M A) (k : A -> M B) : M B :=
  fun w => match m w with
           | (Returned a, w') => k a w'
           | (Raised e, w') => (Raised e, w')
           end.

Notation "'let*' x ':=' m 'in' k" := (bind m (fun x => k))
  (at level 10, x pattern, m at level 100, k at level 200).
Notation "m ';;' k" := (bind m (fun _ => k))
  (at level 100, k at level 200, right associativity).

(** [try: body  except ...]: [handler e] is the clause that catches [e], if
    there is one; an exception no clause catches goes on upwards. *)
Definition try_with {A} (body : M A) (handler : exn -> option (M A)) : M A :=
  fun w => match body w with
           | (Raised e, w') =>
               match handler e with
               | Some k => k w'
               | None => (Raised e, w')
               end
           | r => r
           end.

(** A bare [except:], which catches everything. *)
Definition try_except {A} (body : M A) (handler : M A) : M A :=
  try_with body (fun _ => Some handler).

Definition get {A} (f : World -> A) : M A := fun w => (Returned (f w), w).
Definition modify (f : World -> World) : M unit := fun w => (Returned tt, f w).

Definition when (b : bool) (m : M unit) : M unit := if b then m else ret tt.

(** The world a computation leaves behind, and its outcome. *)
Definition world_after {A} (m : M A) (w : World) : World := snd (m w).
Definition outcome_of {A} (m : M A) (w : World) : outcome A := fst (m w).

(** ** Terminal output *)

Definition write (s : string) : M unit :=
  modify (fun w => set_stdout (stdout w ++ [s]) w).

(** [print(s)] *)
Definition print (s : string) : M unit := write (s +:+ "
").

Module Style.
Definition ESC : string := String (ascii_of_N 27) "".
Definition CYAN := ESC +:+ "[36m".
Definition GREEN := ESC +:+ "[32m".
Definition YELLOW := ESC +:+ "[33m".
Definition RED := ESC +:+ "[31m".
Definition BLUE := ESC +:+ "[34m".
Definition MAGENTA := ESC +:+ "[35m".
Definition GRAY := ESC +:+ "[90m".
Definition WHITE := ESC +:+ "[97m".
Definition BOLD := ESC +:+ "[1m".
Definition DIM := ESC +:+ "[2m".
Definition RESET := ESC +:+ "[0m".
Definition ARROW := "→".
Definition CHECK := "✓".
Definition CROSS := "✗".
Definition INFO := "ℹ".
Definition WARN := "⚠".
Definition ROCKET := "▲".
Definition DOT := "•".
Definition SPINNER : list string :=
  ["⠋"; "⠙"; "⠹"; "⠸"; "⠼"; "⠴"; "⠦"; "⠧"; "⠇"; "⠏"].
End Style.

(** [log(message, prefix, color)] *)
Definition log (message : string) (prefix color : string) : M unit :=
  if String.eqb color "" then print ("  " +:+ prefix +:+ " " +:+ message)
  else print ("  " +:+ color +:+ prefix +:+ Style.RESET +:+ " " +:+ message).

Definition log_dim (message : string) : M unit :=
  print (Style.DIM +:+ "    " +:+ message +:+ Style.RESET).

Definition print_header : M unit :=
  print "" ;;
  print (Style.BOLD +:+ Style.CYAN +:+ Style.ROCKET +:+ " Vayu Build" +:+ Style.RESET) ;;
  print "".

(** [print_error]: the message between two empty lines, then [sys.exit(1)].
    It never returns, so it fits wherever a value is expected. *)
Definition print_error {A} (message : string) : M A :=
  print "" ;;
  print ("  " +:+ Style.RED +:+ Style.CROSS +:+ " " +:+ message +:+ Style.RESET) ;;
  print "" ;;
  raise (SystemExit 1).

(** ** The progress indicator *)

(** The [threading.Thread] of a spinner that was started: still drawing, or
    joined. *)
Inductive thread_state := Alive | Joined.

Record Spinner := mkSpinner {
  message : string;
  running : bool;
  thread : option thread_state }.

(** [Spinner(message)] *)
Definition Spinner_init (message : string) : Spinner := mkSpinner message false None.

(** The frames [_spin] draws: frame [i] shows glyph [i mod 10]. *)
Definition spin_frame (message : string) (idx : nat) : string :=
  String (ascii_of_N 13) "" +:+ "  " +:+ Style.CYAN
    +:+ nth (idx mod length Style.SPINNER) Style.SPINNER "" +:+ Style.RESET
    +:+ " " +:+ message.

Fixpoint write_all (l : list string) : M unit :=
  match l with
  | [] => ret tt
  | s :: r => write s ;; write_all r
  end.

(** [Spinner.start] *)
Definition Spinner_start (self : Spinner) : M Spinner :=
  let* verbose := get VERBOSE in
  if negb verbose then ret (mkSpinner (message self) true (Some Alive))
  else ret self.

(** [Spinner.stop].  [frames] is how many frames the drawing thread got to
    draw before it saw [running = False]; they are gathered here, at the
    [join], and only a live thread has any. *)
Definition Spinner_stop (frames : nat) (symbol color : string) (self : Spinner)
  : M Spinner :=
  let* verbose := get VERBOSE in
  if negb verbose then
    (match thread self with
     | Some Alive => write_all (map (spin_frame (message self)) (seq 0 frames))
     | _ => ret tt
     end) ;;
    write (String (ascii_of_N 13) "" +:+ "  " +:+ color +:+ symbol +:+ Style.RESET
             +:+ " " +:+ message self +:+ "
") ;;
    ret (mkSpinner (message self) false
           (match thread self with Some _ => Some Joined | None => None end))
  else ret self.

(** ** [re.sub] for the patterns of the version bump

    [sub_from m repl skip s] scans [s] from the left.  [m] tries the pattern
    at the current position and answers with the length of the match; the
    match is replaced by [repl] and the scan goes on after it ([skip] counts
    the matched characters still to drop).  None of the patterns matches the
    empty text, and the replacement texts hold no backslash, so they are
    inserted as they are. *)

Module Re.

Fixpoint sub_from (m : string -> option nat) (repl : string) (skip : nat)
                  (s : string) : string :=
  match s with
  | EmptyString => EmptyString
  | String c r =>
      match skip with
      | S k => sub_from m repl k r
      | O =>
          match m s with
          | Some (S len) => repl +:+ sub_from m repl len r
          | _ => String c (sub_from m repl 0 r)
          end
      end
  end.

Definition sub (m : string -> option nat) (repl text : string) : string :=
  sub_from m repl 0 text.

(** A literal at the head of [s]: what follows it. *)
Fixpoint literal (p s : string) : option string :=
  match p, s with
  | EmptyString, _ => Some s
  | String a p', String b s' => if Ascii.eqb a b then literal p' s' else None
  | _, _ => None
  end.

Section Digits.
Variable u : Ucd.

(** [\d+]: the number of bytes of the digits taken, and what follows. *)
Definition digits (s : string) : option (nat * string) :=
  let '(d, t) := Text.span_digits u (Text.chars s) in
  match d with
  | [] => None
  | _ => Some (String.length (Text.bytes d), Text.bytes t)
  end.

(** [p \d+] for a literal [p] *)
Definition literal_digits (p : string) (s : string) : option nat :=
  match literal p s with
  | Some s1 =>
      match digits s1 with
      | Some (n, _) => Some (String.length p + n)
      | None => None
      end
  | None => None
  end.

(** [VERSION \d+\.\d+\.\d+] *)
Definition cmake_version (s : string) : option nat :=
  match literal "VERSION " s with
  | Some s1 =>
      match digits s1 with
      | Some (n1, String "." s2) =>
          match digits s2 with
          | Some (n2, String "." s3) =>
              match digits s3 with
              | Some (n3, _) => Some (8 + n1 + 1 + n2 + 1 + n3)
              | None => None
              end
          | _ => None
          end
      | _ => None
      end
  | None => None
  end.

End Digits.

(** The length of the longest prefix of the current line ([.] stops at a
    line feed) that ends in a double quote. *)
Fixpoint upto_last_quote (s : string) : option nat :=
  match s with
  | EmptyString => None
  | String c r =>
      if (N_of_ascii c =? 10)%N then None
      else match upto_last_quote r with
           | Some n => Some (S n)
           | None => if (N_of_ascii c =? 34)%N then Some 1 else None
           end
  end.

(** [#define VAYU_VERSION_STRING ".*"]: [.*] is greedy and is cut back to the
    last double quote of the line. *)
Definition version_string (s : string) : option nat :=
  let p := "#define VAYU_VERSION_STRING " +:+ String (ascii_of_N 34) "" in
  match literal p s with
  | Some s1 =>
      match upto_last_quote s1 with
      | Some n => Some (String.length p + n)
      | None => None
      end
  | None => None
  end.

End Re.

(** ** The script *)

Section Script.

Variable h : Host.

(** *** Files *)

(** [p.exists()] *)
Definition exists_ (p : path) : M bool :=
  get (fun w => bool_decide (p ∈ dom (files w)) || bool_decide (p ∈ dirs w)).

(** [os.path.isdir] *)
Definition isdir (p : path) : M bool := get (fun w => bool_decide (p ∈ dirs w)).

(** [p.read_text()] *)
Definition read_text (p : path) : M string :=
  fun w => match files w !! p with
           | Some s => (Returned s, w)
           | None =>
               if bool_decide (p ∈ dirs w) then (Raised (IsADirectoryError (fspath h p)), w)
               else (Raised (FileNotFoundError (fspath h p)), w)
           end.

(** [p.write_text(s)]: the file is opened for writing (which fails for an
    unwritable path and leaves everything as it was), then holds [s]. *)
Definition write_text (p : path) (s : string) : M unit :=
  fun w => if bool_decide (p ∈ unwritable w)
           then (Raised (PermissionError (fspath h p)), w)
           else (Returned tt, set_files (<[p := s]> (files w)) w).

(** *** Platform *)

Definition detect_platform : M (string * string) :=
  let system := platform_system h in
  if String.eqb system "Windows" then ret ("Windows", "windows")
  else if String.eqb system "Linux" then ret ("Linux", "linux")
  else if String.eqb system "Darwin" then ret ("macOS", "macos")
  else print_error ("Unsupported platform: " +:+ system).

(** *** Version bump *)

(** The guard of CPython on conversions between [int] and [str] in base
    ten: a text of more than [sys.get_int_max_str_digits()] digits is
    refused (the guard looks at texts of more than 640 digits only, and a
    limit of 0 switches it off). *)
Definition over_limit (digits : nat) : bool :=
  let limit := int_max_str_digits h in
  ((640 <? N.of_nat digits) && (0 <? limit) && (limit <? N.of_nat digits))%N.

(** [int(g)] for a run of digits [g] *)
Definition int (g : list Text.char) : M N :=
  if over_limit (length g) then
    raise (ValueError ("Exceeds the limit (" +:+ pretty (int_max_str_digits h)
                         +:+ " digits) for integer string conversion: value has "
                         +:+ pretty (N.of_nat (length g))
                         +:+ " digits; use sys.set_int_max_str_digits() to increase the limit"))
  else ret (Text.int_value (ucd h) g).

(** The text of [str(n)], when the guard lets it through. *)
Definition decimal_text (n : N) : option string :=
  if over_limit (String.length (pretty n)) then None else Some (pretty n).

(** [str(n)], also [f"{n}"], for a non-negative integer *)
Definition str (n : N) : M string :=
  match decimal_text n with
  | Some text => ret text
  | None =>
      raise (ValueError ("Exceeds the limit (" +:+ pretty (int_max_str_digits h)
                           +:+ " digits) for integer string conversion; "
                           +:+ "use sys.set_int_max_str_digits() to increase the limit"))
  end.

Definition parse_version (version_str : string) : M (N * N * N) :=
  match Text.match_version (ucd h) (Text.stripped (ucd h) version_str) with
  | None =>
      print_error ("Invalid version format: " +:+ version_str +:+ " (expected: X.Y.Z)")
  | Some (g1, g2, g3) =>
      let* major := int g1 in
      let* minor := int g2 in
      let* patch := int g3 in
      ret (major, minor, patch)
  end.

Definition is_keyword (bump_type : string) : bool :=
  bool_decide (bump_type ∈ ["major"; "minor"; "patch"]).

(** [data['version'] = new_version] on what [json.loads] returned. *)
Definition set_version (data : json) (new_version : string) : M json :=
  match data with
  | JObject members => ret (JObject (dict_set "version" (JString new_version) members))
  | _ => raise (TypeError "object does not support item assignment")
  end.

Definition loads (text : string) : M json :=
  match json_loads h text with
  | Some data => ret data
  | None => raise (JSONDecodeError text)
  end.

Definition ok_line (what : string) : M unit :=
  log (Style.GREEN +:+ Style.CHECK +:+ Style.RESET +:+ " " +:+ what) "" "".

(** The five files that carry the version. *)
Definition version_file (project_root : path) : path := project_root </> "VERSION".
Definition engine_cmake (project_root : path) : path :=
  project_root </> "engine" </> "CMakeLists.txt".
Definition engine_version_hpp (project_root : path) : path :=
  project_root </> "engine" </> "include" </> "vayu" </> "version.hpp".
Definition engine_vcpkg_json (project_root : path) : path :=
  project_root </> "engine" </> "vcpkg.json".
Definition app_package_json (project_root : path) : path :=
  project_root </> "app" </> "package.json".

(** The text [re.sub] leaves in [CMakeLists.txt] and in [version.hpp]. *)
Definition cmake_text (new_version cmake_content : string) : string :=
  Re.sub (Re.cmake_version (ucd h)) ("VERSION " +:+ new_version) cmake_content.

(** [new_major], [new_minor] and [new_patch] are the three numbers as the
    f-strings spell them. *)
Definition hpp_text (new_version new_major new_minor new_patch : string)
                    (hpp_content : string) : string :=
  let hpp_content :=
    Re.sub (Re.literal_digits (ucd h) "#define VAYU_VERSION_MAJOR ")
           ("#define VAYU_VERSION_MAJOR " +:+ new_major) hpp_content in
  let hpp_content :=
    Re.sub (Re.literal_digits (ucd h) "#define VAYU_VERSION_MINOR ")
           ("#define VAYU_VERSION_MINOR " +:+ new_minor) hpp_content in
  let hpp_content :=
    Re.sub (Re.literal_digits (ucd h) "#define VAYU_VERSION_PATCH ")
           ("#define VAYU_VERSION_PATCH " +:+ new_patch) hpp_content in
  Re.sub Re.version_string
         ("#define VAYU_VERSION_STRING " +:+ String (ascii_of_N 34) "" +:+ new_version
            +:+ String (ascii_of_N 34) "") hpp_content.

(** The lines that show the transition. *)
Definition print_transition (current_version new_version : string) : M unit :=
  print "" ;;
  print ("  " +:+ Style.BOLD +:+ "Version Bump" +:+ Style.RESET) ;;
  print "" ;;
  print ("  " +:+ Style.CYAN +:+ current_version +:+ Style.RESET +:+ " " +:+ Style.ARROW
           +:+ " " +:+ Style.GREEN +:+ new_version +:+ Style.RESET) ;;
  print "".

(** [# Calculate new version]: the keywords count one component up and
    reset the lower ones; anything else is taken as the version itself,
    once it has passed the parse. *)
Definition calculate_new_version (bump_type : string) (major minor patch : N)
  : M string :=
  if is_keyword bump_type then
    if String.eqb bump_type "major" then
      let* a := str (major + 1) in
      ret (a +:+ ".0.0")
    else if String.eqb bump_type "minor" then
      let* a := str major in
      let* b := str (minor + 1) in
      ret (a +:+ "." +:+ b +:+ ".0")
    else
      let* a := str major in
      let* b := str minor in
      let* c := str (patch + 1) in
      ret (a +:+ "." +:+ b +:+ "." +:+ c)
  else
    (* Specific version provided: validate it *)
    parse_version bump_type ;; ret bump_type.

(** [bump_version], first part (up to the test of [dry_run]): read the
    current version, work out the new one and show both.  The answer is the
    pair of local variables [current_version] and [new_version]. *)
Definition plan_bump (bump_type : string) (project_root : path) : M (string * string) :=
  (* Read current version *)
  let* present := exists_ (version_file project_root) in
  when (negb present)
       (print_error ("VERSION file not found: " +:+ fspath h (version_file project_root))) ;;
  let* text := read_text (version_file project_root) in
  let current_version := Text.strip (ucd h) text in
  let* (major, minor, patch) := parse_version current_version in
  let* new_version := calculate_new_version bump_type major minor patch in
  print_transition current_version new_version ;;
  ret (current_version, new_version).

(** [bump_version], second part: the real run.  It is a sequence of five
    blocks, one per file, named here after the comments that head them in
    the source. *)

(** [# Update VERSION file] *)
Definition update_version_file (new_version : string) (project_root : path) : M unit :=
  ok_line "Updating VERSION" ;;
  write_text (version_file project_root) (new_version +:+ "
").

(** [# Update CMakeLists.txt] *)
Definition update_cmake (new_version : string) (project_root : path) : M unit :=
  ok_line "Updating engine/CMakeLists.txt" ;;
  let* cmake_content := read_text (engine_cmake project_root) in
  let cmake_content := cmake_text new_version cmake_content in
  write_text (engine_cmake project_root) cmake_content.

(** [# Update version.hpp] *)
Definition update_version_hpp (new_version : string) (new_major new_minor new_patch : N)
                              (project_root : path) : M unit :=
  ok_line "Updating engine/include/vayu/version.hpp" ;;
  let* hpp_content := read_text (engine_version_hpp project_root) in
  let* new_major := str new_major in
  let* new_minor := str new_minor in
  let* new_patch := str new_patch in
  let hpp_content := hpp_text new_version new_major new_minor new_patch hpp_content in
  write_text (engine_version_hpp project_root) hpp_content.

(** [# Update engine/vcpkg.json] *)
Definition update_vcpkg_json (new_version : string) (project_root : path) : M unit :=
  ok_line "Updating engine/vcpkg.json" ;;
  let* vcpkg_text := read_text (engine_vcpkg_json project_root) in
  let* vcpkg_data := loads vcpkg_text in
  let* vcpkg_data := set_version vcpkg_data new_version in
  write_text (engine_vcpkg_json project_root) (json_dumps h (Spaces 2) vcpkg_data +:+ "
").

(** [# Update app/package.json] *)
Definition update_package_json (new_version : string) (project_root : path) : M unit :=
  ok_line "Updating app/package.json" ;;
  let* package_text := read_text (app_package_json project_root) in
  let* package_data := loads package_text in
  let* package_data := set_version package_data new_version in
  write_text (app_package_json project_root) (json_dumps h Tab package_data +:+ "
").

(** The closing report. *)
Definition print_bumped (new_version : string) : M unit :=
  print "" ;;
  print ("  " +:+ Style.GREEN +:+ Style.CHECK +:+ " Version bumped to " +:+ new_version
           +:+ Style.RESET) ;;
  print "" ;;
  print ("  " +:+ Style.BOLD +:+ "Next Steps" +:+ Style.RESET) ;;
  print "" ;;
  print ("  " +:+ Style.DIM +:+ "Review changes" +:+ Style.RESET) ;;
  print ("  " +:+ Style.CYAN +:+ "$ git diff" +:+ Style.RESET) ;;
  print "" ;;
  let* (system_name, _) := detect_platform in
  let cmd_sep := if String.eqb system_name "Windows" then ";" else "&&" in
  print ("  " +:+ Style.DIM +:+ "Commit and tag" +:+ Style.RESET) ;;
  print ("  " +:+ Style.CYAN +:+ "$ git commit -am " +:+ String (ascii_of_N 34) ""
           +:+ "chore: bump version to " +:+ new_version +:+ String (ascii_of_N 34) ""
           +:+ Style.RESET) ;;
  print ("  " +:+ Style.CYAN +:+ "$ git tag v" +:+ new_version +:+ Style.RESET) ;;
  print ("  " +:+ Style.CYAN +:+ "$ git push " +:+ cmd_sep +:+ " git push --tags"
           +:+ Style.RESET) ;;
  print "".

Definition rewrite_files (new_version : string) (project_root : path) : M unit :=
  let* (new_major, new_minor, new_patch) := parse_version new_version in
  update_version_file new_version project_root ;;
  update_cmake new_version project_root ;;
  update_version_hpp new_version new_major new_minor new_patch project_root ;;
  update_vcpkg_json new_version project_root ;;
  update_package_json new_version project_root ;;
  print_bumped new_version.

Definition dry_run_notice : M unit :=
  print ("  " +:+ Style.YELLOW +:+ Style.INFO +:+ " Dry run - no changes will be made"
           +:+ Style.RESET) ;;
  print "".

Definition bump_version (bump_type : string) (project_root : path) (dry_run : bool)
  : M unit :=
  let* (current_version, new_version) := plan_bump bump_type project_root in
  if dry_run then dry_run_notice
  else rewrite_files new_version project_root.

(** *** Subprocesses *)

Definition record_spawn (argv : list string) (r : spawn_result) : M unit :=
  modify (fun w => set_spawned (spawned w ++ [(argv, r)]) w).

(** [subprocess.run(argv, cwd=cwd, capture_output=capture, text=True,
    check=check, timeout=5 if timeout else None)].  Without capture the
    child writes to the terminal itself and the result holds no text. *)
Definition subprocess_run (argv : list string) (cwd : option path)
                          (capture check timeout : bool) : M completed :=
  match argv with
  | [] => raise (RuntimeError "list index out of range")
  | exe :: args =>
      match executable h exe with
      | NoSuchFile => record_spawn argv SpawnNotFound ;; raise (FileNotFoundError exe)
      | NotExecutable => record_spawn argv SpawnDenied ;; raise (PermissionError exe)
      | Runs behaviour =>
          let c := behaviour args cwd in
          if timeout && slow c then
            record_spawn argv SpawnTimedOut ;; raise (TimeoutExpired argv)
          else
            record_spawn argv (SpawnExited (returncode c)) ;;
            when (negb capture) (write (out_text c)) ;;
            let seen (s : string) := if capture then Some s else None in
            if check && negb (returncode c =? 0)%Z then
              raise (CalledProcessError argv (returncode c)
                       (seen (out_text c)) (seen (err_text c)))
            else
              ret (Completed (returncode c)
                     (if capture then out_text c else "")
                     (if capture then err_text c else "") (slow c))
      end
  end.

(** *** Looking for tools *)

(** The value of [x] in [if x:] for an optional string: [None] and the empty
    string both count as false. *)
Definition truthy (o : option string) : option string :=
  match o with
  | Some EmptyString => None
  | _ => o
  end.

Definition environ_get (name : string) : M (option string) :=
  get (fun w => environ w !! name).

(** [for path in paths: if path.exists(): return str(path)] *)
Fixpoint first_existing (paths : list path) : M (option string) :=
  match paths with
  | [] => ret None
  | p :: r =>
      let* found := exists_ p in
      if found then ret (Some (fspath h p)) else first_existing r
  end.

(** A step of a search that either returns from the function or lets the
    search go on. *)
Definition or_else (m k : M (option string)) : M (option string) :=
  let* r := m in
  match r with
  | Some x => ret (Some x)
  | None => k
  end.

Definition find_visual_studio : M (option string) :=
  let* (system_name, _) := detect_platform in
  if negb (String.eqb system_name "Windows") then ret None else
  let* program_files := environ_get "ProgramFiles(x86)" in
  let vswhere_path :=
    Path h (default "C:\Program Files (x86)" program_files)
      </> "Microsoft Visual Studio" </> "Installer" </> "vswhere.exe" in
  let* present := exists_ vswhere_path in
  if negb present then ret None else
  try_except
    (let* result :=
       subprocess_run [fspath h vswhere_path; "-latest"; "-requires";
                       "Microsoft.VisualStudio.Component.VC.Tools.x86.x64";
                       "-property"; "installationPath"] None true true false in
     let vs_path := Text.strip (ucd h) (out_text result) in
     match truthy (Some vs_path) with
     | Some _ =>
         let* there := exists_ (Path h vs_path) in
         if there then ret (Some vs_path) else ret None
     | None => ret None
     end)
    (ret None).

Definition find_cmake_windows : M (option string) :=
  (* Check PATH first *)
  match truthy (which h "cmake") with
  | Some cmake_cmd => ret (Some cmake_cmd)
  | None =>
      or_else
        (* Check Visual Studio *)
        (let* vs_path := find_visual_studio in
         match truthy vs_path with
         | Some vs =>
             first_existing
               [Path h vs </> "Common7" </> "IDE" </> "CommonExtensions" </> "Microsoft"
                  </> "CMake" </> "CMake" </> "bin" </> "cmake.exe"]
         | None => ret None
         end)
        (* Check common paths *)
        (first_existing [Path h "C:/Program Files/CMake/bin/cmake.exe";
                         Path h "C:/Program Files (x86)/CMake/bin/cmake.exe"])
  end.

Definition find_pnpm_windows : M (option string) :=
  match truthy (which h "pnpm") with
  | Some pnpm_cmd => ret (Some pnpm_cmd)
  | None =>
      or_else
        (* npm's global prefix *)
        (try_except
           (let* result := subprocess_run ["npm"; "config"; "get"; "prefix"]
                                          None true true true in
            let npm_prefix := Text.strip (ucd h) (out_text result) in
            if negb (String.eqb npm_prefix "") && negb (String.eqb npm_prefix "undefined")
            then first_existing
                   [Path h npm_prefix </> "node_modules" </> ".bin" </> "pnpm.cmd";
                    Path h npm_prefix </> "node_modules" </> ".bin" </> "pnpm";
                    Path h npm_prefix </> "pnpm.cmd";
                    Path h npm_prefix </> "pnpm"]
            else ret None)
           (ret None))
     (or_else
        (* npm's global directory *)
        (try_except
           (let* result := subprocess_run ["npm"; "root"; "-g"] None true true true in
            let npm_global := Text.strip (ucd h) (out_text result) in
            if negb (String.eqb npm_global "")
            then first_existing
                   [parent h (Path h npm_global) </> "node_modules" </> ".bin" </> "pnpm.cmd";
                    parent h (Path h npm_global) </> "node_modules" </> ".bin" </> "pnpm";
                    parent h (parent h (Path h npm_global))
                      </> "node_modules" </> ".bin" </> "pnpm.cmd"]
            else ret None)
           (ret None))
     (or_else
        (* common npm locations *)
        (let* appdata := environ_get "APPDATA" in
         match truthy appdata with
         | Some dir => first_existing [Path h dir </> "npm" </> "pnpm.cmd";
                                       Path h dir </> "npm" </> "pnpm"]
         | None => ret None
         end)
        (* Program Files *)
        (let* program_files := environ_get "ProgramFiles" in
         let dir := Path h (default "C:/Program Files" program_files) in
         first_existing [dir </> "nodejs" </> "pnpm.cmd";
                         dir </> "nodejs" </> "pnpm";
                         dir </> "nodejs" </> "node_modules" </> "pnpm" </> "bin"
                           </> "pnpm.cmd"])))
  end.

(** [for env_var in names: root = os.environ.get(env_var);
     if root and test(Path(root)): return root] *)
Fixpoint first_env_root (test : path -> M bool) (names : list string)
  : M (option string) :=
  match names with
  | [] => ret None
  | env_var :: r =>
      let* value := environ_get env_var in
      match truthy value with
      | Some vcpkg_root =>
          let* good := test (Path h vcpkg_root) in
          if good then ret (Some vcpkg_root) else first_env_root test r
      | None => first_env_root test r
      end
  end.

(** [for path in paths: if path and path.exists() and
     (path / 'vcpkg.exe').exists(): return str(path)] *)
Fixpoint first_vcpkg_dir (paths : list (option path)) : M (option string) :=
  match paths with
  | [] => ret None
  | None :: r => first_vcpkg_dir r
  | Some p :: r =>
      let* there := exists_ p in
      let* exe := exists_ (p </> "vcpkg.exe") in
      if there && exe then ret (Some (fspath h p)) else first_vcpkg_dir r
  end.

Definition find_vcpkg_windows : M (option string) :=
  or_else (first_env_root exists_ ["VCPKG_ROOT"; "VCPKG_INSTALLATION_ROOT"])
 (match truthy (which h "vcpkg") with
  | Some vcpkg_cmd => ret (Some (fspath h (parent h (Path h vcpkg_cmd))))
  | None =>
      or_else
        (let* vs_path := find_visual_studio in
         match truthy vs_path with
         | Some vs => first_vcpkg_dir [Some (Path h vs </> "VC" </> "vcpkg")]
         | None => ret None
         end)
        (let* userprofile := environ_get "USERPROFILE" in
         let* program_files := environ_get "ProgramFiles" in
         first_vcpkg_dir
           [Some (Path h "C:/vcpkg");
            Some (Path h "C:/tools/vcpkg");
            Some (Path h (expanduser h "~/vcpkg"));
            match truthy userprofile with
            | Some dir => Some (Path h dir </> "vcpkg")
            | None => None
            end;
            Some (Path h (default "C:/Program Files" program_files) </> "vcpkg")])
  end).

(** [s.split('\n')[0]] *)
Fixpoint first_line (s : string) : string :=
  match s with
  | EmptyString => EmptyString
  | String c r => if (N_of_ascii c =? 10)%N then EmptyString else String c (first_line r)
  end.

(** [result.stdout.split('\n')[0] if result.stdout else "installed"] *)
Definition version_of (result : completed) : string :=
  match out_text result with
  | EmptyString => "installed"
  | s => first_line s
  end.

(** The version probe: [subprocess.run(argv, capture_output=True, text=True,
    check=True)]. *)
Definition probe (argv : list string) : M completed :=
  subprocess_run argv None true true false.

(** The last part of [check_tool], shared by every tool. *)
Definition standard_check (name : string) (command : list string) : M (bool * string) :=
  match command with
  | [] => raise (RuntimeError "list index out of range")
  | command0 :: rest =>
      match truthy (which h command0) with
      | Some tool_path =>
          try_except
            (let* result := probe (tool_path :: rest) in
             let version := version_of result in
             when (String.eqb name "pnpm") (modify (set_PNPM_PATH tool_path)) ;;
             ret (true, version))
            (ret (false, ""))
      | None => ret (false, "")
      end
  end.

Definition check_tool (name : string) (command : list string) : M (bool * string) :=
  let* (system_name, _) := detect_platform in
  (* Special handling for CMake on Windows *)
  if String.eqb name "CMake" && String.eqb system_name "Windows" then
    let* cmake_path := find_cmake_windows in
    match truthy cmake_path with
    | Some cmake_path =>
        try_except
          (let* result := probe [cmake_path; "--version"] in
           let version := version_of result in
           modify (set_CMAKE_PATH cmake_path) ;;
           ret (true, version))
          (ret (false, ""))
    | None => ret (false, "")
    end
  (* Special handling for pnpm on Windows *)
  else if String.eqb name "pnpm" && String.eqb system_name "Windows" then
    let* pnpm_path := find_pnpm_windows in
    let* early :=
      match truthy pnpm_path with
      | Some pnpm_path =>
          try_except
            (let* result := probe [pnpm_path; "--version"] in
             let version := version_of result in
             modify (set_PNPM_PATH pnpm_path) ;;
             ret (Some (true, version)))
            (ret None)
      | None => ret None
      end in
    match early with
    | Some answer => ret answer
    | None => standard_check name command
    end
  else standard_check name command.

Definition check_vcpkg : M (option string) :=
  let* (system_name, _) := detect_platform in
  if String.eqb system_name "Windows" then find_vcpkg_windows
  else
    or_else (first_env_root isdir ["VCPKG_ROOT"; "VCPKG_INSTALLATION_ROOT"])
      match truthy (which h "vcpkg") with
      | Some vcpkg_cmd => ret (Some (fspath h (parent h (Path h vcpkg_cmd))))
      | None => ret None
      end.

(** One row of the status table: the tool, whether it is available, and its
    version or location. *)
Definition status : Type := string * bool * string.

Definition required_tools (skip_app : bool) : list (string * list string) :=
  ([("CMake", ["cmake"; "--version"]); ("Ninja", ["ninja"; "--version"])]
     ++ (if skip_app then [] else [("pnpm", ["pnpm"; "--version"])]))%list.

(** [for name, cmd in tools: ...]: the rows, and whether all were fine. *)
Fixpoint check_tools (tools : list (string * list string))
                     (results : list status) (all_ok : bool)
  : M (list status * bool) :=
  match tools with
  | [] => ret (results, all_ok)
  | (name, cmd) :: r =>
      let* (ok, version) := check_tool name cmd in
      check_tools r (results ++ [(name, ok, version)]) (all_ok && ok)
  end.

(** The first half of [check_prerequisites]: gathering the table. *)
Definition gather_prerequisites (skip_app : bool) : M (list status * bool) :=
  let tools := required_tools skip_app in
  let* (results, all_ok) := check_tools tools [] true in
  (* Check vcpkg separately *)
  let* vcpkg_root := check_vcpkg in
  match truthy vcpkg_root with
  | Some vcpkg_root =>
      modify (fun w => set_environ (<["VCPKG_ROOT" := vcpkg_root]> (environ w)) w) ;;
      ret ((results ++ [("vcpkg", true, vcpkg_root)])%list, all_ok)
  | None =>
      ret ((results ++ [("vcpkg", false, "not found")])%list, false)
  end.

Definition print_status (system_name : string) (row : status) : M unit :=
  let '(name, ok, info) := row in
  if ok then
    log (Style.GREEN +:+ Style.CHECK +:+ Style.RESET +:+ " " +:+ name) "" "" ;;
    if negb (String.eqb info "") then
      if bool_decide (name ∈ ["CMake"; "Ninja"; "pnpm"]) then log_dim info
      else
        let* verbose := get VERBOSE in
        when (String.eqb name "vcpkg" && (verbose || String.eqb system_name "Windows"))
             (log_dim info)
    else ret tt
  else
    log (Style.RED +:+ Style.CROSS +:+ Style.RESET +:+ " " +:+ name +:+ " " +:+ Style.GRAY
           +:+ "(missing)" +:+ Style.RESET) "" "".

Fixpoint for_each {A} (f : A -> M unit) (l : list A) : M unit :=
  match l with
  | [] => ret tt
  | x :: r => f x ;; for_each f r
  end.

(** The second half of [check_prerequisites]: printing the table and
    stopping the run if a tool is missing. *)
Definition report_prerequisites (results : list status) (all_ok : bool) : M unit :=
  let* (system_name, _) := detect_platform in
  for_each (print_status system_name) results ;;
  when (negb all_ok)
    (print "" ;;
     when (String.eqb system_name "Windows")
       (print ("  " +:+ Style.YELLOW +:+ Style.INFO +:+ " Windows Tips:" +:+ Style.RESET) ;;
        print ("  " +:+ Style.DIM +:+ "• Run from " +:+ String (ascii_of_N 34) ""
                 +:+ "Developer Command Prompt for VS" +:+ String (ascii_of_N 34) ""
                 +:+ " to use bundled tools" +:+ Style.RESET) ;;
        print ("  " +:+ Style.DIM +:+ "• Or install standalone: CMake, Ninja, vcpkg"
                 +:+ Style.RESET) ;;
        print ("  " +:+ Style.DIM
                 +:+ "• Set VCPKG_ROOT environment variable if vcpkg is installed"
                 +:+ Style.RESET) ;;
        print "") ;;
     print_error "Missing prerequisites - install them and try again") ;;
  print "".

Definition check_prerequisites (skip_app : bool) : M unit :=
  let* (results, all_ok) := gather_prerequisites skip_app in
  report_prerequisites results all_ok.

(** *** Running commands *)

(** [s.split('\n')] *)
Fixpoint split_lines (s : string) : list string :=
  match s with
  | EmptyString => [EmptyString]
  | String c r =>
      if (N_of_ascii c =? 10)%N then EmptyString :: split_lines r
      else match split_lines r with
           | l :: ls => String c l :: ls
           | [] => [String c EmptyString]
           end
  end.

(** [s.lower()] on ASCII letters *)
Definition lower_char (c : ascii) : ascii :=
  let n := N_of_ascii c in
  if ((65 <=? n) && (n <=? 90))%N then ascii_of_N (n + 32) else c.

Fixpoint lower (s : string) : string :=
  match s with
  | EmptyString => EmptyString
  | String c r => String (lower_char c) (lower r)
  end.

(** [kw in s] *)
Fixpoint contains (kw s : string) : bool :=
  String.prefix kw s ||
  match s with
  | EmptyString => false
  | String _ r => contains kw r
  end.

Definition highlighted (line : string) : bool :=
  existsb (fun kw => contains kw (lower line)) ["error"; "failed"; "fatal"].

(** [lines[-25:] if len(lines) > 25 else lines] *)
Definition last25 (lines : list string) : list string :=
  if (25 <? length lines)%nat then skipn (length lines - 25) lines else lines.

Definition print_command_error (cmd : list string) (exit_code : Z)
                               (output description : string) : M unit :=
  print "" ;;
  print ("  " +:+ Style.RED +:+ Style.CROSS +:+ " " +:+ description +:+ " failed"
           +:+ Style.RESET) ;;
  print "" ;;
  print ("  " +:+ Style.DIM +:+ "Command" +:+ Style.RESET) ;;
  print ("  " +:+ Style.GRAY +:+ "$ " +:+ Text.join " " cmd +:+ Style.RESET) ;;
  print "" ;;
  print ("  " +:+ Style.DIM +:+ "Exit code: " +:+ pretty exit_code +:+ Style.RESET) ;;
  let* verbose := get VERBOSE in
  when (negb (String.eqb output "") && negb verbose)
    (print "" ;;
     print ("  " +:+ Style.DIM +:+ "Output (last 25 lines)" +:+ Style.RESET) ;;
     print "" ;;
     let lines := split_lines (Text.strip (ucd h) output) in
     for_each (fun line =>
                 if highlighted line
                 then print ("  " +:+ Style.RED +:+ line +:+ Style.RESET)
                 else print ("  " +:+ Style.GRAY +:+ line +:+ Style.RESET))
              (last25 lines) ;;
     when (25 <? length lines)%nat
       (print "" ;;
        print ("  " +:+ Style.DIM +:+ "... (" +:+ pretty (N.of_nat (length lines - 25))
                 +:+ " more lines)" +:+ Style.RESET))) ;;
  print "" ;;
  print ("  " +:+ Style.YELLOW +:+ Style.INFO +:+ " Run with " +:+ Style.BOLD +:+ "-v"
           +:+ Style.RESET +:+ Style.YELLOW +:+ " for full output" +:+ Style.RESET) ;;
  print "".

(** The rewrite at the head of [run_command]: on Windows a bare [pnpm] is
    replaced by the path found for it. *)
Definition resolve_pnpm (system_name pnpm_path : string) (cmd : list string)
  : list string :=
  match cmd with
  | cmd0 :: rest =>
      if String.eqb cmd0 "pnpm" && String.eqb system_name "Windows"
         && negb (String.eqb pnpm_path "pnpm")
      then pnpm_path :: rest
      else cmd
  | [] => cmd
  end.

Definition run_command (cmd : list string) (cwd : option path) (description : string)
  : M (bool * string) :=
  let* (system_name, _) := detect_platform in
  let* pnpm_path := get PNPM_PATH in
  let cmd := resolve_pnpm system_name pnpm_path cmd in
  try_with
    (let* verbose := get VERBOSE in
     if verbose then
       log_dim ("$ " +:+ Text.join " " cmd) ;;
       subprocess_run cmd cwd false true false ;;
       ret (true, "")
     else
       let* result := subprocess_run cmd cwd true true false in
       ret (true, out_text result +:+ err_text result))
    (fun e =>
       match e with
       | CalledProcessError _ returncode out err =>
           Some (let output := default "" out +:+ default "" err in
                 print_command_error cmd returncode output description ;;
                 ret (false, output))
       | FileNotFoundError _ =>
           Some (print_error ("Command not found: " +:+ hd "" cmd))
       | _ => None
       end).

(** *** The pipeline *)

Fixpoint repeat_str (s : string) (n : nat) : string :=
  match n with
  | O => ""
  | S k => s +:+ repeat_str s k
  end.

(** [f"{s:<45}"] *)
Definition ljust45 (s : string) : string := s +:+ repeat_str " " (45 - String.length s).

Definition print_build_info (mode : string) (components : list string)
                            (platform_name : string) (verbose : bool) : M unit :=
  let bar := "  " +:+ Style.DIM +:+ "│" +:+ Style.RESET +:+ "  " in
  let close := Style.DIM +:+ "│" +:+ Style.RESET in
  print ("  " +:+ Style.DIM +:+ "┌" +:+ repeat_str "─" 58 +:+ "┐" +:+ Style.RESET) ;;
  print (bar +:+ Style.GRAY +:+ "Platform" +:+ Style.RESET +:+ "    "
           +:+ ljust45 platform_name +:+ close) ;;
  print (bar +:+ Style.GRAY +:+ "Mode" +:+ Style.RESET +:+ "        " +:+ Style.MAGENTA
           +:+ mode +:+ Style.RESET +:+ repeat_str " " (45 - String.length mode)
           +:+ close) ;;
  let components_str := Text.join " + " components in
  print (bar +:+ Style.GRAY +:+ "Components" +:+ Style.RESET +:+ "  " +:+ Style.CYAN
           +:+ components_str +:+ Style.RESET
           +:+ repeat_str " " (45 - String.length components_str) +:+ close) ;;
  let verbose_str := if verbose then "Yes" else "No" in
  print (bar +:+ Style.GRAY +:+ "Verbose" +:+ Style.RESET +:+ "     "
           +:+ ljust45 verbose_str +:+ close) ;;
  print ("  " +:+ Style.DIM +:+ "└" +:+ repeat_str "─" 58 +:+ "┘" +:+ Style.RESET) ;;
  print "".

Definition print_step (step total : nat) (title : string) : M unit :=
  print "" ;;
  print ("  " +:+ Style.BOLD +:+ "[" +:+ pretty step +:+ "/" +:+ pretty total +:+ "] "
           +:+ title +:+ Style.RESET) ;;
  print "".

Definition print_success (elapsed : Z) (artifacts : list (string * string)) : M unit :=
  print "" ;;
  print ("  " +:+ Style.GREEN +:+ Style.CHECK +:+ " Build complete" +:+ Style.RESET
           +:+ " " +:+ Style.DIM +:+ "(" +:+ pretty elapsed +:+ "s)" +:+ Style.RESET) ;;
  match artifacts with
  | [] => ret tt
  | _ =>
      print "" ;;
      print ("  " +:+ Style.BOLD +:+ "Artifacts" +:+ Style.RESET) ;;
      print "" ;;
      for_each (fun '(label, path) =>
                  print ("  " +:+ Style.DIM +:+ Style.ARROW +:+ Style.RESET +:+ " "
                           +:+ Style.GRAY +:+ label +:+ Style.RESET) ;;
                  print ("    " +:+ Style.CYAN +:+ path +:+ Style.RESET))
               artifacts
  end ;;
  print "".

(** The command line, as [argparse] hands it over. *)
Record Args := mkArgs {
  dev : bool;
  prod : bool;
  engine_only : bool;
  app_only : bool;
  clean : bool;
  tests : bool;
  test_only : bool;
  bump_version_arg : option string;           (* [--bump-version VERSION] *)
  dry_run : bool;
  verbose : bool }.

(** The stages that build and collect.  [main] only calls them; what they do
    to the world, and what they return or raise, is left open here, so every
    statement about [main] holds for whatever these turn out to do. *)
Record Stages := {
  build_engine : string -> bool -> bool -> path -> M (option path);
  run_tests_only : string -> path -> M bool;
  build_app : bool -> option path -> path -> M bool;
  get_artifacts : bool -> bool -> bool -> option path -> path -> M (list (string * string));
  print_next_steps : bool -> bool -> list (string * string) -> path -> M unit }.

Variable stages : Stages.

(** [dev_mode = args.dev or not args.prod] *)
Definition dev_mode_of (args : Args) : bool := dev args || negb (prod args).

Definition mode_suffix_of (dev_mode : bool) : string := if dev_mode then "dev" else "prod".
Definition mode_display_of (dev_mode : bool) : string :=
  if dev_mode then "Development" else "Production".

Definition time_time : M Z := get clock.

(** [main].  The [except KeyboardInterrupt] clause has no counterpart: no
    signal arrives in this model.  The traceback of verbose mode goes to
    stderr, which is not kept. *)
Definition main (args : Args) : M unit :=
  modify (set_VERBOSE (verbose args)) ;;
  let project_root := script_dir h in
  (* Handle version bumping (exits early) *)
  match truthy (bump_version_arg args) with
  | Some target =>
      print_header ;;
      bump_version target project_root (dry_run args)
  | None =>
  let dev_mode := dev_mode_of args in
  let skip_engine := app_only args in
  let skip_app := engine_only args in
  (* Handle test-only mode *)
  let* skip_app :=
    if test_only args then
      when (tests args)
        (print_error "Cannot use --test-only with -t (tests will run automatically)") ;;
      ret true
    else ret skip_app in
  when (skip_engine && skip_app) (print_error "Cannot use -e and -a together") ;;
  let* (system_name, preset_prefix) := detect_platform in
  let mode_suffix := mode_suffix_of dev_mode in
  let preset := preset_prefix +:+ "-" +:+ mode_suffix in
  let total_steps := (1 + (if skip_engine then 0 else 1) + (if skip_app then 0 else 1))%nat in
  let* start_time := time_time in
  if test_only args then
    print_header ;;
    print_step 1 1 "Tests" ;;
    print "" ;;
    let* passed := run_tests_only stages preset project_root in
    when (negb passed) (raise (SystemExit 1)) ;;
    let* now := time_time in
    let elapsed := (now - start_time)%Z in
    print "" ;;
    print ("  " +:+ Style.GREEN +:+ Style.CHECK +:+ " Tests complete" +:+ Style.RESET
             +:+ " " +:+ Style.DIM +:+ "(" +:+ pretty elapsed +:+ "s)" +:+ Style.RESET) ;;
    print ""
  else
    print_header ;;
    let components :=
      ((if skip_engine then [] else ["Engine"]) ++ (if skip_app then [] else ["App"]))%list in
    let mode_display := mode_display_of dev_mode in
    let* verbose_now := get VERBOSE in
    print_build_info mode_display components system_name verbose_now ;;
    try_with
      ((* Prerequisites *)
       let current_step := 1%nat in
       print_step current_step total_steps "Prerequisites" ;;
       check_prerequisites skip_app ;;
       (* Build engine *)
       let* (engine_binary, current_step) :=
         if negb skip_engine then
           let current_step := S current_step in
           print_step current_step total_steps "Engine" ;;
           let* engine_binary :=
             build_engine stages preset (clean args) (tests args) project_root in
           match engine_binary with
           | None => raise (SystemExit 1)
           | Some _ => ret (engine_binary, current_step)
           end
         else
           let engine_dir := project_root </> "engine" in
           let build_dir := engine_dir </> (if dev_mode then "build" else "build-release") in
           let engine_binary :=
             if String.eqb system_name "Windows"
             then build_dir </> (if dev_mode then "Debug" else "Release") </> "vayu-engine.exe"
             else build_dir </> "vayu-engine" in
           let* present := exists_ engine_binary in
           when present
             (log (Style.GREEN +:+ Style.CHECK +:+ Style.RESET
                     +:+ " Using existing engine binary") "" "" ;;
              print "") ;;
           ret (Some engine_binary, current_step) in
       (* Build app *)
       when (negb skip_app)
         (let current_step := S current_step in
          print_step current_step total_steps "Application" ;;
          let* built := build_app stages dev_mode engine_binary project_root in
          when (negb built) (raise (SystemExit 1))) ;;
       (* Success *)
       let* now := time_time in
       let elapsed := (now - start_time)%Z in
       let* artifacts :=
         get_artifacts stages dev_mode skip_engine skip_app engine_binary project_root in
       print_success elapsed artifacts ;;
       print_next_steps stages dev_mode skip_app artifacts project_root)
      (fun e =>
         if is_Exception e
         then Some (print "" ;; print_error (strerror h e))
         else None)
  end.

End Script.

(** ** The version grammar in the words of the specification

    "Three dot-separated non-negative integers and nothing else": the
    characters are cut at the dots, there are exactly three pieces, and each
    piece is a non-empty run of decimal digits. *)

Module Spec.
Section Grammar.
Variable u : Ucd.

(** [s.split('.')] *)
Fixpoint split_dots (cs : list Text.char) : list (list Text.char) :=
  match cs with
  | [] => [[]]
  | c :: r =>
      if (fst c =? 46)%N then [] :: split_dots r
      else match split_dots r with
           | l :: ls => (c :: l) :: ls
           | [] => [[c]]
           end
  end.

Definition number (cs : list Text.char) : bool :=
  match cs with
  | [] => false
  | _ => forallb (Text.isdigit u) cs
  end.

Definition exact_xyz (cs : list Text.char) : bool :=
  match split_dots cs with
  | [x; y; z] => number x && number y && number z
  | _ => false
  end.

End Grammar.
End Spec.

(** The text [X.Y.Z] of three numbers, as [f"{a}.{b}.{c}"] spells it. *)
Definition format_version (a b c : N) : string :=
  pretty a +:+ "." +:+ pretty b +:+ "." +:+ pretty c.

(** ** What the real run is to leave in the five files

    The files in the order they are rewritten, and the text step [k] puts
    into its file given what the file held; there is no text when the file
    cannot be read or, for the two manifests, is not a JSON object. *)

Section Targets.
Variable h : Host.

Definition targets (project_root : path) : list path :=
  [version_file project_root; engine_cmake project_root;
   engine_version_hpp project_root; engine_vcpkg_json project_root;
   app_package_json project_root].

Definition manifest_text (i : indent) (new_version old : string) : option string :=
  match json_loads h old with
  | Some (JObject members) =>
      Some (json_dumps h i (JObject (dict_set "version" (JString new_version) members))
              +:+ "
")
  | _ => None
  end.

Definition new_text (new_version : string) (k : nat) (old : option string)
  : option string :=
  match k with
  | 0 => Some (new_version +:+ "
")
  | 1 => cmake_text h new_version <$> old
  | 2 =>
      match Text.match_version (ucd h) (Text.stripped (ucd h) new_version) with
      | Some (g1, g2, g3) =>
          new_major ← decimal_text h (Text.int_value (ucd h) g1);
          new_minor ← decimal_text h (Text.int_value (ucd h) g2);
          new_patch ← decimal_text h (Text.int_value (ucd h) g3);
          hpp_text h new_version new_major new_minor new_patch <$> old
      | None => None
      end
  | 3 => old ≫= manifest_text (Spaces 2) new_version
  | 4 => old ≫= manifest_text Tab new_version
  | _ => None
  end.

(** The text step [k] writes in world [w], if it gets to write: its file
    can be opened for writing and there is a text for it. *)
Definition step_text (new_version : string) (project_root : path) (w : World) (k : nat)
  : option string :=
  match targets project_root !! k with
  | Some p =>
      if bool_decide (p ∉ unwritable w) then new_text new_version k (files w !! p)
      else None
  | None => None
  end.

(** Step [k] goes through. *)
Definition step_ok (new_version : string) (project_root : path) (w : World) (k : nat)
  : bool :=
  bool_decide (is_Some (step_text new_version project_root w k)).

(** Steps [0] to [k] all go through. *)
Definition steps_ok_upto (new_version : string) (project_root : path) (w : World)
                         (k : nat) : bool :=
  forallb (step_ok new_version project_root w) (seq 0 (S k)).

End Targets.

(** ** What a bump shows

    The line that shows the transition from the current version to the new
    one. *)
Definition transition_line (current_version new_version : string) : string :=
  ("  " +:+ Style.CYAN +:+ current_version +:+ Style.RESET +:+ " " +:+ Style.ARROW
     +:+ " " +:+ Style.GREEN +:+ new_version +:+ Style.RESET) +:+ "
".

(** The chunk [x] was written to the terminal on the way from [w] to [w']. *)
Definition shows (x : string) (w w' : World) : Prop :=
  exists l, stdout w' = (stdout w ++ l)%list /\ x ∈ l.

(** ** The progress indicator at rest

    A spinner that was never started, or that was stopped: it is not
    running and no thread of it is drawing. *)

Definition Spinner_idle (self : Spinner) : bool :=
  negb (running self)
  && match thread self with
     | Some Alive => false
     | _ => true
     end.

(** The line [Spinner.stop] writes. *)
Definition stop_line (symbol color message : string) : string :=
  String (ascii_of_N 13) "" +:+ "  " +:+ color +:+ symbol +:+ Style.RESET
    +:+ " " +:+ message +:+ "
".

(** ** Where a probed path comes from

    [check_tool] probes a path it has located: the answer of [shutil.which]
    for the command or, on Windows, the answer of the search for CMake or
    for pnpm, run in the world [check_tool] starts in. *)

Definition located (h : Host) (name command0 : string) (w : World) (tool_path : string)
  : Prop :=
  which h command0 = Some tool_path
  \/ (name = "CMake"
      /\ exists w', find_cmake_windows h w = (Returned (Some tool_path), w'))
  \/ (name = "pnpm"
      /\ exists w', find_pnpm_windows h w = (Returned (Some tool_path), w')).

(** ** A host that has lost pnpm from its PATH *)

Definition without_pnpm (h : Host) : Host := {|
  ucd := ucd h;
  int_max_str_digits := int_max_str_digits h;
  platform_system := platform_system h;
  script_dir := script_dir h;
  Path := Path h;
  fspath := fspath h;
  parent := parent h;
  expanduser := expanduser h;
  which := fun name => if String.eqb name "pnpm" then None else which h name;
  executable := executable h;
  json_loads := json_loads h;
  json_dumps := json_dumps h;
  strerror := strerror h |}.

(** ** Relations between the world before and the world after

    [respects R m]: whatever [m] does, the world it starts in and the world
    it leaves are related by [R]. *)

Class Frame (R : World -> World -> Prop) : Prop := {
  frame_refl : forall w, R w w;
  frame_trans : forall a b c, R a b -> R b c -> R a c }.

Definition respects (R : World -> World -> Prop) {A} (m : M A) : Prop :=
  forall w, R w (snd (m w)).

(** Only the terminal changed, and it only grew. *)
Definition printed (w w' : World) : Prop :=
  exists l : list string, w' = set_stdout (stdout w ++ l) w.

(** The files are the same. *)
Definition same_files (w w' : World) : Prop := files w' = files w.

(** No subprocess was started. *)
Definition same_spawned (w w' : World) : Prop := spawned w' = spawned w.

(** The terminal only grew. *)
Definition stdout_grew (w w' : World) : Prop :=
  exists l : list string, stdout w' = (stdout w ++ l)%list.

(** The files, the directories and the environment are the same: a search
    for a tool sees the same machine. *)
Definition same_disk (w w' : World) : Prop :=
  files w' = files w /\ dirs w' = dirs w /\ environ w' = environ w.

(** Subprocesses may have been started, each with an argv that satisfies
    [P]; the log of the earlier ones is kept. *)
Definition spawned_only (P : list string -> Prop) (w w' : World) : Prop :=
  exists l, spawned w' = (spawned w ++ l)%list /\ Forall (fun entry => P (fst entry)) l.

Definition any_argv (argv : list string) : Prop := True.

(** A vswhere query. *)
Definition vswhere_query (argv : list string) : Prop :=
  exists exe, argv = [exe; "-latest"; "-requires";
                      "Microsoft.VisualStudio.Component.VC.Tools.x86.x64";
                      "-property"; "installationPath"].

(** A block of the real run that did not get to write: it raised an
    exception (not an exit) and the files are as before. *)
Definition block_failed (w : World) (r : outcome unit * World) : Prop :=
  (exists e, fst r = Raised e /\ is_Exception e = true) /\ files (snd r) = files w.

(** What a block does, given the text it is to write to [p], if any. *)
Definition block_spec (p : path) (text : World -> option string) (b : M unit) : Prop :=
  forall w,
    unwritable (snd (b w)) = unwritable w
    /\ match text w with
       | Some t => fst (b w) = Returned tt /\ files (snd (b w)) = <[p := t]> (files w)
       | None => block_failed w (b w)
       end.

(** What follows a run of digits does not start with a digit. *)
Definition no_digit_ahead (u : Ucd) (t : list Text.char) : Prop :=
  match t with
  | c :: _ => Text.isdigit u c = false
  | [] => True
  end.

(** ** The two error reports the claims name *)

(** The message of the pre-flight rejection. *)
Definition rejection (args : Args) : string :=
  if test_only args && tests args
  then "Cannot use --test-only with -t (tests will run automatically)"
  else "Cannot use -e and -a together".

(** The report of a command that is not there: in verbose mode the command
    line is echoed first; then the launch is attempted and the message names
    the executable, and nothing else. *)
Definition not_found_report (cmd : list string) : M (bool * string) :=
  let* verbose := get VERBOSE in
  when verbose (log_dim ("$ " +:+ Text.join " " cmd)) ;;
  record_spawn cmd SpawnNotFound ;;
  print_error ("Command not found: " +:+ hd "" cmd).

(** ** Two machines to run the script on

    A Linux and a Windows host with a checkout of the project, used for the
    worked examples.  Their [json] module knows the two manifests of the
    checkout and prints objects whose values are strings. *)

Module Demo.

(** [s.split(sep)] for a one-character separator *)
Fixpoint split_on (sep : ascii) (s : string) : list string :=
  match s with
  | EmptyString => [EmptyString]
  | String c r =>
      if Ascii.eqb c sep then EmptyString :: split_on sep r
      else match split_on sep r with
           | l :: ls => String c l :: ls
           | [] => [String c EmptyString]
           end
  end.

Definition nonempty (s : string) : bool := negb (String.eqb s "").

Definition posix_Path (s : string) : path :=
  let names := filter (fun x => nonempty x = true) (split_on "/" s) in
  match s with
  | String "/" _ => "/" :: names
  | _ => names
  end.

Definition posix_fspath (p : path) : string :=
  match p with
  | [] => "."
  | "/" :: r => "/" +:+ Text.join "/" r
  | _ => Text.join "/" p
  end.

Definition posix_parent (p : path) : path :=
  match p with
  | ["/"] => p
  | _ => removelast p
  end.

Definition backslash : string := String (ascii_of_N 92) "".

(** Windows paths: both slashes separate, a drive such as [C:] anchors. *)
Definition to_backslash (s : string) : string :=
  Text.join backslash (split_on "/" s).

Definition windows_Path (s : string) : path :=
  match filter (fun x => nonempty x = true) (split_on (ascii_of_N 92) (to_backslash s)) with
  | drive :: names => (drive +:+ backslash) :: names
  | [] => []
  end.

Definition windows_fspath (p : path) : string :=
  match p with
  | [] => "."
  | anchor :: r => anchor +:+ Text.join backslash r
  end.

Definition windows_parent (p : path) : path :=
  match p with
  | [_] => p
  | _ => removelast p
  end.

Definition quote : string := String (ascii_of_N 34) "".

Definition vcpkg_manifest : string :=
  "{" +:+ quote +:+ "name" +:+ quote +:+ ": " +:+ quote +:+ "vayu-engine" +:+ quote
      +:+ ", " +:+ quote +:+ "version" +:+ quote +:+ ": " +:+ quote +:+ "0.1.1" +:+ quote
      +:+ "}".

Definition package_manifest : string :=
  "{" +:+ quote +:+ "name" +:+ quote +:+ ": " +:+ quote +:+ "vayu" +:+ quote
      +:+ ", " +:+ quote +:+ "version" +:+ quote +:+ ": " +:+ quote +:+ "0.1.1" +:+ quote
      +:+ ", " +:+ quote +:+ "private" +:+ quote +:+ ": " +:+ quote +:+ "yes" +:+ quote
      +:+ "}".

Definition loads_manifest (text : string) : option json :=
  if String.eqb text vcpkg_manifest
  then Some (JObject [("name", JString "vayu-engine"); ("version", JString "0.1.1")])
  else if String.eqb text package_manifest
  then Some (JObject [("name", JString "vayu"); ("version", JString "0.1.1");
                      ("private", JString "yes")])
  else None.

Definition indent_text (i : indent) : string :=
  match i with
  | Spaces n => String.concat "" (repeat " " n)
  | Tab => String (ascii_of_N 9) ""
  end.

Definition dump_member (i : indent) (m : string * json) : string :=
  indent_text i +:+ quote +:+ fst m +:+ quote +:+ ": "
    +:+ match snd m with
        | JString s => quote +:+ s +:+ quote
        | JNumber n => n
        | JBool true => "true"
        | JBool false => "false"
        | _ => "null"
        end.

Definition newline : string := String (ascii_of_N 10) "".

Definition dumps_object (i : indent) (data : json) : string :=
  match data with
  | JObject members =>
      "{" +:+ newline +:+ Text.join ("," +:+ newline) (map (dump_member i) members)
          +:+ newline +:+ "}"
  | JString s => quote +:+ s +:+ quote
  | _ => "null"
  end.

Definition tool (first_line : string) : launch :=
  Runs (fun _ _ => Completed 0 (first_line +:+ newline) "" false).

(** The character database of Python 3.11 (Unicode 14.0) above ASCII: the
    code points of the digit zero of each of its 65 further decimal digit
    sets, every one followed by its digits one to nine, and the whitespace
    characters. *)
Definition decimal_zeros : list N :=
  [
   1632; 1776; 1984; 2406; 2534; 2662; 2790; 2918;
   3046; 3174; 3302; 3430; 3558; 3664; 3792; 3872;
   4160; 4240; 6112; 6160; 6470; 6608; 6784; 6800;
   6992; 7088; 7232; 7248; 42528; 43216; 43264; 43472;
   43504; 43600; 44016; 65296; 66720; 68912; 69734; 69872;
   69942; 70096; 70384; 70736; 70864; 71248; 71360; 71472;
   71904; 72016; 72784; 73040; 73120; 92768; 92864; 93008;
   120782; 120792; 120802; 120812; 120822; 123200; 123632; 125264;
   130032]%N.

Definition unicode_spaces : list N :=
  [
   133; 160; 5760; 8192; 8193; 8194; 8195; 8196;
   8197; 8198; 8199; 8200; 8201; 8202; 8232; 8233;
   8239; 8287; 12288]%N.

Definition unicode_14 : Ucd := {|
  decimal := fun cp =>
    match find (fun zero => (zero <=? cp) && (cp <? zero + 10))%N decimal_zeros with
    | Some zero => Some (cp - zero)%N
    | None => None
    end;
  whitespace := fun cp => existsb (N.eqb cp) unicode_spaces |}.

Definition failing_tool : launch :=
  Runs (fun _ _ => Completed 1 "" ("broken" +:+ newline) false).

(** A Linux machine with CMake and Ninja on the PATH, a vcpkg checkout named
    by [VCPKG_ROOT], and no pnpm. *)
Definition linux : Host := {|
  ucd := unicode_14;
  int_max_str_digits := 4300;
  platform_system := "Linux";
  script_dir := ["/"; "home"; "dev"; "vayu"];
  Path := posix_Path;
  fspath := posix_fspath;
  parent := posix_parent;
  expanduser := fun s => s;
  which := fun name =>
    if String.eqb name "cmake" then Some "/usr/bin/cmake"
    else if String.eqb name "ninja" then Some "/usr/bin/ninja"
    else None;
  executable := fun exe =>
    if String.eqb exe "/usr/bin/cmake" then tool "cmake version 3.28.1"
    else if String.eqb exe "/usr/bin/ninja" then tool "1.11.1"
    else if String.eqb exe "false" then failing_tool
    else NoSuchFile;
  json_loads := loads_manifest;
  json_dumps := dumps_object;
  strerror := fun _ => "error" |}.

(** A Windows machine where pnpm is not on the PATH but was installed by npm
    under [%APPDATA%]. *)
Definition pnpm_cmd : string := "C:\Users\dev\AppData\Roaming\npm\pnpm.cmd".

Definition windows : Host := {|
  ucd := unicode_14;
  int_max_str_digits := 4300;
  platform_system := "Windows";
  script_dir := ["C:\"; "src"; "vayu"];
  Path := windows_Path;
  fspath := windows_fspath;
  parent := windows_parent;
  expanduser := fun s => s;
  which := fun _ => None;
  executable := fun exe =>
    if String.eqb exe pnpm_cmd then tool "9.1.0" else NoSuchFile;
  json_loads := loads_manifest;
  json_dumps := dumps_object;
  strerror := fun _ => "error" |}.

Definition root : path := ["/"; "home"; "dev"; "vayu"].

Definition checkout : gmap path string :=
  <[version_file root := "0.1.1" +:+ newline]>
  (<[engine_cmake root := "project(vayu VERSION 0.1.1 LANGUAGES CXX)" +:+ newline]>
  (<[engine_version_hpp root :=
       "#define VAYU_VERSION_MAJOR 0" +:+ newline
       +:+ "#define VAYU_VERSION_MINOR 1" +:+ newline
       +:+ "#define VAYU_VERSION_PATCH 1" +:+ newline
       +:+ "#define VAYU_VERSION_STRING " +:+ quote +:+ "0.1.1" +:+ quote +:+ newline]>
  (<[engine_vcpkg_json root := vcpkg_manifest]>
  (<[app_package_json root := package_manifest]> ∅)))).

(** A version whose last number is the longest the interpreter converts:
    4300 nines. *)
Definition longest_version : string :=
  "0.0." +:+ String.concat "" (repeat "9" 4300).

(** The world at the start of a run: the checkout, a vcpkg directory, an
    empty terminal, and the globals as the module sets them. *)
Definition start (fs : gmap path string) : World :=
  mkWorld fs {[ ["/"; "opt"; "vcpkg"] ]} ∅ {["VCPKG_ROOT" := "/opt/vcpkg"]}
          [] [] 0 false "cmake" "pnpm".

Definition world : World := start checkout.

(** The same checkout at version [longest_version]. *)
Definition at_the_limit : World :=
  start (<[version_file root := longest_version +:+ newline]> checkout).

(** The same checkout with [engine/vcpkg.json] damaged. *)
Definition damaged : World := start (<[engine_vcpkg_json root := "{"]> checkout).

(** Stages that build nothing, for runs that never reach them. *)
Definition idle_stages : Stages := {|
  build_engine := fun _ _ _ _ => ret None;
  run_tests_only := fun _ _ => ret false;
  build_app := fun _ _ _ => ret false;
  get_artifacts := fun _ _ _ _ _ => ret [];
  print_next_steps := fun _ _ _ _ => ret tt |}.

Definition no_flags : Args :=
  mkArgs false false false false false false false None false false.

(** [build.py -e -a --bump-version patch --dry-run] *)
Definition both_only_and_bump : Args :=
  mkArgs false false true true false false false (Some "patch") true false.

(** [build.py -e -a] and [build.py --test-only -t] *)
Definition both_only : Args :=
  mkArgs false false true true false false false None false false.
Definition test_only_and_tests : Args :=
  mkArgs false false false false false true true None false false.

(** The Windows machine after the prerequisite check, which stored the path
    it found for pnpm. *)
Definition windows_world : World :=
  mkWorld ∅ ∅ ∅ ∅ [] [] 0 false "cmake" pnpm_cmd.

End Demo.

(** ** Reading a [dict] *)

(** [d.get(key)] on a [dict] kept as the list of its items. *)
Fixpoint dict_get (key : string) (d : list (string * json)) : option json :=
  match d with
  | [] => None
  | (k, v) :: r => if String.eqb k key then Some v else dict_get key r
  end.

(** [list(d.keys())] *)
Definition dict_keys (d : list (string * json)) : list string := map fst d.

(** ** Texts a pattern does not occur in *)

(** The pattern [m] matches at no position of the text. *)
Fixpoint matches_nowhere (m : string -> option nat) (s : string) : Prop :=
  match s with
  | EmptyString => True
  | String _ r => m s = None /\ matches_nowhere m r
  end.

(** ** What [run_command] amounts to when the program runs

    [cmd] is the argv launched and [c] what the program did.  In verbose
    mode the command line is echoed and the child writes to the terminal
    itself; otherwise its output is captured. *)

Definition command_output (verbose : bool) (c : completed) : string :=
  if verbose then "" else out_text c +:+ err_text c.

Definition command_run (cmd : list string) (c : completed) : M unit :=
  let* verbose := get VERBOSE in
  when verbose (log_dim ("$ " +:+ Text.join " " cmd)) ;;
  record_spawn cmd (SpawnExited (returncode c)) ;;
  when verbose (write (out_text c)).

Definition command_result (h : Host) (cmd : list string) (c : completed)
                          (description : string)
  : M (bool * string) :=
  let* verbose := get VERBOSE in
  command_run cmd c ;;
  if (returncode c =? 0)%Z then ret (true, command_output verbose c)
  else
    print_command_error h cmd (returncode c) (command_output verbose c) description ;;
    ret (false, command_output verbose c).

(** ** Computations that cannot fail *)

(** [m] returns a value in every world: it never raises and never exits. *)
Definition always_returns {A} (m : M A) : Prop :=
  forall w, exists a w', m w = (Returned a, w').

(** The line of the failure report that shows the exit code. *)
Definition exit_code_line (exit_code : Z) : string :=
  ("  " +:+ Style.DIM +:+ "Exit code: " +:+ pretty exit_code +:+ Style.RESET) +:+ "
".

(** ** The tool paths kept from the prerequisite check *)

(** The paths stored in the globals [CMAKE_PATH] and [PNPM_PATH] are the
    same. *)
Definition same_tool_paths (w w' : World) : Prop :=
  CMAKE_PATH w' = CMAKE_PATH w /\ PNPM_PATH w' = PNPM_PATH w.

(** The Windows machine of [Demo.windows] before the prerequisite check:
    npm has put [pnpm.cmd] under [%APPDATA%], and nothing is stored yet. *)
Definition windows_before_check : World :=
  mkWorld {[ Demo.windows_Path Demo.pnpm_cmd := "" ]} ∅ ∅
          {[ "APPDATA" := "C:\Users\dev\AppData\Roaming" ]}
          [] [] 0 false "cmake" "pnpm".

(** ** Runs that end with an exit or not at all *)

(** Whatever [m] raises is an exit of the process, not an [Exception]. *)
Definition exits_only {A} (m : M A) : Prop :=
  forall w e w', m w = (Raised e, w') -> is_Exception e = false.

(** * Properties *)

(** Appending to a text that starts with a known character may unfold. *)
#[local] Arguments String.append !_ _ / : simpl nomatch.

(** Below, [++] joins lists; texts are joined with [+:+]. *)
#[local] Open Scope list_scope.

(** ** Text *)

Example chars_euro :
  Text.chars "a€" = [(97%N, "a"); (8364%N, "€")].
Proof. reflexivity. Qed.
Example match_version_ok :
  Text.match_version Demo.unicode_14 (Text.chars "1.22.3")
  = Some (Text.chars "1", Text.chars "22", Text.chars "3").
Proof. reflexivity. Qed.
Example match_version_short :
  Text.match_version Demo.unicode_14 (Text.chars "1.2") = None.
Proof. reflexivity. Qed.
Example strip_both : Text.strip Demo.unicode_14 "  1.2.3 " = "1.2.3".
Proof. reflexivity. Qed.
Example strip_no_break_space :
  Text.strip Demo.unicode_14 (String (ascii_of_N 194) (String (ascii_of_N 160) "1.2.3"))
  = "1.2.3".
Proof. reflexivity. Qed.
Example int_leading_zero : Text.int_value Demo.unicode_14 (Text.chars "007") = 7%N.
Proof. reflexivity. Qed.
Example int_arabic_indic : Text.int_value Demo.unicode_14 (Text.chars "١٢٣") = 123%N.
Proof. reflexivity. Qed.

Example sub_cmake :
  Re.sub (Re.cmake_version Demo.unicode_14) "VERSION 2.0.0"
         "project(vayu VERSION 0.1.1 LANGUAGES CXX)"
  = "project(vayu VERSION 2.0.0 LANGUAGES CXX)".
Proof. reflexivity. Qed.
Example sub_macro :
  Re.sub (Re.literal_digits Demo.unicode_14 "#define VAYU_VERSION_MINOR ")
         "#define VAYU_VERSION_MINOR 10"
         "#define VAYU_VERSION_MINOR 9 // x" = "#define VAYU_VERSION_MINOR 10 // x".
Proof. reflexivity. Qed.

Section CharFacts.
Import Text.

Lemma chars_go_owned s : fst (chars_go 0 s) = "".
Proof.
  destruct s as [|c r]; simpl; [done |].
  destruct (head_char c r) as [cp len]. by destruct (chars_go (pred len) r).
Qed.

Lemma head_char_ascii c r :
  (N_of_ascii c < 128)%N -> head_char c r = (N_of_ascii c, 1%nat).
Proof. intros H. unfold head_char. cbv zeta. apply N.ltb_lt in H. by rewrite H. Qed.

(** An ASCII byte is a character of its own. *)
Lemma chars_ascii c r :
  (N_of_ascii c < 128)%N -> chars (String c r) = (N_of_ascii c, String c "") :: chars r.
Proof.
  intros H. unfold chars. simpl. rewrite (head_char_ascii _ _ H). simpl.
  pose proof (chars_go_owned r) as Ho. destruct (chars_go 0 r) as [owned cs].
  simpl in *. by subst.
Qed.

Lemma chars_empty : chars "" = [].
Proof. reflexivity. Qed.

Lemma chars_ascii_app s t : isascii s = true -> chars (s +:+ t) = chars s ++ chars t.
Proof.
  induction s as [|c s IH]; simpl; [done |]. intros H.
  apply andb_true_iff in H as [Hc Hs]. apply N.ltb_lt in Hc.
  rewrite !chars_ascii by done. by rewrite (IH Hs).
Qed.

Lemma bytes_app a b : bytes (a ++ b) = bytes a +:+ bytes b.
Proof.
  induction a as [|c a IH]; simpl; [done |]. rewrite IH.
  generalize (snd c). intros x. induction x as [|y x IHx]; simpl; [done | by f_equal].
Qed.

Lemma bytes_chars_ascii s : isascii s = true -> bytes (chars s) = s.
Proof.
  induction s as [|c s IH]; simpl; [done |]. intros H.
  apply andb_true_iff in H as [Hc Hs]. apply N.ltb_lt in Hc.
  rewrite chars_ascii by done. simpl. by rewrite (IH Hs).
Qed.

Lemma length_chars_ascii s : isascii s = true -> length (chars s) = String.length s.
Proof.
  induction s as [|c s IH]; simpl; [done |]. intros H.
  apply andb_true_iff in H as [Hc Hs]. apply N.ltb_lt in Hc.
  rewrite chars_ascii by done. simpl. by rewrite (IH Hs).
Qed.

End CharFacts.

(** *** Decimal notation *)

Section Decimal.
Import Text.
Variable u : Ucd.

Lemma pretty_char_code x : (48 <= N_of_ascii (pretty_N_char x) <= 57)%N.
Proof. unfold pretty_N_char. repeat case_match; simpl; lia. Qed.

Lemma pretty_char_value x : (x < 10)%N -> N_of_ascii (pretty_N_char x) = (48 + x)%N.
Proof.
  intros Hx.
  assert (x = 0 \/ x = 1 \/ x = 2 \/ x = 3 \/ x = 4 \/ x = 5 \/ x = 6 \/ x = 7
          \/ x = 8 \/ x = 9)%N as Hcases by lia.
  repeat (destruct Hcases as [-> | Hcases]; [reflexivity |]). by subst.
Qed.

Lemma digit_value_ascii cp :
  (48 <= cp <= 57)%N -> digit_value u cp = Some (cp - 48)%N.
Proof.
  intros H. unfold digit_value.
  replace (cp <? 128)%N with true by (symmetry; apply N.ltb_lt; lia).
  replace (48 <=? cp)%N with true by (symmetry; apply N.leb_le; lia).
  replace (cp <=? 57)%N with true by (symmetry; apply N.leb_le; lia). done.
Qed.

Lemma digit_value_bound cp d : digit_value u cp = Some d -> (d < 10)%N.
Proof.
  unfold digit_value. destruct (cp <? 128)%N.
  - destruct ((48 <=? cp) && (cp <=? 57))%N eqn:E; [| discriminate].
    apply andb_true_iff in E as [E1 E2]. apply N.leb_le in E1. apply N.leb_le in E2.
    intros [= <-]. lia.
  - destruct (decimal u cp) as [x|]; [| discriminate].
    destruct (x <? 10)%N eqn:E; [| discriminate]. apply N.ltb_lt in E. by intros [= <-].
Qed.

Lemma isascii_go x : forall s, isascii s = true -> isascii (pretty_N_go x s) = true.
Proof.
  induction (N.lt_wf_0 x) as [x _ IH]. intros s Hs.
  destruct (decide (0 < x)%N) as [Hx | Hx].
  - rewrite pretty_N_go_step by done. apply IH; [apply N.div_lt; lia |].
    simpl. rewrite Hs, andb_true_r. apply N.ltb_lt.
    pose proof (pretty_char_code (x `mod` 10)). lia.
  - replace x with 0%N by lia. by rewrite pretty_N_go_0.
Qed.

Lemma isascii_pretty (n : N) : isascii (pretty n) = true.
Proof.
  unfold pretty, pretty_N. case_decide; [reflexivity |]. by apply isascii_go.
Qed.

Lemma ascii_digit_is_digit c : (48 <= fst c <= 57)%N -> isdigit u c = true.
Proof. intros H. unfold isdigit. by rewrite digit_value_ascii. Qed.

Lemma ascii_digit_not_space c : (48 <= fst c <= 57)%N -> isspace u c = false.
Proof.
  intros H. unfold isspace. cbv zeta.
  replace (fst c <? 128)%N with true by (symmetry; apply N.ltb_lt; lia).
  apply orb_false_iff. split; apply andb_false_iff; right; apply N.leb_gt; lia.
Qed.

Lemma pretty_chars_go x : forall s,
  Forall (fun c : char => (48 <= fst c <= 57)%N) (chars s) ->
  Forall (fun c : char => (48 <= fst c <= 57)%N) (chars (pretty_N_go x s)).
Proof.
  induction (N.lt_wf_0 x) as [x _ IH]. intros s Hs.
  destruct (decide (0 < x)%N) as [Hx | Hx].
  - rewrite pretty_N_go_step by done. apply IH; [apply N.div_lt; lia |].
    pose proof (pretty_char_code (x `mod` 10)) as Hc.
    rewrite chars_ascii by lia. by constructor.
  - replace x with 0%N by lia. by rewrite pretty_N_go_0.
Qed.

(** [str(n)] is made of the ten ASCII digits. *)
Lemma pretty_chars (n : N) :
  Forall (fun c : char => (48 <= fst c <= 57)%N) (chars (pretty n)).
Proof.
  unfold pretty, pretty_N. case_decide.
  - rewrite chars_ascii by (simpl; lia). constructor; [simpl; lia | constructor].
  - apply pretty_chars_go. constructor.
Qed.

Lemma digits_go x : forall s,
  forallb (isdigit u) (chars s) = true ->
  forallb (isdigit u) (chars (pretty_N_go x s)) = true.
Proof.
  induction (N.lt_wf_0 x) as [x _ IH]. intros s Hs.
  destruct (decide (0 < x)%N) as [Hx | Hx].
  - rewrite pretty_N_go_step by done. apply IH; [apply N.div_lt; lia |].
    pose proof (pretty_char_code (x `mod` 10)) as Hc.
    rewrite chars_ascii by lia. simpl. rewrite Hs, andb_true_r.
    unfold isdigit. simpl. by rewrite digit_value_ascii.
  - replace x with 0%N by lia. by rewrite pretty_N_go_0.
Qed.

Lemma digits_pretty (n : N) : forallb (isdigit u) (chars (pretty n)) = true.
Proof.
  unfold pretty, pretty_N. case_decide; [reflexivity |]. by apply digits_go.
Qed.

Lemma go_not_empty x : forall s, s <> "" -> pretty_N_go x s <> "".
Proof.
  induction (N.lt_wf_0 x) as [x _ IH]. intros s Hs.
  destruct (decide (0 < x)%N) as [Hx | Hx].
  - rewrite pretty_N_go_step by done. apply IH; [apply N.div_lt; lia | done].
  - replace x with 0%N by lia. by rewrite pretty_N_go_0.
Qed.

Lemma pretty_not_empty (n : N) : pretty n <> "".
Proof.
  unfold pretty, pretty_N. case_decide as Hn; [done |].
  rewrite pretty_N_go_step by lia. by apply go_not_empty.
Qed.

Lemma chars_pretty_not_nil (n : N) : chars (pretty n) <> [].
Proof.
  pose proof (pretty_not_empty n) as Hne. pose proof (isascii_pretty n) as Ha.
  destruct (pretty n) as [|c s]; [done |]. simpl in Ha.
  apply andb_true_iff in Ha as [Hc _]. apply N.ltb_lt in Hc.
  by rewrite chars_ascii.
Qed.

(** [int(str(n)) == n] *)
Lemma int_from_go x : forall s,
  (0 < x)%N ->
  exists k, forall acc,
    int_from u acc (chars (pretty_N_go x s)) = int_from u (acc * 10 ^ k + x) (chars s).
Proof.
  induction (N.lt_wf_0 x) as [x _ IH]. intros s Hx.
  rewrite pretty_N_go_step by done.
  pose proof (pretty_char_code (x `mod` 10)) as Hc.
  assert (x `mod` 10 < 10)%N as Hm by (apply N.mod_lt; lia).
  destruct (decide (x `div` 10 = 0)%N) as [Hz | Hnz].
  - exists 1%N. intros acc. rewrite Hz, pretty_N_go_0.
    rewrite chars_ascii by lia. simpl.
    rewrite digit_value_ascii by lia. simpl. rewrite pretty_char_value by done.
    match goal with
    | |- int_from u ?a _ = int_from u ?b _ => replace a with b; [done |]
    end.
    rewrite N.pow_1_r. pose proof (N.div_mod x 10 ltac:(lia)). lia.
  - destruct (IH (x `div` 10)%N) with (s := String (pretty_N_char (x `mod` 10)) s)
      as [k Hk]; [apply N.div_lt; lia | by apply N.neq_0_lt_0 |].
    exists (N.succ k). intros acc. rewrite Hk.
    rewrite chars_ascii by lia. simpl.
    rewrite digit_value_ascii by lia. simpl. rewrite pretty_char_value by done.
    match goal with
    | |- int_from u ?a _ = int_from u ?b _ => replace a with b; [done |]
    end.
    rewrite N.pow_succ_r'. pose proof (N.div_mod x 10 ltac:(lia)).
    rewrite (N.add_comm 48), N.add_sub. lia.
Qed.

Lemma int_pretty (n : N) : int_value u (chars (pretty n)) = n.
Proof.
  unfold int_value, pretty, pretty_N. case_decide as Hn; [by subst |].
  destruct (int_from_go n "") as [k Hk]; [lia |]. rewrite Hk. simpl. lia.
Qed.

(** A number below [10^k] is written with [k] digits at most. *)
Lemma length_go k : forall x s,
  (x < 10 ^ N.of_nat k)%N ->
  (String.length (pretty_N_go x s) <= String.length s + k)%nat.
Proof.
  induction k as [|k IH]; intros x s Hx.
  - simpl in Hx. replace x with 0%N by lia. rewrite pretty_N_go_0. lia.
  - destruct (decide (0 < x)%N) as [Hp | Hp].
    + rewrite pretty_N_go_step by done.
      etransitivity; [apply IH |].
      * rewrite Nat2N.inj_succ, N.pow_succ_r' in Hx.
        apply N.Div0.div_lt_upper_bound. lia.
      * simpl. lia.
    + replace x with 0%N by lia. rewrite pretty_N_go_0. lia.
Qed.

Lemma length_pretty k (n : N) :
  (0 < k)%nat -> (n < 10 ^ N.of_nat k)%N -> (String.length (pretty n) <= k)%nat.
Proof.
  intros Hk Hn. unfold pretty, pretty_N. case_decide; [simpl; lia |].
  etransitivity; [by apply length_go |]. simpl. lia.
Qed.

(** A run of [k] digits denotes a number below [10^k]. *)
Lemma int_from_bound ds : forall acc,
  forallb (isdigit u) ds = true ->
  (int_from u acc ds < (acc + 1) * 10 ^ N.of_nat (length ds))%N.
Proof.
  induction ds as [|c ds IH]; intros acc Hd; simpl.
  - lia.
  - apply andb_true_iff in Hd as [Hc Hd]. unfold isdigit in Hc.
    destruct (digit_value u (fst c)) as [d|] eqn:Ed; [| discriminate].
    apply digit_value_bound in Ed. simpl.
    eapply N.lt_le_trans; [by apply IH |].
    rewrite Nat2N.inj_succ, N.pow_succ_r'.
    transitivity ((10 * (acc + 1)) * 10 ^ N.of_nat (length ds))%N; [| lia].
    apply N.mul_le_mono_r. lia.
Qed.

(** [str(int(g))] is no longer than the run [g] it was read from. *)
Lemma length_pretty_int ds :
  forallb (isdigit u) ds = true -> ds <> [] ->
  (String.length (pretty (int_value u ds)) <= length ds)%nat.
Proof.
  intros Hd Hne. apply length_pretty.
  - destruct ds; [done | simpl; lia].
  - pose proof (int_from_bound ds 0 Hd) as H. unfold int_value. lia.
Qed.

End Decimal.

Section VersionGrammar.
Import Text.
Variable u : Ucd.

Lemma lstrip_not_space cs c r : lstrip u cs = c :: r -> isspace u c = false.
Proof.
  induction cs as [|x cs IH]; simpl; [done |].
  destruct (isspace u x) eqn:Hx; [done |]. by intros [= <- _].
Qed.

Lemma lstrip_head c r : isspace u c = false -> lstrip u (c :: r) = c :: r.
Proof. intros H. simpl. by rewrite H. Qed.

Lemma rstrip_last cs v c : rstrip u cs = v ++ [c] -> isspace u c = false.
Proof.
  unfold rstrip. intros H. apply (f_equal (@rev _)) in H.
  rewrite rev_involutive, rev_app_distr in H. simpl in H.
  by apply lstrip_not_space in H.
Qed.

Lemma rstrip_snoc v c : isspace u c = false -> rstrip u (v ++ [c]) = v ++ [c].
Proof.
  intros H. unfold rstrip. rewrite rev_app_distr. simpl. rewrite H.
  change (c :: rev v) with ([c] ++ rev v). by rewrite rev_app_distr, rev_involutive.
Qed.

(** The last character of a stripped text is no whitespace. *)
Lemma stripped_last s v c : stripped u s = v ++ [c] -> isspace u c = false.
Proof. apply rstrip_last. Qed.

Lemma isdigit_not_dot c : isdigit u c = true -> (fst c =? 46)%N = false.
Proof.
  unfold isdigit, digit_value. destruct (fst c =? 46)%N eqn:E; [| done].
  apply N.eqb_eq in E. by rewrite E.
Qed.

(** [span_digits] cuts the characters in two and the first part holds digits
    only. *)
Lemma span_digits_split cs d t :
  span_digits u cs = (d, t) -> cs = d ++ t /\ forallb (isdigit u) d = true.
Proof.
  revert d t. induction cs as [|c cs IH]; simpl; intros d t H.
  - by inversion H.
  - destruct (isdigit u c) eqn:Hc.
    + destruct (span_digits u cs) as [d' t'] eqn:Hs. inversion H; subst.
      destruct (IH d' t eq_refl) as [-> Hd]. simpl. by rewrite Hc.
    + by inversion H.
Qed.

Lemma span_digits_app d t :
  forallb (isdigit u) d = true -> no_digit_ahead u t -> span_digits u (d ++ t) = (d, t).
Proof.
  intros Hd Ht. induction d as [|c d IH]; simpl in *.
  - destruct t as [|c t]; simpl in *; [reflexivity | by rewrite Ht].
  - apply andb_true_iff in Hd as [Hc Hd]. by rewrite Hc, (IH Hd).
Qed.

Lemma no_digit_ahead_dot c r : (fst c =? 46)%N = true -> no_digit_ahead u (c :: r).
Proof.
  intros H. simpl. destruct (isdigit u c) eqn:E; [| done].
  apply isdigit_not_dot in E. congruence.
Qed.

(** What a successful match says about the characters. *)
Lemma match_version_inv cs g1 g2 g3 :
  match_version u cs = Some (g1, g2, g3) ->
  exists c1 c2 r,
    cs = g1 ++ c1 :: g2 ++ c2 :: g3 ++ r
    /\ (fst c1 =? 46)%N = true /\ (fst c2 =? 46)%N = true /\ at_dollar r = true
    /\ (forallb (isdigit u) g1 = true /\ g1 <> [])
    /\ (forallb (isdigit u) g2 = true /\ g2 <> [])
    /\ (forallb (isdigit u) g3 = true /\ g3 <> []).
Proof.
  unfold match_version, digits1, dot. intros H.
  destruct (span_digits u cs) as [d1 t1] eqn:E1.
  destruct d1 as [|x1 d1]; [discriminate |].
  destruct t1 as [|c1 t1]; [discriminate |].
  destruct (fst c1 =? 46)%N eqn:H1; [| discriminate].
  destruct (span_digits u t1) as [d2 t2] eqn:E2.
  destruct d2 as [|x2 d2]; [discriminate |].
  destruct t2 as [|c2 t2]; [discriminate |].
  destruct (fst c2 =? 46)%N eqn:H2; [| discriminate].
  destruct (span_digits u t2) as [d3 t3] eqn:E3.
  destruct d3 as [|x3 d3]; [discriminate |].
  destruct (at_dollar t3) eqn:Hend; [| discriminate].
  inversion H; subst.
  apply span_digits_split in E1 as [-> D1].
  apply span_digits_split in E2 as [-> D2].
  apply span_digits_split in E3 as [-> D3].
  exists c1, c2, t3. repeat split; done.
Qed.

Lemma match_version_digits g1 c1 g2 c2 g3 :
  (fst c1 =? 46)%N = true -> (fst c2 =? 46)%N = true ->
  forallb (isdigit u) g1 = true /\ g1 <> [] ->
  forallb (isdigit u) g2 = true /\ g2 <> [] ->
  forallb (isdigit u) g3 = true /\ g3 <> [] ->
  match_version u (g1 ++ c1 :: g2 ++ c2 :: g3) = Some (g1, g2, g3).
Proof.
  intros H1 H2 [D1 N1] [D2 N2] [D3 N3]. unfold match_version, digits1, dot.
  rewrite span_digits_app by (done || by apply no_digit_ahead_dot).
  destruct g1; [done |]. rewrite H1.
  rewrite span_digits_app by (done || by apply no_digit_ahead_dot).
  destruct g2; [done |]. rewrite H2.
  rewrite <- (app_nil_r g3) at 1. rewrite span_digits_app by done.
  destruct g3; [done |]. done.
Qed.

Lemma split_dots_digits d : forallb (isdigit u) d = true -> Spec.split_dots d = [d].
Proof.
  induction d as [|c d IH]; simpl; [done |]. intros H.
  apply andb_true_iff in H as [Hc Hd].
  rewrite (isdigit_not_dot _ Hc). by rewrite (IH Hd).
Qed.

Lemma split_dots_app d c r :
  forallb (isdigit u) d = true -> (fst c =? 46)%N = true ->
  Spec.split_dots (d ++ c :: r) = d :: Spec.split_dots r.
Proof.
  intros Hd Hc. induction d as [|x d IH]; simpl; [by rewrite Hc |].
  apply andb_true_iff in Hd as [Hx Hd].
  rewrite (isdigit_not_dot _ Hx). by rewrite (IH Hd).
Qed.

Lemma number_digits d : forallb (isdigit u) d = true -> d <> [] -> Spec.number u d = true.
Proof. intros Hd Hne. by destruct d. Qed.

Lemma number_inv d : Spec.number u d = true -> forallb (isdigit u) d = true /\ d <> [].
Proof. destruct d; [discriminate | done]. Qed.

Lemma exact_xyz_digits g1 c1 g2 c2 g3 :
  (fst c1 =? 46)%N = true -> (fst c2 =? 46)%N = true ->
  forallb (isdigit u) g1 = true /\ g1 <> [] ->
  forallb (isdigit u) g2 = true /\ g2 <> [] ->
  forallb (isdigit u) g3 = true /\ g3 <> [] ->
  Spec.exact_xyz u (g1 ++ c1 :: g2 ++ c2 :: g3) = true.
Proof.
  intros H1 H2 [D1 N1] [D2 N2] [D3 N3]. unfold Spec.exact_xyz.
  rewrite !split_dots_app, split_dots_digits by done.
  by rewrite !number_digits.
Qed.

(** On a stripped text the pattern and the grammar agree: whatever the
    pattern accepts has the exact shape. *)
Lemma match_version_exact s :
  is_Some (match_version u (stripped u s)) -> Spec.exact_xyz u (stripped u s) = true.
Proof.
  intros [[[g1 g2] g3] H].
  destruct (match_version_inv _ _ _ _ H)
    as (c1 & c2 & r & E & Hc1 & Hc2 & Hend & H1 & H2 & H3).
  destruct r as [|x r].
  - rewrite E, app_nil_r. by apply exact_xyz_digits.
  - destruct r; [| discriminate]. simpl in Hend. apply N.eqb_eq in Hend.
    assert (isspace u x = false) as Hx.
    { apply (stripped_last s (g1 ++ c1 :: g2 ++ c2 :: g3)).
      rewrite E. by rewrite <- !app_assoc, <- !app_comm_cons, <- !app_assoc. }
    unfold isspace in Hx. rewrite Hend in Hx. discriminate.
Qed.

Lemma split_dots_not_nil cs : Spec.split_dots cs <> [].
Proof. destruct cs as [|c cs]; simpl; [done |]. by repeat case_match. Qed.

(** The pieces between the dots, put together again. *)
Lemma split_dots_inv cs : forall x rest,
  Spec.split_dots cs = x :: rest ->
  (rest = [] /\ cs = x)
  \/ (exists c r, cs = x ++ c :: r /\ (fst c =? 46)%N = true /\ Spec.split_dots r = rest).
Proof.
  induction cs as [|c cs IH]; simpl; intros x rest H.
  - left. by inversion H.
  - destruct (fst c =? 46)%N eqn:Hc.
    + right. inversion H; subst. by exists c, cs.
    + destruct (Spec.split_dots cs) as [|l ls] eqn:E.
      * by apply split_dots_not_nil in E.
      * inversion H; subst. destruct (IH l rest eq_refl) as [[-> ->] | (c' & r & -> & Hc' & Hr)].
        -- by left.
        -- right. by exists c', r.
Qed.

(** Whatever has the exact shape is matched, group by group. *)
Lemma exact_xyz_match cs :
  Spec.exact_xyz u cs = true ->
  exists g1 g2 g3,
    Spec.split_dots cs = [g1; g2; g3]
    /\ match_version u cs = Some (g1, g2, g3)
    /\ forallb (isdigit u) g1 = true /\ forallb (isdigit u) g2 = true
    /\ forallb (isdigit u) g3 = true.
Proof.
  unfold Spec.exact_xyz.
  destruct (Spec.split_dots cs) as [|x [|y [|z [|? ?]]]] eqn:E; try discriminate.
  intros H. apply andb_true_iff in H as [H Hz]. apply andb_true_iff in H as [Hx Hy].
  apply number_inv in Hx, Hy, Hz.
  exists x, y, z. split; [done |].
  apply split_dots_inv in E as [[? _] | (c1 & r1 & -> & Hc1 & E)]; [discriminate |].
  apply split_dots_inv in E as [[? _] | (c2 & r2 & -> & Hc2 & E)]; [discriminate |].
  apply split_dots_inv in E as [[_ ->] | (c3 & r3 & _ & _ & E)].
  - split; [by apply match_version_digits |]. by destruct Hx, Hy, Hz.
  - destruct r3; simpl in E; repeat case_match; discriminate.
Qed.

End VersionGrammar.

Section FormatFacts.
Import Text.
Variable h : Host.

Lemma pretty_0 : pretty 0%N = "0".
Proof. reflexivity. Qed.

Lemma chars_format a b c :
  chars (format_version a b c)
  = chars (pretty a) ++ (46%N, ".") :: chars (pretty b) ++ (46%N, ".") :: chars (pretty c).
Proof.
  unfold format_version.
  rewrite chars_ascii_app by apply isascii_pretty.
  change ("." +:+ pretty b +:+ "." +:+ pretty c)
    with (String "." (pretty b +:+ "." +:+ pretty c)).
  rewrite chars_ascii by (simpl; lia).
  rewrite chars_ascii_app by apply isascii_pretty.
  change ("." +:+ pretty c) with (String "." (pretty c)).
  by rewrite chars_ascii by (simpl; lia).
Qed.

(** A run of ASCII digits ends in a character that is no whitespace. *)
Lemma ascii_digits_last (d : list char) :
  Forall (fun c : char => (48 <= fst c <= 57)%N) d -> d <> [] ->
  exists v x, d = v ++ [x] /\ isspace (ucd h) x = false.
Proof.
  intros Hd Hne. destruct (exists_last Hne) as (v & x & ->).
  exists v, x. split; [done |]. apply Forall_app in Hd as [_ Hx].
  apply Forall_cons in Hx as [Hx _]. by apply ascii_digit_not_space.
Qed.

Lemma forallb_ascii_digits (d : list char) :
  Forall (fun c : char => (48 <= fst c <= 57)%N) d -> forallb (isdigit (ucd h)) d = true.
Proof.
  intros Hd. apply forallb_forall. intros c Hc. apply ascii_digit_is_digit.
  rewrite Forall_forall in Hd. apply Hd. by apply list_elem_of_In.
Qed.

Lemma stripped_format a b c :
  stripped (ucd h) (format_version a b c) = chars (format_version a b c).
Proof.
  unfold stripped. rewrite chars_format.
  pose proof (pretty_chars a) as Da. pose proof (chars_pretty_not_nil a) as Na.
  destruct (chars (pretty a)) as [|x da]; [done |].
  apply Forall_cons in Da as [Hx _].
  rewrite <- app_comm_cons, lstrip_head by by apply ascii_digit_not_space.
  destruct (ascii_digits_last (chars (pretty c)) (pretty_chars c)
              (chars_pretty_not_nil c)) as (v & y & -> & Hy).
  replace (x :: da ++ (46%N, ".") :: chars (pretty b) ++ (46%N, ".") :: v ++ [y])
    with ((x :: da ++ (46%N, ".") :: chars (pretty b) ++ (46%N, ".") :: v) ++ [y])
    by (simpl; by rewrite <- !app_assoc, <- !app_comm_cons, <- !app_assoc).
  by apply rstrip_snoc.
Qed.

Lemma match_version_format a b c :
  match_version (ucd h) (chars (format_version a b c))
  = Some (chars (pretty a), chars (pretty b), chars (pretty c)).
Proof.
  rewrite chars_format. apply match_version_digits; try done;
    (split; [apply forallb_ascii_digits, pretty_chars | apply chars_pretty_not_nil]).
Qed.

Lemma over_limit_mono a b :
  (a <= b)%nat -> over_limit h b = false -> over_limit h a = false.
Proof.
  unfold over_limit. cbv zeta. intros Hab H.
  destruct (640 <? N.of_nat a)%N eqn:E1; [| done].
  destruct (0 <? int_max_str_digits h)%N eqn:E2; [| done].
  apply N.ltb_lt in E1. simpl.
  replace (640 <? N.of_nat b)%N with true in H by (symmetry; apply N.ltb_lt; lia).
  simpl in H. apply N.ltb_ge in H. apply N.ltb_ge. lia.
Qed.

Lemma int_fits g w : over_limit h (length g) = false ->
  int h g w = (Returned (int_value (ucd h) g), w).
Proof. intros H. unfold int. by rewrite H. Qed.

Lemma str_fits n w : over_limit h (String.length (pretty n)) = false ->
  str h n w = (Returned (pretty n), w).
Proof. intros H. unfold str, decimal_text. by rewrite H. Qed.

Lemma str_too_long n w : over_limit h (String.length (pretty n)) = true ->
  exists msg, str h n w = (Raised (ValueError msg), w).
Proof. intros H. unfold str, decimal_text. rewrite H. by eexists. Qed.

(** A number that was read can be written: its text is no longer than the
    run of digits it was read from. *)
Lemma read_number_fits g :
  forallb (isdigit (ucd h)) g = true -> g <> [] -> over_limit h (length g) = false ->
  over_limit h (String.length (pretty (int_value (ucd h) g))) = false.
Proof.
  intros Hd Hne. apply over_limit_mono. by apply length_pretty_int.
Qed.

End FormatFacts.

(** ** Running the script *)

Section BumpFacts.
Variable h : Host.

Lemma bind_returned {A B} (m : M A) (k : A -> M B) w a w' :
  m w = (Returned a, w') -> bind m k w = k a w'.
Proof. unfold bind. by intros ->. Qed.

Lemma bind_raised {A B} (m : M A) (k : A -> M B) w e w' :
  m w = (Raised e, w') -> bind m k w = (Raised e, w').
Proof. unfold bind. by intros ->. Qed.

(** [parse_version] is the error report when the pattern does not match;
    when it matches, the three runs of digits are read, unless one of them
    is too long for [int], and the world is left alone. *)
Lemma parse_version_cases s w :
  match Text.match_version (ucd h) (Text.stripped (ucd h) s) with
  | None =>
      parse_version h s w
      = print_error ("Invalid version format: " +:+ s +:+ " (expected: X.Y.Z)") w
  | Some (g1, g2, g3) =>
      if over_limit h (length g1) || over_limit h (length g2) || over_limit h (length g3)
      then exists msg, parse_version h s w = (Raised (ValueError msg), w)
      else parse_version h s w
           = (Returned (Text.int_value (ucd h) g1, Text.int_value (ucd h) g2,
                        Text.int_value (ucd h) g3), w)
  end.
Proof.
  unfold parse_version.
  destruct (Text.match_version (ucd h) (Text.stripped (ucd h) s)) as [[[g1 g2] g3]|];
    [| done].
  unfold int, bind, ret, raise.
  destruct (over_limit h (length g1)); [by eexists |].
  destruct (over_limit h (length g2)); [by eexists |].
  destruct (over_limit h (length g3)); [by eexists |]. done.
Qed.

Lemma print_error_raises {A} msg w :
  exists w', @print_error A msg w = (Raised (SystemExit 1), w')
             /\ files w' = files w /\ spawned w' = spawned w.
Proof. eexists. split; [reflexivity | done]. Qed.

(** A parse that returns says the same in every world, changes nothing, and
    gives numbers that [str] can write again. *)
Lemma parse_version_returned s w v :
  outcome_of (parse_version h s) w = Returned v ->
  (forall w', parse_version h s w' = (Returned v, w'))
  /\ Spec.exact_xyz (ucd h) (Text.stripped (ucd h) s) = true
  /\ over_limit h (String.length (pretty (fst (fst v)))) = false
  /\ over_limit h (String.length (pretty (snd (fst v)))) = false
  /\ over_limit h (String.length (pretty (snd v))) = false.
Proof.
  unfold outcome_of. intros H.
  pose proof (parse_version_cases s) as Hc.
  pose proof (match_version_exact (ucd h) s) as Hx.
  destruct (Text.match_version (ucd h) (Text.stripped (ucd h) s)) as [[[g1 g2] g3]|]
    eqn:Hm.
  - apply match_version_inv in Hm
      as (c1 & c2 & r & _ & _ & _ & _ & [D1 N1] & [D2 N2] & [D3 N3]).
    destruct (over_limit h (length g1)) eqn:L1;
      [destruct (Hc w) as [msg Hr]; rewrite Hr in H; discriminate |].
    destruct (over_limit h (length g2)) eqn:L2;
      [destruct (Hc w) as [msg Hr]; rewrite Hr in H; discriminate |].
    destruct (over_limit h (length g3)) eqn:L3;
      [destruct (Hc w) as [msg Hr]; rewrite Hr in H; discriminate |].
    simpl in Hc. rewrite (Hc w) in H. simpl in H. injection H as <-. simpl.
    split; [exact Hc |]. split; [by apply Hx |].
    repeat split; by apply read_number_fits.
  - destruct (print_error_raises (A := N * N * N)
                ("Invalid version format: " +:+ s +:+ " (expected: X.Y.Z)") w)
      as (w' & Hr & _).
    rewrite (Hc w), Hr in H. discriminate.
Qed.

(** A version the script has formatted parses back to its components. *)
Lemma parse_version_format a b c w :
  over_limit h (String.length (pretty a)) = false ->
  over_limit h (String.length (pretty b)) = false ->
  over_limit h (String.length (pretty c)) = false ->
  parse_version h (format_version a b c) w = (Returned (a, b, c), w).
Proof.
  intros Ha Hb Hc. pose proof (parse_version_cases (format_version a b c) w) as H.
  rewrite stripped_format, match_version_format in H.
  rewrite !length_chars_ascii in H by apply isascii_pretty.
  rewrite Ha, Hb, Hc in H. simpl in H. by rewrite !int_pretty in H.
Qed.

(** What a parse that returns has read. *)
Lemma parse_version_groups s w v w' :
  parse_version h s w = (Returned v, w') ->
  exists g1 g2 g3,
    Text.match_version (ucd h) (Text.stripped (ucd h) s) = Some (g1, g2, g3)
    /\ v = (Text.int_value (ucd h) g1, Text.int_value (ucd h) g2,
            Text.int_value (ucd h) g3).
Proof.
  intros H. pose proof (parse_version_cases s w) as Hc.
  destruct (Text.match_version (ucd h) (Text.stripped (ucd h) s)) as [[[g1 g2] g3]|].
  - exists g1, g2, g3. split; [done |].
    destruct (over_limit h (length g1) || over_limit h (length g2)
              || over_limit h (length g3)).
    + destruct Hc as [msg Hr]. rewrite Hr in H. discriminate.
    + rewrite Hc in H. by injection H as <- _.
  - destruct (print_error_raises (A := N * N * N)
                ("Invalid version format: " +:+ s +:+ " (expected: X.Y.Z)") w)
      as (w0 & Hr & _).
    rewrite Hc, Hr in H. discriminate.
Qed.

Lemma exists_file p w text : files w !! p = Some text -> exists_ p w = (Returned true, w).
Proof.
  intros H. unfold exists_, get. f_equal.
  rewrite bool_decide_eq_true_2; [done |]. apply elem_of_dom. by eexists.
Qed.

Lemma read_file p w text : files w !! p = Some text -> read_text h p w = (Returned text, w).
Proof. intros H. unfold read_text. by rewrite H. Qed.

Lemma str_cases n w :
  (over_limit h (String.length (pretty n)) = false
   /\ str h n w = (Returned (pretty n), w))
  \/ (over_limit h (String.length (pretty n)) = true
      /\ exists msg, str h n w = (Raised (ValueError msg), w)).
Proof.
  destruct (over_limit h (String.length (pretty n))) eqn:E.
  - right. split; [done |]. by apply str_too_long.
  - left. split; [done |]. by apply str_fits.
Qed.

(** The new version a keyword gives: the component that counts is one more
    and the lower ones are zero, unless the number that was counted up has
    become too long for [str]. *)
Lemma keyword_version X Y Z w :
  over_limit h (String.length (pretty X)) = false ->
  over_limit h (String.length (pretty Y)) = false ->
  let computes target new counted :=
    if over_limit h (String.length (pretty counted))
    then exists msg, calculate_new_version h target X Y Z w = (Raised (ValueError msg), w)
    else calculate_new_version h target X Y Z w = (Returned new, w) in
  computes "patch" (format_version X Y (Z + 1)) (Z + 1)%N
  /\ computes "minor" (format_version X (Y + 1) 0) (Y + 1)%N
  /\ computes "major" (format_version (X + 1) 0 0) (X + 1)%N.
Proof.
  intros HX HY computes. subst computes. cbv beta.
  unfold calculate_new_version, format_version.
  change (is_keyword "patch") with true. change (is_keyword "minor") with true.
  change (is_keyword "major") with true. cbv iota.
  change ("patch" =? "major")%string with false.
  change ("patch" =? "minor")%string with false.
  change ("minor" =? "major")%string with false.
  change ("minor" =? "minor")%string with true.
  change ("major" =? "major")%string with true. cbv iota.
  rewrite !(bind_returned _ _ _ _ _ (str_fits h X w HX)).
  rewrite !(bind_returned _ _ _ _ _ (str_fits h Y w HY)).
  rewrite pretty_0.
  split; [| split].
  - destruct (str_cases (Z + 1) w) as [[-> Hs] | [-> [msg Hs]]].
    + by rewrite (bind_returned _ _ _ _ _ Hs).
    + exists msg. by rewrite (bind_raised _ _ _ _ _ Hs).
  - destruct (str_cases (Y + 1) w) as [[-> Hs] | [-> [msg Hs]]].
    + by rewrite (bind_returned _ _ _ _ _ Hs).
    + exists msg. by rewrite (bind_raised _ _ _ _ _ Hs).
  - destruct (str_cases (X + 1) w) as [[-> Hs] | [-> [msg Hs]]].
    + by rewrite (bind_returned _ _ _ _ _ Hs).
    + exists msg. by rewrite (bind_raised _ _ _ _ _ Hs).
Qed.

(** The first part of the bump, when the version file can be read. *)
Lemma plan_bump_reads bump_type root w text X Y Z :
  files w !! version_file root = Some text ->
  outcome_of (parse_version h (Text.strip (ucd h) text)) w = Returned (X, Y, Z) ->
  plan_bump h bump_type root w
  = (let* new_version := calculate_new_version h bump_type X Y Z in
     print_transition (Text.strip (ucd h) text) new_version ;;
     ret (Text.strip (ucd h) text, new_version)) w.
Proof.
  intros Hf Hp. unfold plan_bump.
  rewrite (bind_returned _ _ _ _ _ (exists_file _ _ _ Hf)). simpl negb. unfold when at 1.
  rewrite (bind_returned _ _ w tt w eq_refl).
  rewrite (bind_returned _ _ _ _ _ (read_file _ _ _ Hf)).
  apply parse_version_returned in Hp as [Hp _].
  by rewrite (bind_returned _ _ _ _ _ (Hp w)).
Qed.

End BumpFacts.

(** C1, as stated, fails where the interpreter refuses to write a number:
    with a VERSION file whose last number is 4300 nines (the longest that
    [int] reads under the default limit), the parse gives X.Y.Z, yet
    [patch] does not compute X.Y.(Z+1): the run ends with [ValueError],
    nothing is shown and no file is touched. *)
Lemma bump_beyond_digit_limit_raises :
  let w := Demo.at_the_limit in
  files w !! version_file Demo.root = Some (Demo.longest_version +:+ Demo.newline)
  /\ outcome_of (parse_version Demo.linux Demo.longest_version) w
     = Returned (0, 0, 10 ^ 4300 - 1)%N
  /\ exists msg,
       bump_version Demo.linux "patch" Demo.root false w = (Raised (ValueError msg), w).
Proof.
  split; [reflexivity |]. split; [vm_compute; reflexivity |].
  eexists. vm_compute. reflexivity.
Qed.

(** C1, amended.  With the current version [X.Y.Z] read from the VERSION
    file, the keyword [patch] gives [X.Y.(Z+1)], [minor] gives [X.(Y+1).0]
    and [major] gives [(X+1).0.0], and the text produced parses back to
    exactly these three numbers, as long as the number counted up is not too
    long for [str] (more digits than [sys.get_int_max_str_digits()]); when
    it is, the computing part ends with [ValueError] and has shown and
    changed nothing.  A literal target that passes the parse is the new
    version as it stands, whatever [X], [Y] and [Z] are.  Where the
    computing part of [bump_version] answers, its answer is the pair
    (current, new) and its only effect is the display of the transition. *)
Theorem bump_computes_next_version (h : Host) (root : path) (w : World)
    (text : string) (X Y Z : N) :
  files w !! version_file root = Some text ->
  outcome_of (parse_version h (Text.strip (ucd h) text)) w = Returned (X, Y, Z) ->
  let current := Text.strip (ucd h) text in
  let answer new := (Returned (current, new), world_after (print_transition current new) w) in
  let computes target a b c counted :=
    if over_limit h (String.length (pretty counted))
    then exists msg, plan_bump h target root w = (Raised (ValueError msg), w)
    else plan_bump h target root w = answer (format_version a b c)
         /\ forall w', parse_version h (format_version a b c) w' = (Returned (a, b, c), w') in
  computes "patch" X Y (Z + 1)%N (Z + 1)%N
  /\ computes "minor" X (Y + 1)%N 0%N (Y + 1)%N
  /\ computes "major" (X + 1)%N 0%N 0%N (X + 1)%N
  /\ (forall literal v,
        is_keyword literal = false ->
        outcome_of (parse_version h literal) w = Returned v ->
        plan_bump h literal root w = answer literal).
Proof.
  intros Hf Hp current answer computes. subst computes. cbv beta.
  pose proof (parse_version_returned h _ _ _ Hp) as (_ & _ & HX & HY & HZ).
  simpl in HX, HY, HZ.
  pose proof (keyword_version h X Y Z w HX HY) as (Hpatch & Hminor & Hmajor).
  cbv beta in Hpatch, Hminor, Hmajor.
  assert (over_limit h (String.length (pretty 0%N)) = false) as H0 by reflexivity.
  rewrite !(plan_bump_reads h _ _ _ _ _ _ _ Hf Hp).
  split; [| split; [| split]].
  - destruct (over_limit h (String.length (pretty (Z + 1)%N))) eqn:E.
    + destruct Hpatch as [msg Hr]. exists msg. by rewrite (bind_raised _ _ _ _ _ Hr).
    + rewrite (bind_returned _ _ _ _ _ Hpatch). split; [reflexivity |].
      intros w'. by apply parse_version_format.
  - destruct (over_limit h (String.length (pretty (Y + 1)%N))) eqn:E.
    + destruct Hminor as [msg Hr]. exists msg. by rewrite (bind_raised _ _ _ _ _ Hr).
    + rewrite (bind_returned _ _ _ _ _ Hminor). split; [reflexivity |].
      intros w'. by apply parse_version_format.
  - destruct (over_limit h (String.length (pretty (X + 1)%N))) eqn:E.
    + destruct Hmajor as [msg Hr]. exists msg. by rewrite (bind_raised _ _ _ _ _ Hr).
    + rewrite (bind_returned _ _ _ _ _ Hmajor). split; [reflexivity |].
      intros w'. by apply parse_version_format.
  - intros literal v Hk Hl. rewrite (plan_bump_reads h _ _ _ _ _ _ _ Hf Hp).
    apply parse_version_returned in Hl as [Hl _].
    unfold calculate_new_version. rewrite Hk.
    unfold bind at 1. unfold bind at 1. by rewrite (Hl w).
Qed.

Lemma bump_computes_next_version_witness :
  plan_bump Demo.linux "patch" Demo.root Demo.world
  = (Returned ("0.1.1", "0.1.2"),
     world_after (print_transition "0.1.1" "0.1.2") Demo.world)
  /\ parse_version Demo.linux "0.1.2" Demo.world = (Returned (0, 1, 2)%N, Demo.world).
Proof.
  pose proof (bump_computes_next_version Demo.linux Demo.root Demo.world
                ("0.1.1" +:+ Demo.newline) 0 1 1 eq_refl eq_refl) as (H & _).
  cbv beta in H. change (over_limit Demo.linux (String.length (pretty (1 + 1)%N)))
    with false in H. cbv iota in H. destruct H as [H1 H2].
  split; [exact H1 | exact (H2 Demo.world)].
Defined.

Example bump_examples :
  format_version 1 2 (3 + 1) = "1.2.4" /\ format_version (1 + 1) 0 0 = "2.0.0"
  /\ format_version 0 (9 + 1) 0 = "0.10.0".
Proof. vm_compute. done. Qed.

(** *** What a computation may change

    [respects R m]: whatever [m] does, the world before and the world after
    are related by [R].  For a reflexive and transitive [R] this follows the
    structure of the code. *)


Section Frames.
Context (R : World -> World -> Prop) `{!Frame R}.

Lemma respects_ret {A} (a : A) : respects R (ret a).
Proof. intros w. apply frame_refl. Qed.

Lemma respects_raise {A} e : respects R (@raise A e).
Proof. intros w. apply frame_refl. Qed.

Lemma respects_get {A} (f : World -> A) : respects R (get f).
Proof. intros w. apply frame_refl. Qed.

Lemma respects_bind {A B} (m : M A) (k : A -> M B) :
  respects R m -> (forall a, respects R (k a)) -> respects R (bind m k).
Proof.
  intros Hm Hk w. unfold bind. specialize (Hm w).
  destruct (m w) as [[a | e] w1]; simpl in *; [| done].
  eapply frame_trans; [exact Hm | apply Hk].
Qed.

Lemma respects_when b (m : M unit) : respects R m -> respects R (when b m).
Proof. intros Hm. destruct b; [done | apply respects_ret]. Qed.

Lemma respects_try_with {A} (body : M A) handler :
  respects R body ->
  (forall e k, handler e = Some k -> respects R k) ->
  respects R (try_with body handler).
Proof.
  intros Hb Hh w. unfold try_with. specialize (Hb w).
  destruct (body w) as [[a | e] w1]; simpl in *; [done |].
  destruct (handler e) as [k |] eqn:E; [| done].
  eapply frame_trans; [exact Hb | by eapply Hh].
Qed.

Lemma respects_try_except {A} (body handler : M A) :
  respects R body -> respects R handler -> respects R (try_except body handler).
Proof.
  intros Hb Hh. apply respects_try_with; [done |]. by intros e k [= <-].
Qed.

Lemma respects_for_each {A} (f : A -> M unit) l :
  (forall a, respects R (f a)) -> respects R (for_each f l).
Proof.
  intros Hf. induction l as [|x l IH]; simpl; [apply respects_ret |].
  apply respects_bind; [apply Hf | done].
Qed.

Lemma respects_modify f : (forall w, R w (f w)) -> respects R (modify f).
Proof. intros Hf w. apply Hf. Qed.

End Frames.

(** Walk through a computation, leaving the steps that are not plain
    control flow to the hints of the database [frame]. *)
Create HintDb frame discriminated.

Ltac frame_step :=
  lazymatch goal with
  | |- Frame _ => apply _
  | |- respects _ (bind _ _) => apply respects_bind; [apply _ | | intros ?]
  | |- respects _ (ret _) => apply respects_ret; apply _
  | |- respects _ (raise _) => apply respects_raise; apply _
  | |- respects _ (get _) => apply respects_get; apply _
  | |- respects _ (when _ _) => apply respects_when; [apply _ |]
  | |- respects _ (try_except _ _) => apply respects_try_except; [apply _ | |]
  | |- respects _ (for_each _ _) => apply respects_for_each; [apply _ | intros ?]
  | |- respects _ (if ?b then _ else _) => destruct b
  | |- respects _ (match ?x with _ => _ end) => destruct x
  end.

Ltac frame := repeat (first [ solve [eauto 2 with frame] | frame_step ]).

(** The relations used below. *)


#[local] Instance printed_frame : Frame printed.
Proof.
  split.
  - intros w. exists []. destruct w. unfold set_stdout. simpl. by rewrite app_nil_r.
  - intros a b c [l1 ->] [l2 ->]. exists (l1 ++ l2).
    destruct a. unfold set_stdout. simpl. by rewrite app_assoc.
Qed.

#[local] Instance same_files_frame : Frame same_files.
Proof. split; unfold same_files; [done | congruence]. Qed.

#[local] Instance same_spawned_frame : Frame same_spawned.
Proof. split; unfold same_spawned; [done | congruence]. Qed.

#[local] Instance stdout_grew_frame : Frame stdout_grew.
Proof.
  split.
  - intros w. exists []. by rewrite app_nil_r.
  - intros a b c [l1 H1] [l2 H2]. exists (l1 ++ l2). by rewrite H2, H1, app_assoc.
Qed.

Lemma printed_same_files w w' : printed w w' -> files w' = files w.
Proof. by intros [l ->]. Qed.

Lemma printed_same_spawned w w' : printed w w' -> spawned w' = spawned w.
Proof. by intros [l ->]. Qed.

Lemma printed_stdout_grew w w' : printed w w' -> stdout_grew w w'.
Proof. intros [l ->]. by exists l. Qed.

Lemma write_printed s : respects printed (write s).
Proof. intros w. by exists [s]. Qed.

Lemma print_printed s : respects printed (print s).
Proof. apply write_printed. Qed.
#[local] Hint Resolve write_printed print_printed : frame.

Lemma print_error_printed {A} msg : respects printed (@print_error A msg).
Proof. unfold print_error. frame. Qed.

Lemma log_printed a b c : respects printed (log a b c).
Proof. unfold log. frame. Qed.

Lemma log_dim_printed a : respects printed (log_dim a).
Proof. unfold log_dim. frame. Qed.
#[local] Hint Resolve print_error_printed log_printed log_dim_printed : frame.

Lemma ok_line_printed a : respects printed (ok_line a).
Proof. unfold ok_line. frame. Qed.

Lemma int_printed h g : respects printed (int h g).
Proof. unfold int. frame. Qed.

Lemma str_printed h n : respects printed (str h n).
Proof. unfold str. frame. Qed.
#[local] Hint Resolve int_printed str_printed : frame.

Lemma parse_version_printed h s : respects printed (parse_version h s).
Proof. unfold parse_version. frame. Qed.

Lemma exists_printed p : respects printed (exists_ p).
Proof. unfold exists_. frame. Qed.

Lemma read_text_printed h p : respects printed (read_text h p).
Proof. intros w. unfold read_text. repeat case_match; apply frame_refl. Qed.

Lemma print_transition_printed a b : respects printed (print_transition a b).
Proof. unfold print_transition. frame. Qed.

Lemma dry_run_notice_printed : respects printed dry_run_notice.
Proof. unfold dry_run_notice. frame. Qed.

Lemma detect_platform_printed h : respects printed (detect_platform h).
Proof. unfold detect_platform. frame. Qed.
#[local] Hint Resolve ok_line_printed parse_version_printed exists_printed
  read_text_printed print_transition_printed dry_run_notice_printed
  detect_platform_printed : frame.

Lemma plan_bump_printed h t root : respects printed (plan_bump h t root).
Proof. unfold plan_bump, calculate_new_version. frame. Qed.
#[local] Hint Resolve plan_bump_printed : frame.

(** *** The two parts of the bump *)

Section PlanFacts.
Variable h : Host.

(** When the first part returns, it has shown the transition and changed
    nothing else, and the new version passes the parse in every world. *)
Lemma plan_bump_returned t root w c n w1 :
  plan_bump h t root w = (Returned (c, n), w1) ->
  w1 = world_after (print_transition c n) w
  /\ (exists v, forall w', parse_version h n w' = (Returned v, w'))
  /\ (is_keyword t = false -> n = t).
Proof.
  unfold plan_bump. unfold bind at 1. unfold exists_, get.
  destruct (bool_decide _ || bool_decide _); simpl negb; unfold when at 1;
    [| unfold bind at 1; discriminate].
  unfold bind at 1. unfold ret at 1. unfold bind at 1.
  destruct (read_text h (version_file root) w) as [[text | e] w'] eqn:Hr;
    [| discriminate].
  assert (w' = w) as ->.
  { unfold read_text in Hr. repeat case_match; by inversion Hr. }
  unfold bind at 1.
  destruct (parse_version h (Text.strip (ucd h) text) w) as [[[[X Y] Z] | e] w'] eqn:Hp;
    [| discriminate].
  assert (outcome_of (parse_version h (Text.strip (ucd h) text)) w = Returned (X, Y, Z))
    as Ho by (unfold outcome_of; by rewrite Hp).
  apply parse_version_returned in Ho as (Hw & _ & HX & HY & HZ). simpl in HX, HY, HZ.
  rewrite (Hw w) in Hp. injection Hp as <-.
  assert (over_limit h (String.length (pretty 0%N)) = false) as H0 by reflexivity.
  assert (forall n0 w2,
            calculate_new_version h t X Y Z w = (Returned n0, w2) ->
            w2 = w /\ (exists v, forall w', parse_version h n0 w' = (Returned v, w'))
            /\ (is_keyword t = false -> n0 = t)) as Hcalc.
  { intros n0 w2. destruct (is_keyword t) eqn:Hk.
    - pose proof (keyword_version h X Y Z w HX HY) as (Hpatch & Hminor & Hmajor).
      cbv beta in Hpatch, Hminor, Hmajor.
      assert (t = "major" \/ t = "minor" \/ t = "patch") as Ht.
      { unfold is_keyword in Hk. apply bool_decide_eq_true_1 in Hk.
        rewrite !elem_of_cons, elem_of_nil in Hk. tauto. }
      destruct Ht as [-> | [-> | ->]].
      + destruct (over_limit h (String.length (pretty (X + 1)%N))) eqn:E;
          [destruct Hmajor as [msg ->]; discriminate |].
        rewrite Hmajor. intros [= <- <-]. split; [done |]. split; [| done].
        eexists. intros w'. by apply parse_version_format.
      + destruct (over_limit h (String.length (pretty (Y + 1)%N))) eqn:E;
          [destruct Hminor as [msg ->]; discriminate |].
        rewrite Hminor. intros [= <- <-]. split; [done |]. split; [| done].
        eexists. intros w'. by apply parse_version_format.
      + destruct (over_limit h (String.length (pretty (Z + 1)%N))) eqn:E;
          [destruct Hpatch as [msg ->]; discriminate |].
        rewrite Hpatch. intros [= <- <-]. split; [done |]. split; [| done].
        eexists. intros w'. by apply parse_version_format.
    - unfold calculate_new_version. rewrite Hk. unfold bind at 1.
      destruct (parse_version h t w) as [[v | e] w'] eqn:Hv; [| discriminate].
      assert (outcome_of (parse_version h t) w = Returned v)
        as Ho by (unfold outcome_of; by rewrite Hv).
      apply parse_version_returned in Ho as (Hw' & _).
      rewrite (Hw' w) in Hv. injection Hv as <-.
      unfold ret. intros [= <- <-]. split; [done |]. split; [by exists v | done]. }
  unfold bind at 1.
  destruct (calculate_new_version h t X Y Z w) as [[n0 | e] w2] eqn:Hn; [| discriminate].
  destruct (Hcalc n0 w2 eq_refl) as (-> & Hparse & Hkw).
  unfold bind at 1.
  destruct (print_transition _ _ w) as [[[] | e] w3] eqn:Hpt; [| discriminate].
  unfold ret. intros [= <- <- <-]. unfold world_after. rewrite Hpt. done.
Qed.

(** A target that is neither a keyword nor well formed stops the first
    part. *)
Lemma plan_bump_malformed t root w :
  is_keyword t = false ->
  Text.match_version (ucd h) (Text.stripped (ucd h) t) = None ->
  exists e w1, plan_bump h t root w = (Raised e, w1).
Proof.
  intros Hk Hbad.
  destruct (plan_bump h t root w) as [[[c n] | e] w1] eqn:Hp; [| by eauto].
  apply plan_bump_returned in Hp as (_ & [v Hwf] & Hn).
  rewrite (Hn Hk) in Hwf. specialize (Hwf w).
  pose proof (parse_version_cases h t w) as Hc. rewrite Hbad in Hc.
  destruct (print_error_raises (A := N * N * N)
              ("Invalid version format: " +:+ t +:+ " (expected: X.Y.Z)") w)
    as (w' & Hr & _).
  rewrite Hc, Hr in Hwf. discriminate.
Qed.

Lemma print_transition_returns c n w :
  print_transition c n w = (Returned tt, world_after (print_transition c n) w).
Proof. reflexivity. Qed.

Lemma dry_run_notice_returns w :
  dry_run_notice w = (Returned tt, world_after dry_run_notice w).
Proof. reflexivity. Qed.

End PlanFacts.

(** What the real run may change: files get written, the terminal grows. *)
Lemma write_text_stdout_grew h p s : respects stdout_grew (write_text h p s).
Proof.
  intros w. unfold write_text. case_match; simpl; exists []; by rewrite app_nil_r.
Qed.

Lemma printed_respects_stdout_grew {A} (m : M A) :
  respects printed m -> respects stdout_grew m.
Proof. intros H w. apply printed_stdout_grew, H. Qed.

Lemma loads_printed h s : respects printed (loads h s).
Proof. unfold loads. frame. Qed.

Lemma set_version_printed d v : respects printed (set_version d v).
Proof. unfold set_version. frame. Qed.
#[local] Hint Resolve loads_printed set_version_printed : frame.
#[local] Hint Resolve write_text_stdout_grew : frame.
#[local] Hint Extern 3 (respects stdout_grew _) =>
  apply printed_respects_stdout_grew; solve [eauto 2 with frame] : frame.

Lemma rewrite_files_stdout_grew h n root : respects stdout_grew (rewrite_files h n root).
Proof.
  unfold rewrite_files, update_version_file, update_cmake, update_version_hpp,
    update_vcpkg_json, update_package_json, print_bumped.
  frame.
Qed.

Lemma print_transition_shows c n w :
  shows (transition_line c n) w (world_after (print_transition c n) w).
Proof.
  unfold shows, world_after, print_transition, print, write, bind, modify. simpl.
  eexists [_; _; _; _; _]. split; [by rewrite <- !app_assoc |].
  unfold transition_line. apply list_elem_of_In. simpl. tauto.
Qed.

Lemma shows_grew x w w1 w2 : shows x w w1 -> stdout_grew w1 w2 -> shows x w w2.
Proof.
  intros (l & Hl & Hx) (l' & Hl'). exists (l ++ l'). split.
  - by rewrite Hl', Hl, app_assoc.
  - apply elem_of_app. by left.
Qed.

(** C2.  A dry run changes nothing but the terminal, so the five files (and
    every other file) hold what they held before; and it shows what a real
    run shows: either both runs stop in the computing part with the same
    error and the same output, or the computing part gives both the same
    current and new version, the dry run returns after its notice, the real
    run goes on to rewrite the files with that new version, and the line
    that shows the transition to the new version is in the terminal output
    of each of them. *)
Theorem dry_run_same_version_no_write (h : Host) (target : string) (root : path)
    (w : World) :
  let dry := bump_version h target root true w in
  let real := bump_version h target root false w in
  (exists shown, snd dry = set_stdout (stdout w ++ shown) w)
  /\ (forall p, p ∈ [version_file root; engine_cmake root; engine_version_hpp root;
                     engine_vcpkg_json root; app_package_json root] ->
                files (snd dry) !! p = files w !! p)
  /\ ((exists e w1, dry = (Raised e, w1) /\ real = (Raised e, w1))
      \/ (exists current new w1,
            plan_bump h target root w = (Returned (current, new), w1)
            /\ dry = (Returned tt, world_after dry_run_notice w1)
            /\ real = rewrite_files h new root w1
            /\ shows (transition_line current new) w (snd dry)
            /\ shows (transition_line current new) w (snd real))).
Proof.
  intros dry real.
  assert (respects printed (bump_version h target root true)) as Hdry.
  { unfold bump_version. frame. }
  specialize (Hdry w). fold dry in Hdry.
  split; [exact Hdry |]. split.
  { intros p _. by rewrite (printed_same_files _ _ Hdry). }
  subst dry real. unfold bump_version.
  destruct (plan_bump h target root w) as [[[c n] | e] w1] eqn:Hp.
  - right. exists c, n, w1. apply plan_bump_returned in Hp as Hw1.
    destruct Hw1 as [Hw1 _].
    assert (shows (transition_line c n) w w1) as Hshown
      by (rewrite Hw1; apply print_transition_shows).
    rewrite !(bind_returned _ _ _ _ _ Hp).
    split; [done |]. split; [done |]. split; [done |]. split.
    + apply (shows_grew _ _ w1); [done |].
      apply printed_stdout_grew, dry_run_notice_printed.
    + apply (shows_grew _ _ w1); [done |]. apply rewrite_files_stdout_grew.
  - left. exists e, w1. by rewrite !(bind_raised _ _ _ _ _ Hp).
Qed.

(** *** Strictness of the parse *)

Lemma exact_xyz_rejected u s :
  Spec.exact_xyz u (Text.stripped u s) = false ->
  Text.match_version u (Text.stripped u s) = None.
Proof.
  intros Hs. destruct (Text.match_version u (Text.stripped u s)) eqn:Hm; [| done].
  rewrite match_version_exact in Hs; [discriminate | by eexists].
Qed.

(** C5, as stated, fails: [parse_version] strips the text first, so a text
    that is not of the exact shape (here it starts with a blank) is
    accepted and read as 1.2.3. *)
Lemma parse_version_accepts_padded_text :
  Spec.exact_xyz Demo.unicode_14 (Text.chars " 1.2.3") = false
  /\ parse_version Demo.linux " 1.2.3" Demo.world = (Returned (1, 2, 3)%N, Demo.world).
Proof. split; reflexivity. Qed.

(** The digits of the parse are those of [\d] and [int], not only the ten
    of ASCII, and the whitespace is that of [str.strip]: three Arabic-Indic
    numbers after a no-break space are read as 1.2.3. *)
Example parse_version_reads_unicode :
  parse_version Demo.linux (String (ascii_of_N 194) (String (ascii_of_N 160) "١.٢.٣"))
                Demo.world
  = (Returned (1, 2, 3)%N, Demo.world).
Proof. reflexivity. Qed.

(** C5, amended.  A text whose stripped form (the characters left by
    [str.strip]) is not of the exact shape X.Y.Z, three runs of decimal
    digits between two dots, is rejected: [parse_version] is then the error
    report, which ends the process with status 1.  A bump whose target is
    such a text (and is not one of the three keywords) fails whatever the
    files hold and, dry run or not, leaves the five files as they were; when
    the VERSION file itself is in order, the failure is exactly that error
    report. *)
Theorem malformed_version_rejected (h : Host) (s : string) (w : World) :
  Spec.exact_xyz (ucd h) (Text.stripped (ucd h) s) = false ->
  parse_version h s w
    = print_error ("Invalid version format: " +:+ s +:+ " (expected: X.Y.Z)") w
  /\ outcome_of (parse_version h s) w = Raised (SystemExit 1)
  /\ (is_keyword s = false ->
      forall root dry_run,
        (exists e, outcome_of (bump_version h s root dry_run) w = Raised e)
        /\ (forall p, p ∈ [version_file root; engine_cmake root; engine_version_hpp root;
                           engine_vcpkg_json root; app_package_json root] ->
                      files (world_after (bump_version h s root dry_run) w) !! p
                      = files w !! p)
        /\ (forall text v,
              files w !! version_file root = Some text ->
              outcome_of (parse_version h (Text.strip (ucd h) text)) w = Returned v ->
              bump_version h s root dry_run w
              = print_error ("Invalid version format: " +:+ s +:+ " (expected: X.Y.Z)") w)).
Proof.
  intros Hs. apply exact_xyz_rejected in Hs.
  assert (parse_version h s w
          = print_error ("Invalid version format: " +:+ s +:+ " (expected: X.Y.Z)") w)
    as Hparse.
  { pose proof (parse_version_cases h s w) as Hc. by rewrite Hs in Hc. }
  split; [exact Hparse |]. split; [unfold outcome_of; by rewrite Hparse |].
  intros Hk root dry_run.
  destruct (plan_bump_malformed h s root w Hk Hs) as (e & w1 & Hp).
  pose proof (plan_bump_printed h s root w) as Hw1. rewrite Hp in Hw1. simpl in Hw1.
  assert (bump_version h s root dry_run w = (Raised e, w1)) as Hb
    by (unfold bump_version; by rewrite (bind_raised _ _ _ _ _ Hp)).
  unfold outcome_of, world_after. rewrite Hb. simpl.
  split; [by eexists |]. split.
  - intros p _. by rewrite (printed_same_files _ _ Hw1).
  - intros text [[X Y] Z] Hf Hv. rewrite <- Hb. unfold bump_version.
    unfold bind at 1. rewrite (plan_bump_reads h _ _ _ _ _ _ _ Hf Hv).
    unfold calculate_new_version. rewrite Hk.
    unfold bind at 1. unfold bind at 1. by rewrite Hparse.
Qed.

Lemma malformed_version_rejected_witness :
  outcome_of (bump_version Demo.linux "1.2" Demo.root false) Demo.world
    = Raised (SystemExit 1)
  /\ files (world_after (bump_version Demo.linux "1.2" Demo.root false) Demo.world)
     = files Demo.world.
Proof.
  destruct (malformed_version_rejected Demo.linux "1.2" Demo.world eq_refl)
    as (_ & _ & H).
  destruct (H eq_refl Demo.root false) as (_ & _ & Hb).
  unfold outcome_of, world_after.
  rewrite (Hb ("0.1.1" +:+ Demo.newline) (0, 1, 1)%N eq_refl eq_refl).
  split; reflexivity.
Defined.

(** *** The real run, block by block *)

Section Blocks.
Variable h : Host.


Ltac block_auto :=
  intros w; unfold step_text, targets, new_text, manifest_text, block_failed;
  cbn [lookup list_lookup];
  unfold update_version_file, update_cmake, update_version_hpp, update_vcpkg_json,
    update_package_json, ok_line, log, print, write, modify, bind, read_text,
    write_text, loads, set_version, str, ret, raise;
  cbn [String.eqb Ascii.eqb Bool.eqb files unwritable set_stdout set_files fst snd];
  repeat (case_bool_decide || case_match || simplify_eq
          || (cbn [fmap option_fmap option_map mbind option_bind
                   files unwritable set_stdout set_files fst snd] in * ));
  repeat split; eauto; try done.

Lemma update_version_file_spec new root :
  block_spec (version_file root) (fun w => step_text h new root w 0)
             (update_version_file h new root).
Proof. block_auto. Qed.

Lemma update_cmake_spec new root :
  block_spec (engine_cmake root) (fun w => step_text h new root w 1)
             (update_cmake h new root).
Proof. block_auto. Qed.

Lemma update_version_hpp_spec new root g1 g2 g3 :
  Text.match_version (ucd h) (Text.stripped (ucd h) new) = Some (g1, g2, g3) ->
  block_spec (engine_version_hpp root) (fun w => step_text h new root w 2)
             (update_version_hpp h new (Text.int_value (ucd h) g1)
                (Text.int_value (ucd h) g2) (Text.int_value (ucd h) g3) root).
Proof.
  intros Hm w. unfold step_text, new_text, update_version_hpp, str. rewrite Hm.
  destruct (decimal_text h (Text.int_value (ucd h) g1)) as [major|];
    [destruct (decimal_text h (Text.int_value (ucd h) g2)) as [minor|];
     [destruct (decimal_text h (Text.int_value (ucd h) g3)) as [patch|] |] |];
    revert w; block_auto.
Qed.

Lemma update_vcpkg_json_spec new root :
  block_spec (engine_vcpkg_json root) (fun w => step_text h new root w 3)
             (update_vcpkg_json h new root).
Proof. block_auto. Qed.

Lemma update_package_json_spec new root :
  block_spec (app_package_json root) (fun w => step_text h new root w 4)
             (update_package_json h new root).
Proof. block_auto. Qed.

End Blocks.

(** *** No rollback *)

Section NoRollback.
Variable h : Host.

Lemma targets_distinct root : NoDup (targets root).
Proof.
  unfold targets, version_file, engine_cmake, engine_version_hpp, engine_vcpkg_json,
    app_package_json, joinpath.
  rewrite <- !app_assoc. cbn [app].
  change (NoDup (app root <$> [["VERSION"]; ["engine"; "CMakeLists.txt"];
                               ["engine"; "include"; "vayu"; "version.hpp"];
                               ["engine"; "vcpkg.json"]; ["app"; "package.json"]])).
  apply (NoDup_fmap_2 (app root)).
  repeat (apply NoDup_cons; split;
          [rewrite ?elem_of_cons, elem_of_nil; intuition discriminate |]).
  apply NoDup_nil_2.
Qed.

Lemma step_ok_Some new root w k t : step_text h new root w k = Some t -> step_ok h new root w k = true.
Proof. intros H. unfold step_ok. rewrite H. by apply bool_decide_eq_true_2. Qed.

Lemma step_ok_None new root w k : step_text h new root w k = None -> step_ok h new root w k = false.
Proof. intros H. unfold step_ok. rewrite H. apply bool_decide_eq_false_2. by intros [? ?]. Qed.

Lemma step_text_new_text new root w k p t :
  targets root !! k = Some p -> step_text h new root w k = Some t ->
  new_text h new k (files w !! p) = Some t.
Proof. unfold step_text. intros ->. by case_bool_decide. Qed.

Lemma step_text_ext new root w w' k :
  unwritable w' = unwritable w ->
  (forall p, targets root !! k = Some p -> files w' !! p = files w !! p) ->
  step_text h new root w' k = step_text h new root w k.
Proof.
  intros Hu Hf. unfold step_text. destruct (targets root !! k) as [p|]; [| done].
  by rewrite Hu, (Hf p eq_refl).
Qed.

Lemma print_bumped_printed new : respects printed (print_bumped h new).
Proof. unfold print_bumped. frame. Qed.

Lemma targets_ne root i j p q :
  i <> j -> targets root !! i = Some p -> targets root !! j = Some q -> p <> q.
Proof.
  intros Hij Hi Hj ->. apply Hij. eapply NoDup_lookup; eauto using targets_distinct.
Qed.

Lemma chain_step (b rest : M unit) p text w :
  block_spec p text b ->
  match text w with
  | Some t => exists w', (b ;; rest) w = rest w' /\ files w' = <[p := t]> (files w)
                         /\ unwritable w' = unwritable w
  | None => block_failed w ((b ;; rest) w)
  end.
Proof.
  intros Hb. destruct (Hb w) as [Hu Hs]. unfold bind.
  destruct (text w) as [t|].
  - destruct (b w) as [[[] | e] w']; simpl in *; [| by destruct Hs].
    exists w'. by destruct Hs.
  - destruct Hs as [(e & He & Hex) Hf].
    destruct (b w) as [[[] | e'] w']; simpl in *; [discriminate |].
    split; [by exists e | done].
Qed.

Ltac try_index tac := first [tac 0 | tac 1 | tac 2 | tac 3 | tac 4].
Ltac target_ne :=
  try_index ltac:(fun i => try_index ltac:(fun j => by eapply (targets_ne _ i j))).

Ltac known_steps :=
  unfold steps_ok_upto; cbn [seq forallb];
  repeat match goal with
         | H : step_text _ _ _ _ _ = Some _ |- _ => rewrite (step_ok_Some _ _ _ _ _ H)
         | H : step_text _ _ _ _ _ = None |- _ => rewrite (step_ok_None _ _ _ _ H)
         end;
  cbn [andb].

Ltac lookups :=
  repeat match goal with H : files _ = _ |- _ => rewrite H end;
  repeat (rewrite lookup_insert_eq || rewrite lookup_insert_ne by target_ne).

(** One goal per target file. *)
Ltac each_target :=
  let j := fresh "j" in let p := fresh "p" in let Hj := fresh "Hj" in
  intros j p Hj;
  destruct j as [|[|[|[|[|j]]]]]; [.. | discriminate Hj];
  injection Hj as <-; known_steps.

Ltac settle :=
  each_target;
  repeat match goal with
         | H : step_text _ _ _ _ ?k = Some _ |- context [new_text _ _ ?k _] =>
             rewrite (step_text_new_text _ _ _ k _ _ eq_refl H)
         end;
  lookups; reflexivity.

(** Run the block at the head of the chain: either it fails, which settles
    everything, or the chain goes on in a world with one more file
    written. *)
Ltac run_block w0 spec k T :=
  lazymatch goal with
  | |- context [ (bind ?b (fun _ => ?rest)) ?wi ] =>
      let C := fresh "C" in let w' := fresh "w" in
      let E := fresh "E" in let F := fresh "F" in let U := fresh "U" in
      pose proof (chain_step b rest _ _ wi spec) as C; cbv beta in C;
      rewrite (step_text_ext _ _ w0 wi k) in C;
      [ destruct (step_text _ _ _ _ k) as [?|] eqn:T;
        [ destruct C as (w' & E & F & U); rewrite E; clear E
        | let e := fresh "e" in let He := fresh "He" in let Hf := fresh "Hf" in
          destruct C as [(e & He & ?) Hf];
          split; [settle | intros _; by exists e] ]
      | congruence
      | let p := fresh "p" in let Hp := fresh "Hp" in
        intros p Hp; injection Hp as <-; lookups; reflexivity ]
  end.

(** C7.  A real run rewrites VERSION, CMakeLists.txt, version.hpp,
    vcpkg.json and package.json in this order and undoes nothing: once the
    new version is computed, file number [j] holds its new text exactly when
    steps [0] to [j] all went through, and holds what it held before
    otherwise.  So when a later file cannot be read, parsed or written, the
    run ends with that exception and every earlier file stays rewritten. *)
Theorem real_run_keeps_earlier_files (target : string) (root : path) (w : World)
    (current new : string) (w1 : World) :
  plan_bump h target root w = (Returned (current, new), w1) ->
  let r := bump_version h target root false w in
  (forall j p, targets root !! j = Some p ->
     files (snd r) !! p
     = if steps_ok_upto h new root w j then new_text h new j (files w !! p)
       else files w !! p)
  /\ (steps_ok_upto h new root w 4 = false ->
      exists e, fst r = Raised e /\ is_Exception e = true).
Proof.
  intros Hplan r.
  destruct (plan_bump_returned h _ _ _ _ _ _ Hplan) as (Hw1 & [v Hparse] & _).
  destruct (parse_version_groups h _ _ _ _ (Hparse w1)) as (g1 & g2 & g3 & Hwf & ->).
  assert (r = rewrite_files h new root w1) as ->.
  { subst r. unfold bump_version. by rewrite (bind_returned _ _ _ _ _ Hplan). }
  assert (files w1 = files w /\ unwritable w1 = unwritable w) as [F1 U1].
  { rewrite Hw1. done. }
  assert (rewrite_files h new root w1
          = (update_version_file h new root ;; update_cmake h new root ;;
             update_version_hpp h new (Text.int_value (ucd h) g1)
               (Text.int_value (ucd h) g2) (Text.int_value (ucd h) g3) root ;;
             update_vcpkg_json h new root ;; update_package_json h new root ;;
             print_bumped h new) w1) as ->.
  { unfold rewrite_files. by rewrite (bind_returned _ _ _ _ _ (Hparse w1)). }
  clear Hplan Hw1.
  run_block w (update_version_file_spec h new root) 0 T0.
  run_block w (update_cmake_spec h new root) 1 T1.
  run_block w (update_version_hpp_spec h new root g1 g2 g3 Hwf) 2 T2.
  run_block w (update_vcpkg_json_spec h new root) 3 T3.
  (* the last block, followed by the report *)
  pose proof (chain_step _ (print_bumped h new) _ _ w4
                (update_package_json_spec h new root)) as C.
  cbv beta in C. rewrite (step_text_ext new root w w4 4) in C;
    [| congruence | intros p Hp; injection Hp as <-; lookups; reflexivity].
  destruct (step_text h new root w 4) as [t4|] eqn:T4.
  - destruct C as (w5 & E & F5 & U5). rewrite E.
    assert (files (snd (print_bumped h new w5)) = files w5) as F6.
    { apply printed_same_files, print_bumped_printed. }
    split; [settle |]. intros H. exfalso. revert H. known_steps. discriminate.
  - destruct C as [(e & He & Hex) Hf]. split; [settle | intros _; by exists e].
Qed.
End NoRollback.

Lemma real_run_keeps_earlier_files_witness :
  let r := bump_version Demo.linux "patch" Demo.root false Demo.damaged in
  fst r = Raised (JSONDecodeError "{")
  /\ files (snd r) !! version_file Demo.root = Some ("0.1.2" +:+ Demo.newline)
  /\ files (snd r) !! engine_cmake Demo.root
     = Some ("project(vayu VERSION 0.1.2 LANGUAGES CXX)" +:+ Demo.newline)
  /\ files (snd r) !! engine_vcpkg_json Demo.root = Some "{"
  /\ files (snd r) !! app_package_json Demo.root = Some Demo.package_manifest.
Proof.
  destruct (real_run_keeps_earlier_files Demo.linux "patch" Demo.root Demo.damaged
              "0.1.1" "0.1.2"
              (world_after (print_transition "0.1.1" "0.1.2") Demo.damaged)
              ltac:(vm_compute; reflexivity)) as [Hfiles Hfail].
  split; [vm_compute; reflexivity |].
  split; [rewrite (Hfiles 0%nat _ eq_refl); vm_compute; reflexivity |].
  split; [rewrite (Hfiles 1%nat _ eq_refl); vm_compute; reflexivity |].
  split; [rewrite (Hfiles 3%nat _ eq_refl); vm_compute; reflexivity |].
  rewrite (Hfiles 4%nat _ eq_refl); vm_compute; reflexivity.
Defined.

(** ** The progress indicator *)

(** C8, as stated, fails: outside verbose mode [stop] writes its closing
    line whether or not the spinner was ever started, and writes it again
    each time it is called. *)
Lemma stop_never_started_writes :
  let self := Spinner_init "Configuring CMake" in
  Spinner_idle self = true
  /\ VERBOSE Demo.world = false
  /\ stdout (world_after (Spinner_stop 0 Style.CHECK Style.GREEN self) Demo.world)
     = [stop_line Style.CHECK Style.GREEN "Configuring CMake"]
  /\ stdout (world_after (let* self := Spinner_stop 0 Style.CHECK Style.GREEN self in
                          Spinner_stop 0 Style.CHECK Style.GREEN self) Demo.world)
     = [stop_line Style.CHECK Style.GREEN "Configuring CMake";
        stop_line Style.CHECK Style.GREEN "Configuring CMake"].
Proof. repeat split; reflexivity. Qed.

(** C8, amended.  Stopping a spinner that was never started or is already
    stopped leaves the spinner as it is and draws no frame.  In verbose mode
    it does nothing at all; otherwise it still writes the closing line, once
    per call.  A fresh spinner is at rest, and so is every spinner after a
    stop outside verbose mode. *)
Theorem stop_at_rest (frames : nat) (symbol color : string) (self : Spinner) (w : World) :
  Spinner_idle self = true ->
  Spinner_stop frames symbol color self w
  = (Returned self,
     if VERBOSE w then w
     else set_stdout (stdout w ++ [stop_line symbol color (message self)]) w)
  /\ (forall message, Spinner_idle (Spinner_init message) = true)
  /\ (forall other self',
        VERBOSE w = false ->
        outcome_of (Spinner_stop frames symbol color other) w = Returned self' ->
        Spinner_idle self' = true).
Proof.
  intros Hidle. split; [| split].
  - unfold Spinner_stop, bind, get. destruct self as [m r t].
    unfold Spinner_idle in Hidle. simpl in Hidle.
    apply andb_true_iff in Hidle as [Hr Ht]. apply negb_true_iff in Hr. subst r.
    destruct (VERBOSE w); simpl; [done |].
    destruct t as [[] |]; try discriminate; reflexivity.
  - reflexivity.
  - intros other self' Hv. unfold outcome_of, Spinner_stop, bind, get. rewrite Hv. simpl.
    destruct (thread other) as [[] |] eqn:Ht; simpl.
    + destruct (write_all _ _) as [[[] | e] w'] eqn:Hw; simpl; [by intros [= <-] | done].
    + by intros [= <-].
    + by intros [= <-].
Qed.

Lemma stop_at_rest_witness :
  Spinner_stop 3 Style.CROSS Style.RED (Spinner_init "Building Release") Demo.world
  = (Returned (Spinner_init "Building Release"),
     set_stdout [stop_line Style.CROSS Style.RED "Building Release"] Demo.world).
Proof.
  exact (proj1 (stop_at_rest 3 Style.CROSS Style.RED (Spinner_init "Building Release")
                  Demo.world eq_refl)).
Defined.

(** ** The command line *)

(** C9: the code against its own help text.  With neither [--dev] nor
    [--prod] the run is a development run: [dev_mode] is false only for
    [--prod] without [--dev].  On the Linux machine a run without flags
    announces the mode "Development". *)
Theorem default_mode_is_development :
  dev_mode_of Demo.no_flags = true
  /\ mode_suffix_of (dev_mode_of Demo.no_flags) = "dev"
  /\ (forall args, dev_mode_of args = false <-> dev args = false /\ prod args = true)
  /\ exists line,
       line ∈ stdout (world_after (main Demo.linux Demo.idle_stages Demo.no_flags)
                                  Demo.world)
       /\ contains "Mode" line = true /\ contains "Development" line = true.
Proof.
  split; [reflexivity |]. split; [reflexivity |]. split.
  - intros args. unfold dev_mode_of. destruct (dev args), (prod args); simpl; intuition.
  - eexists. split.
    + apply list_elem_of_lookup. exists 5%nat. vm_compute. reflexivity.
    + split; vm_compute; reflexivity.
Qed.

(** C6, as stated, fails: [--bump-version] is handled before the flags are
    compared, so with it a run that carries both [-e] and [-a] is not
    rejected; here it previews the bump and returns normally. *)
Lemma exclusive_flags_with_bump_not_rejected :
  engine_only Demo.both_only_and_bump = true
  /\ app_only Demo.both_only_and_bump = true
  /\ outcome_of (main Demo.linux Demo.idle_stages Demo.both_only_and_bump) Demo.world
     = Returned tt.
Proof. repeat split; vm_compute; reflexivity. Qed.


(** C6, amended.  Without [--bump-version], a run that carries both
    [--engine-only] and [--app-only], or [--test-only] together with
    [-t]/[--tests], is nothing but the error report: it sets the verbosity,
    prints the message and exits with status 1.  No stage is entered (the
    stages do not occur in the result), no subprocess is started and no file
    is touched. *)
Theorem exclusive_flags_rejected (h : Host) (stages : Stages) (args : Args) (w : World) :
  truthy (bump_version_arg args) = None ->
  (engine_only args && app_only args) || (test_only args && tests args) = true ->
  main h stages args w = print_error (rejection args) (set_VERBOSE (verbose args) w)
  /\ outcome_of (main h stages args) w = Raised (SystemExit 1)
  /\ spawned (world_after (main h stages args) w) = spawned w
  /\ files (world_after (main h stages args) w) = files w.
Proof.
  intros Hbump Hflags.
  assert (main h stages args w
          = print_error (rejection args) (set_VERBOSE (verbose args) w)) as Hmain.
  { unfold main, rejection. unfold bind at 1. unfold modify at 1. rewrite Hbump.
    destruct (test_only args), (tests args), (engine_only args), (app_only args);
      simpl in Hflags; try discriminate; reflexivity. }
  unfold outcome_of, world_after. rewrite Hmain. repeat split.
Qed.

Lemma exclusive_flags_rejected_witness :
  outcome_of (main Demo.linux Demo.idle_stages Demo.both_only) Demo.world
    = Raised (SystemExit 1)
  /\ outcome_of (main Demo.linux Demo.idle_stages Demo.test_only_and_tests) Demo.world
    = Raised (SystemExit 1).
Proof.
  split.
  - exact (proj1 (proj2 (exclusive_flags_rejected Demo.linux Demo.idle_stages
                           Demo.both_only Demo.world eq_refl eq_refl))).
  - exact (proj1 (proj2 (exclusive_flags_rejected Demo.linux Demo.idle_stages
                           Demo.test_only_and_tests Demo.world eq_refl eq_refl))).
Defined.

(** ** The command runner *)





(** ** Looking for tools *)


#[local] Instance spawned_only_frame P : Frame (spawned_only P).
Proof.
  split.
  - intros w. exists []. by rewrite app_nil_r.
  - intros a b c (l1 & H1 & P1) (l2 & H2 & P2). exists (l1 ++ l2).
    split; [by rewrite H2, H1, app_assoc | by apply Forall_app].
Qed.

Lemma spawned_only_same P w w' : spawned w' = spawned w -> spawned_only P w w'.
Proof. intros H. exists []. by rewrite app_nil_r. Qed.

Lemma spawned_only_one P w w' argv r :
  spawned w' = spawned w ++ [(argv, r)] -> P argv -> spawned_only P w w'.
Proof. intros H HP. exists [(argv, r)]. split; [done | by repeat constructor]. Qed.

Lemma printed_spawned_only P {A} (m : M A) :
  respects printed m -> respects (spawned_only P) m.
Proof. intros H w. apply spawned_only_same, printed_same_spawned, H. Qed.


Section ToolFacts.
Variable h : Host.

Lemma subprocess_run_spawned_only P argv cwd capture check timeout :
  P argv -> respects (spawned_only P) (subprocess_run h argv cwd capture check timeout).
Proof.
  intros HP w. unfold subprocess_run, record_spawn, bind, modify, when, write, modify,
    raise, ret.
  repeat case_match; simplify_eq; simpl;
    solve [ by apply spawned_only_same
          | by eapply spawned_only_one ].
Qed.

Lemma environ_get_printed name : respects printed (environ_get name).
Proof. unfold environ_get. frame. Qed.

Lemma isdir_printed p : respects printed (isdir p).
Proof. unfold isdir. frame. Qed.
#[local] Hint Resolve environ_get_printed isdir_printed : frame.

Lemma first_existing_printed l : respects printed (first_existing h l).
Proof. induction l as [|p l IH]; simpl; frame. Qed.

Lemma first_env_root_printed test l :
  (forall p, respects printed (test p)) -> respects printed (first_env_root h test l).
Proof. intros Ht. induction l as [|p l IH]; simpl; frame. Qed.

Lemma first_vcpkg_dir_printed l : respects printed (first_vcpkg_dir h l).
Proof. induction l as [|[p|] l IH]; simpl; frame. Qed.
#[local] Hint Resolve first_existing_printed first_env_root_printed
  first_vcpkg_dir_printed : frame.

End ToolFacts.

#[local] Hint Resolve environ_get_printed isdir_printed first_existing_printed
  first_env_root_printed first_vcpkg_dir_printed : frame.
#[local] Hint Extern 3 (respects (spawned_only _) _) =>
  apply printed_spawned_only; solve [eauto 3 with frame] : frame.
#[local] Hint Extern 2 (respects (spawned_only _) (subprocess_run _ _ _ _ _ _)) =>
  apply subprocess_run_spawned_only; solve [done | by eexists | by right | by left] : frame.
#[local] Hint Extern 1 (vswhere_query _) => by eexists : frame.

Ltac frame_step ::=
  lazymatch goal with
  | |- Frame _ => apply _
  | |- respects _ (bind _ _) => apply respects_bind; [apply _ | | intros ?]
  | |- respects _ (or_else _ _) => unfold or_else
  | |- respects _ (ret _) => apply respects_ret; apply _
  | |- respects _ (raise _) => apply respects_raise; apply _
  | |- respects _ (get _) => apply respects_get; apply _
  | |- respects _ (when _ _) => apply respects_when; [apply _ |]
  | |- respects _ (try_except _ _) => apply respects_try_except; [apply _ | |]
  | |- respects _ (for_each _ _) => apply respects_for_each; [apply _ | intros ?]
  | |- respects _ (if ?b then _ else _) => destruct b
  | |- respects _ (match ?x with _ => _ end) => destruct x
  end.

Section FinderFacts.
Variable h : Host.

Lemma find_visual_studio_spawns :
  respects (spawned_only vswhere_query) (find_visual_studio h).
Proof. unfold find_visual_studio. frame. Qed.
#[local] Hint Resolve find_visual_studio_spawns : frame.

Lemma find_vcpkg_windows_spawns :
  respects (spawned_only vswhere_query) (find_vcpkg_windows h).
Proof. unfold find_vcpkg_windows. frame. Qed.
#[local] Hint Resolve find_vcpkg_windows_spawns : frame.

(** Looking for vcpkg starts nothing but, on Windows, a vswhere query: no
    vcpkg is ever run. *)
Lemma check_vcpkg_spawns : respects (spawned_only vswhere_query) (check_vcpkg h).
Proof. unfold check_vcpkg. frame. Qed.

End FinderFacts.

Section CheckTool.
Variable h : Host.


Lemma find_cmake_windows_spawns : respects (spawned_only any_argv) (find_cmake_windows h).
Proof. unfold find_cmake_windows, find_visual_studio. frame. Qed.

Lemma find_pnpm_windows_spawns : respects (spawned_only any_argv) (find_pnpm_windows h).
Proof. unfold find_pnpm_windows. frame. Qed.

Lemma truthy_Some o p : truthy o = Some p -> o = Some p.
Proof. destruct o as [[|c s]|]; simpl; congruence. Qed.

(** The probe returns only when the program ran and exited with code 0. *)
Lemma probe_returned argv w c w' :
  probe h argv w = (Returned c, w') ->
  spawned w' = spawned w ++ [(argv, SpawnExited 0)]
  /\ w' = set_spawned (spawned w') w.
Proof.
  unfold probe, subprocess_run. destruct argv as [|exe args]; [discriminate |].
  destruct (executable h exe) as [| | behaviour]; try discriminate.
  cbn [andb]. unfold record_spawn, bind, modify, when, ret, raise. cbn [negb].
  destruct (returncode (behaviour args None) =? 0)%Z eqn:Hrc; cbn [negb andb];
    [| discriminate].
  apply Z.eqb_eq in Hrc. rewrite Hrc. intros [= <- <-]. by destruct w.
Qed.

Lemma probe_raised argv w e w' :
  probe h argv w = (Raised e, w') -> spawned_only any_argv w w'.
Proof.
  intros H. pose proof (subprocess_run_spawned_only h any_argv argv None true true false I w)
    as Hs. unfold probe in H. by rewrite H in Hs.
Qed.

(** The last part of [check_tool] answers "available" only after a probe of
    the path [shutil.which] gave. *)
Lemma standard_check_true name command0 rest w version w' :
  standard_check h name (command0 :: rest) w = (Returned (true, version), w') ->
  exists tool_path,
    which h command0 = Some tool_path
    /\ spawned w' = spawned w ++ [(tool_path :: rest, SpawnExited 0)].
Proof.
  unfold standard_check.
  destruct (truthy (which h command0)) as [tool_path|] eqn:Hw; [| discriminate].
  apply truthy_Some in Hw. unfold try_except, try_with. unfold bind at 1.
  destruct (probe h (tool_path :: rest) w) as [[c | e] w1] eqn:Hp; [| discriminate].
  apply probe_returned in Hp as [Hs _].
  unfold bind, when, modify, ret. destruct (name =? "pnpm")%string;
    intros [= <- <-]; exists tool_path; by split.
Qed.

End CheckTool.


#[local] Instance same_disk_frame : Frame same_disk.
Proof.
  split; unfold same_disk; [done |]. intros a b c (? & ? & ?) (? & ? & ?).
  repeat split; congruence.
Qed.

Lemma printed_same_disk {A} (m : M A) : respects printed m -> respects same_disk m.
Proof. intros H w. destruct (H w) as [l ->]. done. Qed.

Lemma subprocess_run_same_disk h argv cwd capture check timeout :
  respects same_disk (subprocess_run h argv cwd capture check timeout).
Proof.
  intros w. unfold subprocess_run, record_spawn, bind, modify, when, write, modify,
    raise, ret.
  repeat case_match; simplify_eq; done.
Qed.

#[local] Hint Resolve subprocess_run_same_disk : frame.
#[local] Hint Extern 3 (respects same_disk _) =>
  apply printed_same_disk; solve [eauto 3 with frame] : frame.
#[local] Hint Extern 2 (respects (spawned_only _) (modify _)) =>
  intros ?; apply spawned_only_same; reflexivity : frame.
#[local] Hint Extern 2 (respects same_disk (modify _)) =>
  intros ?; done : frame.

Section CheckToolFrames.
Variable h : Host.

Lemma check_tool_spawns name command :
  respects (spawned_only any_argv) (check_tool h name command).
Proof.
  unfold check_tool, standard_check, probe, find_cmake_windows, find_pnpm_windows,
    find_visual_studio.
  frame.
Qed.

Lemma check_tool_same_disk name command :
  respects same_disk (check_tool h name command).
Proof.
  unfold check_tool, standard_check, probe, find_cmake_windows, find_pnpm_windows,
    find_visual_studio.
  frame.
Qed.

Lemma detect_platform_returned v w w' :
  detect_platform h w = (Returned v, w') -> w' = w.
Proof. unfold detect_platform. repeat case_match; by intros [= <- <-]. Qed.

(** [check_tool] answers "available" only after a probe of a located path
    that exited with code 0; the probe is the last subprocess it starts. *)
Lemma check_tool_true name command0 rest w version w' :
  check_tool h name (command0 :: rest) w = (Returned (true, version), w') ->
  exists tool_path args before,
    located h name command0 w tool_path
    /\ (args = rest \/ args = ["--version"])
    /\ spawned w' = spawned w ++ before ++ [(tool_path :: args, SpawnExited 0)].
Proof.
  unfold check_tool. unfold bind at 1.
  destruct (detect_platform h w) as [[[system_name prefix] | e] w0] eqn:Hd;
    [| discriminate].
  apply detect_platform_returned in Hd as ->.
  destruct (String.eqb name "CMake" && String.eqb system_name "Windows") eqn:Hc.
  - apply andb_true_iff in Hc as [Hname _]. apply String.eqb_eq in Hname.
    unfold bind at 1.
    destruct (find_cmake_windows h w) as [[r | e] w1] eqn:Hf; [| discriminate].
    destruct (find_cmake_windows_spawns h w) as (before & Hb & _). rewrite Hf in Hb.
    simpl in Hb.
    destruct (truthy r) as [p|] eqn:Hr; [| discriminate]. apply truthy_Some in Hr as ->.
    unfold try_except, try_with. unfold bind at 1.
    destruct (probe h [p; "--version"] w1) as [[c | e] w2] eqn:Hp; [| discriminate].
    apply probe_returned in Hp as [Hs _]. unfold bind, modify, ret.
    intros [= <- <-]. exists p, ["--version"], before.
    split; [right; left; eauto |]. split; [by right |].
    simpl. by rewrite Hs, Hb, <- app_assoc.
  - destruct (String.eqb name "pnpm" && String.eqb system_name "Windows") eqn:Hn.
    + apply andb_true_iff in Hn as [Hname _]. apply String.eqb_eq in Hname.
      unfold bind at 1.
      destruct (find_pnpm_windows h w) as [[r | e] w1] eqn:Hf; [| discriminate].
      destruct (find_pnpm_windows_spawns h w) as (before & Hb & _). rewrite Hf in Hb.
      simpl in Hb. unfold bind at 1.
      destruct (truthy r) as [p|] eqn:Hr.
      * apply truthy_Some in Hr as ->. unfold try_except, try_with. unfold bind at 1.
        destruct (probe h [p; "--version"] w1) as [[c | e] w2] eqn:Hp.
        -- apply probe_returned in Hp as [Hs _]. unfold bind, modify, ret.
           intros [= <- <-]. exists p, ["--version"], before.
           split; [right; right; eauto |]. split; [by right |].
           simpl. by rewrite Hs, Hb, <- app_assoc.
        -- apply probe_raised in Hp as (failed & Hfailed & _). unfold ret at 1.
           intros Hstd. apply standard_check_true in Hstd as (q & Hq & Hs).
           exists q, rest, (before ++ failed).
           split; [by left |]. split; [by left |].
           by rewrite Hs, Hfailed, Hb, <- !app_assoc.
      * unfold ret at 1. intros Hstd.
        apply standard_check_true in Hstd as (q & Hq & Hs).
        exists q, rest, before. split; [by left |]. split; [by left |].
        by rewrite Hs, Hb, <- !app_assoc.
    + intros Hstd. apply standard_check_true in Hstd as (q & Hq & Hs).
      exists q, rest, []. split; [by left |]. split; [by left |]. done.
Qed.

End CheckToolFrames.

Section Prerequisites.
Variable h : Host.

(** The rows the loop over the tools adds: one per tool, in order, and each
    "available" row is the answer of a [check_tool] call made on the way. *)
Lemma check_tools_rows tools : forall acc ok0 w rows ok w',
  check_tools h tools acc ok0 w = (Returned (rows, ok), w') ->
  spawned_only any_argv w w' /\ same_disk w w'
  /\ exists added,
       rows = acc ++ added
       /\ map (fun row => fst (fst row)) added = map fst tools
       /\ ok = ok0 && forallb (fun row => snd (fst row)) added
       /\ forall name version,
            (name, true, version) ∈ added ->
            exists command wi wi',
              (name, command) ∈ tools
              /\ same_disk w wi /\ spawned_only any_argv w wi
              /\ check_tool h name command wi = (Returned (true, version), wi')
              /\ spawned_only any_argv wi' w'.
Proof.
  induction tools as [|[name cmd] tools IH]; intros acc ok0 w rows ok w'; simpl.
  - intros [= <- <- <-]. split; [apply frame_refl |]. split; [apply frame_refl |].
    exists []. rewrite app_nil_r, andb_true_r. repeat split; try done.
    intros ? ? H. by apply elem_of_nil in H.
  - unfold bind at 1.
    destruct (check_tool h name cmd w) as [[[avail version] | e] w1] eqn:Hc;
      [| discriminate].
    pose proof (check_tool_spawns h name cmd w) as Hs1.
    pose proof (check_tool_same_disk h name cmd w) as Hd1.
    rewrite Hc in Hs1, Hd1. simpl in Hs1, Hd1.
    intros Hrest. apply IH in Hrest as (Hs2 & Hd2 & added & -> & Hnames & -> & Hrows).
    split; [by eapply frame_trans |]. split; [by eapply frame_trans |].
    exists ((name, avail, version) :: added).
    split; [by rewrite <- app_assoc |]. split; [simpl; by rewrite Hnames |].
    split; [simpl; by rewrite andb_assoc |].
    intros name' version' Hin. apply elem_of_cons in Hin as [[= -> <- ->] | Hin].
    + exists cmd, w, w1. split; [by left |]. split; [apply frame_refl |].
      split; [apply frame_refl |]. done.
    + destruct (Hrows _ _ Hin) as (command & wi & wi' & Hmem & Hdi & Hsi & Hci & Hsi').
      exists command, wi, wi'. split; [by right |].
      split; [by eapply frame_trans |]. split; [by eapply frame_trans |]. done.
Qed.

(** The table of the prerequisite stage: the rows of the tools, then the
    row of vcpkg, which says "available" exactly when [check_vcpkg] gave a
    non-empty root. *)
Lemma gather_prerequisites_rows skip_app w rows all_ok w' :
  gather_prerequisites h skip_app w = (Returned (rows, all_ok), w') ->
  exists tool_rows ok w1 root w2,
    check_tools h (required_tools skip_app) [] true w = (Returned (tool_rows, ok), w1)
    /\ check_vcpkg h w1 = (Returned root, w2)
    /\ spawned w' = spawned w2
    /\ rows = tool_rows ++ [match truthy root with
                            | Some vcpkg_root => ("vcpkg", true, vcpkg_root)
                            | None => ("vcpkg", false, "not found")
                            end]
    /\ all_ok = ok && bool_decide (is_Some (truthy root)).
Proof.
  unfold gather_prerequisites. unfold bind at 1.
  destruct (check_tools h (required_tools skip_app) [] true w)
    as [[[tool_rows ok] | e] w1] eqn:Ht; [| discriminate].
  unfold bind at 1.
  destruct (check_vcpkg h w1) as [[root | e] w2] eqn:Hv; [| discriminate].
  destruct (truthy root) as [vcpkg_root|] eqn:Hr.
  - unfold bind, modify, ret. intros [= <- <- <-].
    exists tool_rows, ok, w1, root, w2. rewrite Hr, andb_true_r. done.
  - unfold ret. intros [= <- <- <-].
    exists tool_rows, ok, w1, root, w2. rewrite Hr, andb_false_r. done.
Qed.

End Prerequisites.

(** C3, as stated, fails for vcpkg: it is reported available as soon as a
    root directory is found, and nothing is run to check it.  On the Linux
    machine the only subprocesses of the stage are the probes of CMake and
    Ninja, and looking for vcpkg leaves the world as it is. *)
Lemma vcpkg_reported_without_probe :
  check_vcpkg Demo.linux Demo.world = (Returned (Some "/opt/vcpkg"), Demo.world)
  /\ exists w',
       gather_prerequisites Demo.linux true Demo.world
       = (Returned ([("CMake", true, "cmake version 3.28.1"); ("Ninja", true, "1.11.1");
                     ("vcpkg", true, "/opt/vcpkg")], true), w')
       /\ spawned w' = [(["/usr/bin/cmake"; "--version"], SpawnExited 0);
                        (["/usr/bin/ninja"; "--version"], SpawnExited 0)].
Proof. split; [vm_compute; reflexivity |]. eexists. split; vm_compute; reflexivity. Qed.

Lemma required_tools_not_vcpkg skip_app name (added : list status) b info :
  map (fun row : status => fst (fst row)) added = map fst (required_tools skip_app) ->
  (name, b, info) ∈ added -> name <> "vcpkg".
Proof.
  intros Hnames Hin.
  assert (name ∈ map fst (required_tools skip_app)) as Hn.
  { rewrite <- Hnames. apply list_elem_of_In, in_map_iff.
    exists (name, b, info). split; [done | by apply list_elem_of_In]. }
  unfold required_tools in Hn. destruct skip_app; simpl in Hn;
    repeat (apply elem_of_cons in Hn as [-> | Hn]; [discriminate |]);
    by apply elem_of_nil in Hn.
Qed.

(** C3, amended.  The table of the prerequisite stage is made of the rows of
    the required tools, gathered by [check_tools], and the row of vcpkg,
    which is what [check_vcpkg] answers in the world the tool checks leave.
    vcpkg is reported available exactly when that search finds a non-empty
    root, and missing exactly when it finds none; the search runs no vcpkg
    and starts at most vswhere queries.  Every other row that says
    "available" is the row of a required tool, and then a probe
    [tool_path --version] was started during the stage on a path located for
    that tool and exited with code 0.  So CMake, Ninja and pnpm are never
    reported available on the strength of a path alone. *)
Theorem available_means_probed_or_vcpkg (h : Host) (skip_app : bool) (w : World)
    (rows : list status) (all_ok : bool) (w' : World) :
  gather_prerequisites h skip_app w = (Returned (rows, all_ok), w') ->
  exists tool_rows ok w1 root w2,
    check_tools h (required_tools skip_app) [] true w = (Returned (tool_rows, ok), w1)
    /\ check_vcpkg h w1 = (Returned root, w2)
    /\ spawned_only vswhere_query w1 w2
    /\ spawned w' = spawned w2
    /\ (forall info, ("vcpkg", true, info) ∈ rows <-> truthy root = Some info)
    /\ (("vcpkg", false, "not found") ∈ rows <-> truthy root = None)
    /\ (forall name info,
          (name, true, info) ∈ rows -> name <> "vcpkg" ->
          exists command0 tool_path wi before after,
            (name, [command0; "--version"]) ∈ required_tools skip_app
            /\ same_disk w wi
            /\ located h name command0 wi tool_path
            /\ spawned w' = spawned w ++ before
                              ++ [([tool_path; "--version"], SpawnExited 0)] ++ after).
Proof.
  intros Hg.
  apply gather_prerequisites_rows in Hg
    as (tool_rows & ok & w1 & root & w2 & Ht & Hv & Hs & -> & _).
  exists tool_rows, ok, w1, root, w2.
  pose proof (check_vcpkg_spawns h w1) as Hsp. rewrite Hv in Hsp. simpl in Hsp.
  split; [done |]. split; [done |]. split; [done |]. split; [done |].
  apply check_tools_rows in Ht as (_ & _ & added & -> & Hnames & _ & Hrows).
  simpl.
  assert (forall b info, ("vcpkg", b, info) ∉ added) as Hnot.
  { intros b info Hin. by eapply required_tools_not_vcpkg. }
  split; [| split].
  - intros info. rewrite elem_of_app, list_elem_of_singleton. split.
    + intros [Hin | Hin]; [by apply Hnot in Hin |].
      destruct (truthy root); [by injection Hin as -> | discriminate].
    + intros ->. by right.
  - rewrite elem_of_app, list_elem_of_singleton. split.
    + intros [Hin | Hin]; [by apply Hnot in Hin |].
      destruct (truthy root); [discriminate | done].
    + intros ->. by right.
  - intros name info Hin Hname. apply elem_of_app in Hin as [Hin | Hin].
    + destruct (Hrows _ _ Hin)
        as (command & wi & wi' & Hmem & Hdi & Hsi & Hc & Hsi').
      assert (exists command0, command = [command0; "--version"]) as [command0 ->].
      { unfold required_tools in Hmem. destruct skip_app; simpl in Hmem;
          repeat (apply elem_of_cons in Hmem as [[= -> ->] | Hmem]; [by eexists |]);
          by apply elem_of_nil in Hmem. }
      apply check_tool_true in Hc as (tool_path & args & before & Hloc & Hargs & Hspw).
      assert (args = ["--version"]) as -> by (by destruct Hargs).
      destruct Hsi as (l1 & Hl1 & _). destruct Hsi' as (l2 & Hl2 & _).
      destruct Hsp as (l3 & Hl3 & _).
      exists command0, tool_path, wi, (l1 ++ before), (l2 ++ l3).
      split; [done |]. split; [done |]. split; [done |].
      rewrite Hs, Hl3, Hl2, Hspw, Hl1. by rewrite <- !app_assoc.
    + apply list_elem_of_singleton in Hin.
      destruct (truthy root); [| discriminate]. by injection Hin as -> _.
Qed.

Lemma available_means_probed_or_vcpkg_witness :
  exists root tool_path before after,
    truthy root = Some "/opt/vcpkg"
    /\ located Demo.linux "Ninja" "ninja" Demo.world tool_path
    /\ spawned (world_after (gather_prerequisites Demo.linux true) Demo.world)
       = before ++ [([tool_path; "--version"], SpawnExited 0)] ++ after.
Proof.
  assert (gather_prerequisites Demo.linux true Demo.world
          = (Returned ([("CMake", true, "cmake version 3.28.1");
                        ("Ninja", true, "1.11.1"); ("vcpkg", true, "/opt/vcpkg")], true),
             world_after (gather_prerequisites Demo.linux true) Demo.world)) as Hg
    by (vm_compute; reflexivity).
  destruct (available_means_probed_or_vcpkg Demo.linux true Demo.world _ _ _ Hg)
    as (tool_rows & ok & w1 & root & w2 & _ & _ & _ & _ & Hvcpkg & _ & Htools).
  destruct (Htools "Ninja" "1.11.1")
    as (command0 & tool_path & wi & before & after & Hmem & Hd & Hloc & Hsp).
  - apply list_elem_of_In. simpl. tauto.
  - discriminate.
  - exists root, tool_path, before, after.
    assert (command0 = "ninja") as ->.
    { unfold required_tools in Hmem. simpl in Hmem.
      apply elem_of_cons in Hmem as [Hmem | Hmem]; [discriminate Hmem |].
      apply elem_of_cons in Hmem as [Hmem | Hmem];
        [by injection Hmem | by apply elem_of_nil in Hmem]. }
    split; [| split].
    + apply Hvcpkg. apply list_elem_of_In. simpl. tauto.
    + left. destruct Hloc as [Hw | [[Hn _] | [Hn _]]]; [done | discriminate..].
    + rewrite Hsp. done.
Defined.

Section EngineOnly.
Variable h : Host.

Lemma detect_platform_anywhere v w w0 w' :
  detect_platform h w = (Returned v, w0) -> detect_platform h w' = (Returned v, w').
Proof. unfold detect_platform. repeat case_match; by intros [= <- <-]. Qed.

Lemma check_tool_platform name command w r w' :
  check_tool h name command w = (Returned r, w') ->
  exists v, forall w0, detect_platform h w0 = (Returned v, w0).
Proof.
  unfold check_tool. unfold bind at 1.
  destruct (detect_platform h w) as [[v | e] w0] eqn:Hd; [| discriminate].
  intros _. exists v. intros w1. by eapply detect_platform_anywhere.
Qed.

Lemma print_status_returns system_name row w :
  exists w', print_status system_name row w = (Returned tt, w').
Proof.
  destruct row as [[name ok] info].
  unfold print_status, bind, log, log_dim, print, write, modify, when, get, ret.
  repeat case_match; simplify_eq; by eexists.
Qed.

Lemma for_each_print_status_returns system_name rows : forall w,
  exists w', for_each (print_status system_name) rows w = (Returned tt, w').
Proof.
  induction rows as [|row rows IH]; intros w; simpl; [by eexists |].
  destruct (print_status_returns system_name row w) as [w1 H1].
  rewrite (bind_returned _ _ _ _ _ H1). apply IH.
Qed.

(** With every row fine the report returns. *)
Lemma report_prerequisites_ok rows w v :
  (forall w0, detect_platform h w0 = (Returned v, w0)) ->
  outcome_of (report_prerequisites h rows true) w = Returned tt.
Proof.
  intros Hd. unfold outcome_of, report_prerequisites.
  rewrite (bind_returned _ _ _ _ _ (Hd w)). destruct v as [system_name prefix].
  destruct (for_each_print_status_returns system_name rows w) as [w1 H1].
  rewrite (bind_returned _ _ _ _ _ H1). reflexivity.
Qed.

End EngineOnly.


Example engine_only_without_pnpm :
  which Demo.linux "pnpm" = None
  /\ outcome_of (check_prerequisites Demo.linux true) Demo.world = Returned tt
  /\ outcome_of (check_prerequisites Demo.linux false) Demo.world = Raised (SystemExit 1).
Proof. repeat split; vm_compute; reflexivity. Qed.

(** * Further properties of the script *)

(** ** Versions *)

(** X1.  The parse reads every text whose stripped form has the exact
    shape X.Y.Z, a digit being any decimal digit of the character database
    and the blanks stripped being its whitespace: the three runs of digits
    between the dots are the three groups.  If none of them is longer than
    the digit limit of the interpreter allows, the parse returns the three
    numbers they denote; otherwise the conversion of the first group that
    is too long raises [ValueError].  Either way the world is left alone.
    With the rejection of every other text this makes the stripped shape the
    exact domain of the match in [parse_version]. *)
Theorem well_formed_version_parsed (h : Host) (s : string) (w : World) :
  Spec.exact_xyz (ucd h) (Text.stripped (ucd h) s) = true ->
  exists g1 g2 g3,
    Spec.split_dots (Text.stripped (ucd h) s) = [g1; g2; g3]
    /\ if over_limit h (length g1) || over_limit h (length g2) || over_limit h (length g3)
       then exists msg, parse_version h s w = (Raised (ValueError msg), w)
       else parse_version h s w
            = (Returned (Text.int_value (ucd h) g1, Text.int_value (ucd h) g2,
                         Text.int_value (ucd h) g3), w).
Proof.
  intros H. apply exact_xyz_match in H as (g1 & g2 & g3 & E & Hm & _).
  exists g1, g2, g3. split; [done |].
  pose proof (parse_version_cases h s w) as Hc. by rewrite Hm in Hc.
Qed.

Lemma well_formed_version_parsed_witness :
  parse_version Demo.linux "  10.0.7
" Demo.world = (Returned (10, 0, 7)%N, Demo.world).
Proof.
  destruct (well_formed_version_parsed Demo.linux "  10.0.7
" Demo.world eq_refl) as (g1 & g2 & g3 & E & H).
  vm_compute in E. injection E as <- <- <-. exact H.
Defined.

(** ** The manifests *)

Lemma dict_get_set_same key value d : dict_get key (dict_set key value d) = Some value.
Proof.
  induction d as [|[k v] d IH]; simpl; [by rewrite String.eqb_refl |].
  destruct (String.eqb k key) eqn:E; simpl; by rewrite E.
Qed.

Lemma dict_get_set_other key value d k' :
  k' <> key -> dict_get k' (dict_set key value d) = dict_get k' d.
Proof.
  intros Hne. induction d as [|[k v] d IH]; simpl.
  - destruct (String.eqb_spec key k'); [congruence | done].
  - destruct (String.eqb k key) eqn:E; simpl; [| by rewrite IH].
    apply String.eqb_eq in E as ->.
    destruct (String.eqb_spec key k'); [congruence | done].
Qed.

Lemma dict_keys_set key value d :
  dict_keys (dict_set key value d)
  = match dict_get key d with
    | Some _ => dict_keys d
    | None => dict_keys d ++ [key]
    end.
Proof.
  unfold dict_keys. induction d as [|[k v] d IH]; simpl; [done |].
  destruct (String.eqb k key) eqn:E; simpl; [done |].
  rewrite IH. by destruct (dict_get key d).
Qed.

(** X2.  Setting the version of a manifest that is a JSON object always
    succeeds and touches nothing else: the object then carries the new
    version, every other member keeps its value, and the members keep their
    order (a manifest without a version gets it as its last member).  On
    anything but an object the assignment raises [TypeError]. *)
Theorem set_version_keeps_members (data : json) (new_version : string) (w : World) :
  match data with
  | JObject members =>
      exists members',
        set_version data new_version w = (Returned (JObject members'), w)
        /\ dict_get "version" members' = Some (JString new_version)
        /\ (forall key, key <> "version" -> dict_get key members' = dict_get key members)
        /\ dict_keys members'
           = match dict_get "version" members with
             | Some _ => dict_keys members
             | None => dict_keys members ++ ["version"]
             end
  | _ => exists msg, set_version data new_version w = (Raised (TypeError msg), w)
  end.
Proof.
  destruct data; try (by eexists).
  eexists. split; [reflexivity |].
  split; [apply dict_get_set_same |].
  split; [intros key Hne; by apply dict_get_set_other | apply dict_keys_set].
Qed.

(** ** Substitution *)

Section SubFacts.

Lemma sub_matches_nowhere m repl s : matches_nowhere m s -> Re.sub m repl s = s.
Proof.
  unfold Re.sub. induction s as [|c s IH]; simpl; [done |].
  intros [-> Hs]. by rewrite (IH Hs).
Qed.

Lemma literal_prefix p s r : Re.literal p s = Some r -> String.prefix p s = true.
Proof.
  revert s. induction p as [|a p IH]; intros s; simpl; [by destruct s |].
  destruct s as [|b s]; [discriminate |].
  simpl. destruct (Ascii.eqb_spec a b) as [-> | Hne]; [| discriminate].
  intros H. destruct (ascii_dec b b); [by eapply IH | done].
Qed.

Lemma prefix_trans p q s :
  String.prefix p q = true -> String.prefix q s = true -> String.prefix p s = true.
Proof.
  revert q s. induction p as [|a p IH]; intros q s; simpl; [by destruct s |].
  destruct q as [|b q]; [discriminate |]. destruct s as [|c s]; [discriminate |].
  simpl. destruct (ascii_dec a b) as [-> |]; [| discriminate].
  destruct (ascii_dec b c) as [-> |]; [| discriminate]. apply IH.
Qed.

(** A pattern that starts with the literal [p] matches nowhere in a text
    that does not contain [p]. *)
Lemma not_contained_matches_nowhere (p : string) (m : string -> option nat) s :
  (forall t, String.prefix p t = false -> m t = None) ->
  contains p s = false -> matches_nowhere m s.
Proof.
  intros Hm. induction s as [|c s IH]; simpl; [done |].
  intros H. apply orb_false_iff in H as [Hp Hs].
  split; [by apply Hm | by apply IH].
Qed.

Lemma literal_needs_prefix p lit s :
  String.prefix p lit = true -> String.prefix p s = false -> Re.literal lit s = None.
Proof.
  intros Hlit Hp. destruct (Re.literal lit s) eqn:E; [| done].
  apply literal_prefix in E. rewrite (prefix_trans _ _ _ Hlit E) in Hp. discriminate.
Qed.

End SubFacts.

(** X3.  The substitutions leave unrelated text alone: applied to the text
    of a CMake file that nowhere contains [VERSION ], the substitution of
    the version returns the text byte for byte, and so do the four
    substitutions of the header applied to a text that nowhere contains
    [#define VAYU_VERSION_], whatever the new version is. *)
Theorem text_without_pattern_unchanged (h : Host) (new_version : string)
    (major minor patch : string) (s : string) :
  (contains "VERSION " s = false -> cmake_text h new_version s = s)
  /\ (contains "#define VAYU_VERSION_" s = false
      -> hpp_text h new_version major minor patch s = s).
Proof.
  split; intros H.
  - unfold cmake_text. apply sub_matches_nowhere.
    eapply (not_contained_matches_nowhere "VERSION "); [| done].
    intros t Ht. unfold Re.cmake_version.
    by rewrite (literal_needs_prefix "VERSION " "VERSION " t eq_refl Ht).
  - unfold hpp_text.
    assert (forall lit repl,
              String.prefix "#define VAYU_VERSION_" lit = true ->
              Re.sub (Re.literal_digits (ucd h) lit) repl s = s) as Hd.
    { intros lit repl Hlit. apply sub_matches_nowhere.
      eapply (not_contained_matches_nowhere "#define VAYU_VERSION_"); [| done].
      intros t Ht. unfold Re.literal_digits.
      by rewrite (literal_needs_prefix _ _ t Hlit Ht). }
    rewrite !Hd by reflexivity.
    apply sub_matches_nowhere.
    eapply (not_contained_matches_nowhere "#define VAYU_VERSION_"); [| done].
    intros t Ht. unfold Re.version_string.
    by rewrite (literal_needs_prefix "#define VAYU_VERSION_"
                  ("#define VAYU_VERSION_STRING " +:+ String (ascii_of_N 34) "")
                  t eq_refl Ht).
Qed.

(** ** Computations that always return *)

Section Returns.

Lemma returns_ret {A} (a : A) : always_returns (ret a).
Proof. intros w. by eexists _, _. Qed.

Lemma returns_get {A} (f : World -> A) : always_returns (get f).
Proof. intros w. by eexists _, _. Qed.

Lemma returns_modify f : always_returns (modify f).
Proof. intros w. by eexists _, _. Qed.

Lemma returns_bind {A B} (m : M A) (k : A -> M B) :
  always_returns m -> (forall a, always_returns (k a)) -> always_returns (bind m k).
Proof.
  intros Hm Hk w. destruct (Hm w) as (a & w1 & H1). unfold bind. rewrite H1. apply Hk.
Qed.

Lemma returns_when b (m : M unit) : always_returns m -> always_returns (when b m).
Proof. intros Hm. destruct b; [done | apply returns_ret]. Qed.

Lemma returns_for_each {A} (f : A -> M unit) l :
  (forall a, always_returns (f a)) -> always_returns (for_each f l).
Proof.
  intros Hf. induction l as [|x l IH]; simpl; [apply returns_ret |].
  apply returns_bind; [apply Hf | done].
Qed.

Lemma returns_try_except {A} (body handler : M A) :
  always_returns handler -> always_returns (try_except body handler).
Proof.
  intros Hh w. unfold try_except, try_with.
  destruct (body w) as [[a | e] w1]; [by eexists _, _ | apply Hh].
Qed.

Lemma returns_write s : always_returns (write s).
Proof. apply returns_modify. Qed.

Lemma returns_print s : always_returns (print s).
Proof. apply returns_modify. Qed.

End Returns.

Create HintDb returns discriminated.
#[local] Hint Resolve returns_write returns_print returns_modify : returns.

Ltac returns_step :=
  lazymatch goal with
  | |- always_returns (bind _ _) => apply returns_bind; [| intros ?]
  | |- always_returns (or_else _ _) => unfold or_else
  | |- always_returns (ret _) => apply returns_ret
  | |- always_returns (get _) => apply returns_get
  | |- always_returns (when _ _) => apply returns_when
  | |- always_returns (try_except _ _) => apply returns_try_except
  | |- always_returns (for_each _ _) => apply returns_for_each; intros ?
  | |- always_returns (if ?b then _ else _) => destruct b
  | |- always_returns (match ?x with _ => _ end) => destruct x
  end.

Ltac returning := repeat (first [ solve [eauto 2 with returns] | returns_step ]).

Lemma returns_log a b c : always_returns (log a b c).
Proof. unfold log. returning. Qed.

Lemma returns_log_dim a : always_returns (log_dim a).
Proof. unfold log_dim. returning. Qed.
#[local] Hint Resolve returns_log returns_log_dim : returns.

Lemma returns_print_command_error h cmd code output description :
  always_returns (print_command_error h cmd code output description).
Proof. unfold print_command_error. returning. Qed.
#[local] Hint Resolve returns_print_command_error : returns.

(** ** The command runner, when the program runs *)

Section RunCommand.
Variable h : Host.

Lemma print_command_error_printed cmd code output description :
  respects printed (print_command_error h cmd code output description).
Proof. unfold print_command_error. frame. Qed.

(** What [run_command] does once the platform is known and the program
    starts. *)
Lemma run_command_runs argv cwd description w system_name prefix exe args behaviour :
  detect_platform h w = (Returned (system_name, prefix), w) ->
  resolve_pnpm system_name (PNPM_PATH w) argv = exe :: args ->
  executable h exe = Runs behaviour ->
  run_command h argv cwd description w
  = command_result h (exe :: args) (behaviour args cwd) description w.
Proof.
  intros Hplat Hcmd Hexe. unfold run_command.
  rewrite (bind_returned _ _ _ _ _ Hplat). unfold bind at 1. unfold get at 1.
  rewrite Hcmd. unfold command_result, command_run, try_with, subprocess_run.
  rewrite Hexe. cbn [andb negb].
  unfold bind, get, when, record_spawn, modify, ret, raise, command_output.
  destruct (VERBOSE w) eqn:Hv; cbn [negb VERBOSE set_stdout set_spawned];
    destruct (returncode (behaviour args cwd) =? 0)%Z eqn:Hrc;
    cbn [negb andb fst snd default]; try reflexivity.
Qed.

Lemma command_run_effect cmd c w :
  exists w1, command_run cmd c w = (Returned tt, w1)
    /\ spawned w1 = spawned w ++ [(cmd, SpawnExited (returncode c))]
    /\ files w1 = files w /\ VERBOSE w1 = VERBOSE w
    /\ (exists shown, stdout w1 = stdout w ++ shown)
    /\ (VERBOSE w = false -> w1 = set_spawned (spawned w ++ [(cmd, SpawnExited (returncode c))]) w).
Proof.
  unfold command_run, bind, get, when, log_dim, print, write, record_spawn, modify, ret.
  destruct (VERBOSE w) eqn:Hv; eexists; (split; [reflexivity |]); simpl.
  - repeat split; try done. eexists. by rewrite <- app_assoc.
  - repeat split; try done. exists []. by rewrite app_nil_r.
Qed.

Lemma shows_bind_l {A B} x (m : M A) (k : A -> M B) :
  (forall w, shows x w (snd (m w))) ->
  (forall a, respects stdout_grew (k a)) ->
  forall w, shows x w (snd (bind m k w)).
Proof.
  intros Hm Hk w. unfold bind. destruct (Hm w) as (l & Hl & Hin).
  destruct (m w) as [[a | e] w1]; simpl in *; [| by exists l].
  destruct (Hk a w1) as [l2 Hl2]. exists (l ++ l2).
  split; [by rewrite Hl2, Hl, app_assoc | set_solver].
Qed.

Lemma shows_bind_r {A B} x (m : M A) (k : A -> M B) :
  respects stdout_grew m -> always_returns m ->
  (forall a w, shows x w (snd (k a w))) ->
  forall w, shows x w (snd (bind m k w)).
Proof.
  intros Hg Hm Hk w. unfold bind. destruct (Hm w) as (a & w1 & H1).
  destruct (Hg w) as [l1 Hl1]. rewrite H1 in *. simpl in Hl1.
  destruct (Hk a w1) as (l & Hl & Hin). exists (l1 ++ l).
  split; [by rewrite Hl, Hl1, app_assoc | set_solver].
Qed.

Lemma shows_print s w : shows (s +:+ "
") w (snd (print s w)).
Proof. exists [s +:+ "
"]. split; [done | set_solver]. Qed.

(** The failure report shows the exit code. *)
Lemma print_command_error_shows_code cmd code output description w :
  shows (exit_code_line code) w (snd (print_command_error h cmd code output description w)).
Proof.
  revert w. unfold print_command_error.
  do 6 (apply shows_bind_r; [frame | returning | intros _]).
  apply shows_bind_l; [apply shows_print | intros _; frame].
Qed.

End RunCommand.



(** ** The prerequisite stage on a supported platform *)

Ltac returns_step ::=
  lazymatch goal with
  | |- always_returns (bind _ _) => apply returns_bind; [| intros ?]
  | |- always_returns (or_else _ _) => unfold or_else
  | |- always_returns (ret _) => apply returns_ret
  | |- always_returns (get _) => apply returns_get
  | |- always_returns (when _ _) => apply returns_when
  | |- always_returns (try_except _ _) => apply returns_try_except
  | |- always_returns (for_each _ _) => apply returns_for_each; intros ?
  | |- always_returns (if ?b then _ else _) => destruct b
  | |- always_returns (match ?x with _ => _ end) =>
      first [progress (cbv beta iota) | destruct x]
  end.

Section Supported.
Variable h : Host.
Variable platform : string * string.
Hypothesis supported : forall w, detect_platform h w = (Returned platform, w).

Lemma returns_detect_platform : always_returns (detect_platform h).
Proof. intros w. rewrite supported. by eexists _, _. Qed.

Lemma returns_exists p : always_returns (exists_ p).
Proof. unfold exists_. returning. Qed.

Lemma returns_isdir p : always_returns (isdir p).
Proof. unfold isdir. returning. Qed.

Lemma returns_environ_get name : always_returns (environ_get name).
Proof. unfold environ_get. returning. Qed.
#[local] Hint Resolve returns_detect_platform returns_exists returns_isdir
  returns_environ_get : returns.

Lemma returns_first_existing l : always_returns (first_existing h l).
Proof. induction l as [|p l IH]; simpl; returning. Qed.

Lemma returns_first_env_root test l :
  (forall p, always_returns (test p)) -> always_returns (first_env_root h test l).
Proof. intros Ht. induction l as [|p l IH]; simpl; returning. Qed.

Lemma returns_first_vcpkg_dir l : always_returns (first_vcpkg_dir h l).
Proof. induction l as [|[p|] l IH]; simpl; returning. Qed.
#[local] Hint Resolve returns_first_existing returns_first_env_root
  returns_first_vcpkg_dir : returns.

Lemma returns_find_visual_studio : always_returns (find_visual_studio h).
Proof. unfold find_visual_studio. returning. Qed.
#[local] Hint Resolve returns_find_visual_studio : returns.

Lemma returns_check_vcpkg : always_returns (check_vcpkg h).
Proof. unfold check_vcpkg, find_vcpkg_windows. returning. Qed.

Lemma returns_check_tool name command0 rest :
  always_returns (check_tool h name (command0 :: rest)).
Proof.
  unfold check_tool, standard_check, find_cmake_windows, find_pnpm_windows. returning.
Qed.

Lemma returns_check_tools tools : forall acc ok,
  Forall (fun tool => snd tool <> []) tools ->
  always_returns (check_tools h tools acc ok).
Proof.
  induction tools as [|[name cmd] tools IH]; intros acc ok Hne; simpl;
    [apply returns_ret |].
  apply Forall_cons in Hne as [Hcmd Hne]. destruct cmd as [|command0 rest]; [done |].
  apply returns_bind; [apply returns_check_tool |].
  intros [avail version]. by apply IH.
Qed.

Lemma returns_gather_prerequisites skip_app :
  always_returns (gather_prerequisites h skip_app).
Proof.
  unfold gather_prerequisites. apply returns_bind.
  - apply returns_check_tools. unfold required_tools.
    destruct skip_app; repeat constructor; done.
  - intros [results all_ok]. apply returns_bind; [apply returns_check_vcpkg |].
    intros root. returning.
Qed.

Lemma returns_print_status system_name row : always_returns (print_status system_name row).
Proof. destruct row as [[name ok] info]. unfold print_status. returning. Qed.

(** The second half of the stage: it returns when every row is fine and
    exits with status 1 otherwise; either way it only prints. *)
Lemma report_prerequisites_outcome rows all_ok w :
  outcome_of (report_prerequisites h rows all_ok) w
  = (if all_ok then Returned tt else Raised (SystemExit 1))
  /\ printed w (world_after (report_prerequisites h rows all_ok) w).
Proof.
  split.
  - unfold outcome_of, report_prerequisites. rewrite (bind_returned _ _ _ _ _ (supported w)).
    destruct platform as [system_name prefix].
    destruct (returns_for_each (print_status system_name) rows
                (returns_print_status system_name) w) as ([] & w1 & H1).
    rewrite (bind_returned _ _ _ _ _ H1). destruct all_ok; [reflexivity |].
    unfold when at 1. cbn [negb]. unfold bind at 1. unfold bind at 1. unfold print at 1.
    unfold write at 1. unfold modify at 1. unfold bind at 1.
    destruct (String.eqb system_name "Windows"); reflexivity.
  - unfold world_after. revert w.
    change (respects printed (report_prerequisites h rows all_ok)).
    unfold report_prerequisites, print_status. frame.
Qed.

End Supported.

Section PrerequisiteStage.
Variable h : Host.

Lemma check_vcpkg_same_disk : respects same_disk (check_vcpkg h).
Proof. unfold check_vcpkg, find_vcpkg_windows, find_visual_studio. frame. Qed.

(** What gathering the table leaves behind: the tools are checked, then
    vcpkg is located, and a root that was found is exported. *)
Lemma gather_prerequisites_world skip_app w rows all_ok w' :
  gather_prerequisites h skip_app w = (Returned (rows, all_ok), w') ->
  exists added root w2,
    map (fun row => fst (fst row)) added = map fst (required_tools skip_app)
    /\ same_disk w w2
    /\ match truthy root with
       | Some vcpkg_root =>
           rows = added ++ [("vcpkg", true, vcpkg_root)]
           /\ all_ok = forallb (fun row => snd (fst row)) added
           /\ w' = set_environ (<["VCPKG_ROOT" := vcpkg_root]> (environ w2)) w2
       | None =>
           rows = added ++ [("vcpkg", false, "not found")]
           /\ all_ok = false /\ w' = w2
       end.
Proof.
  unfold gather_prerequisites. unfold bind at 1.
  destruct (check_tools h (required_tools skip_app) [] true w)
    as [[[tool_rows ok] | e] w1] eqn:Ht; [| discriminate].
  unfold bind at 1.
  destruct (check_vcpkg h w1) as [[root | e] w2] eqn:Hv; [| discriminate].
  destruct (check_tools_rows h _ _ _ _ _ _ _ Ht)
    as (_ & Hdisk & added & -> & Hnames & -> & _).
  pose proof (check_vcpkg_same_disk w1) as Hdisk2. rewrite Hv in Hdisk2. simpl in Hdisk2.
  intros Hg. exists added, root, w2. split; [done |].
  split; [by apply (frame_trans (R := same_disk)) with w1 |].
  destruct (truthy root) as [vcpkg_root|].
  - unfold bind, modify, ret in Hg. by injection Hg as <- <- <-.
  - unfold ret in Hg. by injection Hg as <- <- <-.
Qed.

End PrerequisiteStage.



Lemma truthy_not_empty o p : truthy o = Some p -> p <> "".
Proof. destruct o as [[|c s]|]; simpl; [done | | done]. by intros [= <-]. Qed.

(** X6.  The table always ends with the vcpkg row.  A vcpkg root that was
    found is not empty and is exported as [VCPKG_ROOT] for the stages that
    follow, every other variable keeping its value; when none was found the
    environment is left as it was and the table is not all right.  Files and
    directories are untouched either way. *)
Theorem vcpkg_root_exported (h : Host) (skip_app : bool) (w : World)
    (rows : list status) (all_ok : bool) (w' : World) :
  gather_prerequisites h skip_app w = (Returned (rows, all_ok), w') ->
  exists found location,
    last rows = Some ("vcpkg", found, location)
    /\ files w' = files w /\ dirs w' = dirs w
    /\ if found
       then location <> "" /\ environ w' = <["VCPKG_ROOT" := location]> (environ w)
       else all_ok = false /\ environ w' = environ w.
Proof.
  intros Hg.
  destruct (gather_prerequisites_world h _ _ _ _ _ Hg)
    as (added & root & w2 & _ & (Hf & Hd & He) & Hrows).
  destruct (truthy root) as [vcpkg_root|] eqn:Hr; destruct Hrows as (-> & -> & ->).
  - exists true, vcpkg_root. rewrite last_snoc. simpl. rewrite He.
    repeat split; try done. by eapply truthy_not_empty.
  - exists false, "not found". rewrite last_snoc. done.
Qed.

Lemma vcpkg_root_exported_witness :
  exists rows all_ok w',
    gather_prerequisites Demo.linux true Demo.world = (Returned (rows, all_ok), w')
    /\ last rows = Some ("vcpkg", true, "/opt/vcpkg")
    /\ environ w' !! "VCPKG_ROOT" = Some "/opt/vcpkg".
Proof.
  destruct (gather_prerequisites Demo.linux true Demo.world) as [[[rows all_ok] | e] w']
    eqn:Hg; [| by vm_compute in Hg].
  exists rows, all_ok, w'. split; [done |].
  destruct (vcpkg_root_exported Demo.linux true Demo.world rows all_ok w' Hg)
    as (found & location & Hlast & _ & _ & Henv).
  assert (last rows = Some ("vcpkg", true, "/opt/vcpkg")) as Hrow
    by (vm_compute in Hg; by injection Hg as <- _ _).
  rewrite Hlast in Hrow. injection Hrow as -> ->. split; [done |].
  destruct Henv as [_ ->]. by rewrite lookup_insert_eq.
Defined.

(** ** The paths [check_tool] stores *)

#[local] Instance same_tool_paths_frame : Frame same_tool_paths.
Proof.
  split; unfold same_tool_paths; [done |]. intros a b c [? ?] [? ?]. split; congruence.
Qed.

Lemma printed_same_tool_paths {A} (m : M A) :
  respects printed m -> respects same_tool_paths m.
Proof. intros H w. destruct (H w) as [l ->]. done. Qed.

Lemma subprocess_run_same_tool_paths h argv cwd capture check timeout :
  respects same_tool_paths (subprocess_run h argv cwd capture check timeout).
Proof.
  intros w. unfold subprocess_run, record_spawn, bind, modify, when, write, modify,
    raise, ret.
  repeat case_match; simplify_eq; done.
Qed.
#[local] Hint Resolve subprocess_run_same_tool_paths : frame.
#[local] Hint Extern 3 (respects same_tool_paths _) =>
  apply printed_same_tool_paths; solve [eauto 3 with frame] : frame.

Section ToolPaths.
Variable h : Host.

Lemma find_cmake_windows_paths : respects same_tool_paths (find_cmake_windows h).
Proof. unfold find_cmake_windows, find_visual_studio. frame. Qed.

Lemma find_pnpm_windows_paths : respects same_tool_paths (find_pnpm_windows h).
Proof. unfold find_pnpm_windows. frame. Qed.

Lemma probe_paths argv : respects same_tool_paths (probe h argv).
Proof. unfold probe. frame. Qed.

(** A probe that returned was the last process started. *)
Lemma probe_last argv w c w' :
  probe h argv w = (Returned c, w') ->
  last (spawned w') = Some (argv, SpawnExited 0) /\ same_tool_paths w w'.
Proof.
  intros Hp. pose proof (probe_paths argv w) as Hk. rewrite Hp in Hk.
  apply probe_returned in Hp as [-> _]. by rewrite last_snoc.
Qed.

Lemma standard_check_paths name command0 rest w avail version w' :
  standard_check h name (command0 :: rest) w = (Returned (avail, version), w') ->
  CMAKE_PATH w' = CMAKE_PATH w
  /\ if avail
     then exists tool_path,
            last (spawned w') = Some (tool_path :: rest, SpawnExited 0)
            /\ PNPM_PATH w' = (if String.eqb name "pnpm" then tool_path else PNPM_PATH w)
     else PNPM_PATH w' = PNPM_PATH w.
Proof.
  unfold standard_check.
  destruct (truthy (which h command0)) as [tool_path|] eqn:Hw.
  - unfold try_except, try_with. unfold bind at 1.
    destruct (probe h (tool_path :: rest) w) as [[c | e] w1] eqn:Hp.
    + apply probe_last in Hp as (Hlast & Hc & Hn).
      unfold bind, when, modify, ret.
      destruct (name =? "pnpm")%string; intros [= <- <- <-];
        (split; [done |]); exists tool_path; by split.
    + pose proof (probe_paths (tool_path :: rest) w) as Hk. rewrite Hp in Hk.
      destruct Hk as [Hc Hn]. unfold ret. by intros [= <- <- <-].
  - unfold ret. by intros [= <- <- <-].
Qed.

End ToolPaths.

(** X7.  A tool is reported available only right after a successful probe,
    and the path probed is what the later stages will run: for pnpm it is
    stored in [PNPM_PATH] on every platform, for CMake on Windows in
    [CMAKE_PATH]; nothing else is stored.  A tool reported missing leaves
    both paths as they were. *)
Theorem tool_path_recorded (h : Host) (name command0 : string) (rest : list string)
    (w : World) (system_name prefix : string) (avail : bool) (version : string)
    (w' : World) :
  detect_platform h w = (Returned (system_name, prefix), w) ->
  check_tool h name (command0 :: rest) w = (Returned (avail, version), w') ->
  if avail
  then exists tool_path args,
         last (spawned w') = Some (tool_path :: args, SpawnExited 0)
         /\ PNPM_PATH w'
            = (if String.eqb name "pnpm" then tool_path else PNPM_PATH w)
         /\ CMAKE_PATH w'
            = (if String.eqb name "CMake" && String.eqb system_name "Windows"
               then tool_path else CMAKE_PATH w)
  else PNPM_PATH w' = PNPM_PATH w /\ CMAKE_PATH w' = CMAKE_PATH w.
Proof.
  intros Hd. unfold check_tool. rewrite (bind_returned _ _ _ _ _ Hd).
  destruct (String.eqb name "CMake" && String.eqb system_name "Windows") eqn:Hc.
  - apply andb_true_iff in Hc as [Hname _]. apply String.eqb_eq in Hname as ->.
    unfold bind at 1.
    pose proof (find_cmake_windows_paths h w) as Hk.
    destruct (find_cmake_windows h w) as [[r | e] w1]; [| discriminate].
    destruct Hk as [Hk1 Hk2]. simpl in Hk1, Hk2.
    destruct (truthy r) as [p|]; [| unfold ret; by intros [= <- <- <-]].
    unfold try_except, try_with. unfold bind at 1.
    destruct (probe h [p; "--version"] w1) as [[c | e] w2] eqn:Hp.
    + apply probe_last in Hp as (Hlast & Hc & Hn). unfold bind, modify, ret.
      intros [= <- <- <-]. exists p, ["--version"]. simpl.
      split; [done |]. split; [congruence | done].
    + pose proof (probe_paths h [p; "--version"] w1) as Hq. rewrite Hp in Hq.
      destruct Hq as [Hq1 Hq2]. simpl in Hq1, Hq2. unfold ret. intros [= <- <- <-].
      split; congruence.
  - assert (forall w0 a v w1,
              same_tool_paths w w0 ->
              standard_check h name (command0 :: rest) w0 = (Returned (a, v), w1) ->
              if a
              then exists tool_path args,
                     last (spawned w1) = Some (tool_path :: args, SpawnExited 0)
                     /\ PNPM_PATH w1
                        = (if String.eqb name "pnpm" then tool_path else PNPM_PATH w)
                     /\ CMAKE_PATH w1 = CMAKE_PATH w
              else PNPM_PATH w1 = PNPM_PATH w /\ CMAKE_PATH w1 = CMAKE_PATH w) as Hstd.
    { intros w0 a v w1 [Hk1 Hk2] Hs.
      apply standard_check_paths in Hs as [Hcm Hs]. destruct a.
      - destruct Hs as (tool_path & Hlast & Hn). exists tool_path, rest.
        split; [done |]. split; [| congruence].
        rewrite Hn. by destruct (name =? "pnpm")%string.
      - split; congruence. }
    destruct (String.eqb name "pnpm" && String.eqb system_name "Windows") eqn:Hn.
    + apply andb_true_iff in Hn as [Hname _]. unfold bind at 1.
      pose proof (find_pnpm_windows_paths h w) as Hk.
      destruct (find_pnpm_windows h w) as [[r | e] w1]; [| discriminate].
      simpl in Hk. unfold bind at 1.
      destruct (truthy r) as [p|].
      * unfold try_except, try_with. unfold bind at 1.
        destruct (probe h [p; "--version"] w1) as [[c | e] w2] eqn:Hp.
        -- apply probe_last in Hp as (Hlast & Hq1 & Hq2). destruct Hk as [Hk1 Hk2].
           unfold bind, modify, ret. intros [= <- <- <-].
           exists p, ["--version"]. rewrite Hname. simpl.
           split; [done |]. split; [done | congruence].
        -- pose proof (probe_paths h [p; "--version"] w1) as Hq. rewrite Hp in Hq.
           simpl in Hq. unfold ret at 1. apply Hstd.
           by apply (frame_trans (R := same_tool_paths)) with w1.
      * unfold ret at 1. by apply Hstd.
    + apply Hstd. apply frame_refl.
Qed.

Lemma tool_path_recorded_witness :
  let r := check_tool Demo.windows "pnpm" ["pnpm"; "--version"] windows_before_check in
  fst r = Returned (true, "9.1.0") /\ PNPM_PATH (snd r) = Demo.pnpm_cmd.
Proof.
  intros r.
  assert (r = (Returned (true, "9.1.0"), snd r)) as Hc by (vm_compute; reflexivity).
  split; [by rewrite Hc |].
  destruct (tool_path_recorded Demo.windows "pnpm" "pnpm" ["--version"]
              windows_before_check "Windows" "windows" true "9.1.0" (snd r) eq_refl Hc)
    as (tool_path & args & Hl & Hn & _).
  vm_compute in Hl. injection Hl as <- _. exact Hn.
Defined.

(** ** What a build can end with *)

Section Exits.

Lemma exits_only_returns {A} (m : M A) : always_returns m -> exits_only m.
Proof. intros Hm w e w' H. destruct (Hm w) as (a & w1 & H1). congruence. Qed.

Lemma exits_only_bind {A B} (m : M A) (k : A -> M B) :
  exits_only m -> (forall a, exits_only (k a)) -> exits_only (bind m k).
Proof.
  intros Hm Hk w e w'. unfold bind.
  destruct (m w) as [[a | e0] w1] eqn:H1.
  - apply Hk.
  - intros [= <- <-]. by eapply Hm.
Qed.

Lemma exits_only_when b (m : M unit) : exits_only m -> exits_only (when b m).
Proof. intros Hm. destruct b; [done |]. apply exits_only_returns, returns_ret. Qed.

Lemma exits_only_exit {A} code : exits_only (@raise A (SystemExit code)).
Proof. intros w e w'. unfold raise. by intros [= <- <-]. Qed.

Lemma exits_only_print_error {A} msg : exits_only (@print_error A msg).
Proof.
  intros w e w' H. destruct (@print_error_raises A msg w) as (w1 & H1 & _).
  rewrite H1 in H. by injection H as <- <-.
Qed.

(** [except Exception as e: k e] turns every exception into what [k] ends
    with, and lets an exit through. *)
Lemma exits_only_except_Exception {A} (body : M A) (k : exn -> M A) :
  (forall e, exits_only (k e)) ->
  exits_only (try_with body (fun e => if is_Exception e then Some (k e) else None)).
Proof.
  intros Hk w e w'. unfold try_with.
  destruct (body w) as [[a | e0] w1]; [discriminate |].
  destruct (is_Exception e0) eqn:E; [apply Hk |]. by intros [= <- <-].
Qed.

Lemma exits_only_detect_platform h : exits_only (detect_platform h).
Proof.
  unfold detect_platform. repeat case_match;
    first [apply exits_only_print_error | apply exits_only_returns, returns_ret].
Qed.

End Exits.

Lemma returns_print_header : always_returns print_header.
Proof. unfold print_header. returning. Qed.

Lemma returns_print_build_info mode components platform_name verbose :
  always_returns (print_build_info mode components platform_name verbose).
Proof. unfold print_build_info. returning. Qed.



(** ** The prerequisite check inside a build *)

Section Stepping.

(** Steps that only print can be walked through. *)
Lemma bind_printing {A B} (m : M A) (k : A -> M B) w
    (Q : outcome B * World -> Prop) :
  always_returns m -> respects printed m ->
  (forall a w', printed w w' -> Q (k a w')) -> Q (bind m k w).
Proof.
  intros Hr Hp HQ. destruct (Hr w) as (a & w' & H).
  rewrite (bind_returned _ _ _ _ _ H). apply HQ. specialize (Hp w). by rewrite H in Hp.
Qed.

Lemma try_bind_printing {A B} (m : M A) (k : A -> M B) handler w
    (Q : outcome B * World -> Prop) :
  always_returns m -> respects printed m ->
  (forall a w', printed w w' -> Q (try_with (k a) handler w')) ->
  Q (try_with (bind m k) handler w).
Proof.
  intros Hr Hp HQ. destruct (Hr w) as (a & w' & H).
  specialize (HQ a w'). specialize (Hp w). rewrite H in Hp.
  unfold try_with in *. rewrite (bind_returned _ _ _ _ _ H). by apply HQ.
Qed.

Lemma print_header_printed : respects printed print_header.
Proof. unfold print_header. frame. Qed.

Lemma print_build_info_printed mode components platform_name verbose :
  respects printed (print_build_info mode components platform_name verbose).
Proof. unfold print_build_info. frame. Qed.

Lemma print_step_printed step total title : respects printed (print_step step total title).
Proof. unfold print_step. frame. Qed.

Lemma returns_print_step step total title : always_returns (print_step step total title).
Proof. unfold print_step. returning. Qed.

End Stepping.

(** X9.  The prerequisite check guards the stages.  In a build on a
    supported platform, [main] prints the header, the build information and
    the step title, and checks the prerequisites; when the table it gathers
    there is not all right, the run ends with exit status 1 in the very
    world the report leaves: no stage is consulted, no process is started
    after the probes, and no file was written. *)
Theorem failed_prerequisites_stop_the_build (h : Host) (stages : Stages) (args : Args)
    (w : World) (system_name prefix : string) :
  truthy (bump_version_arg args) = None ->
  test_only args = false ->
  app_only args && engine_only args = false ->
  detect_platform h w = (Returned (system_name, prefix), w) ->
  exists w0,
    printed (set_VERBOSE (verbose args) w) w0
    /\ forall rows w1,
         gather_prerequisites h (engine_only args) w0 = (Returned (rows, false), w1) ->
         exists w2,
           main h stages args w = (Raised (SystemExit 1), w2)
           /\ printed w1 w2
           /\ files w2 = files w.
Proof.
  intros Hbump Htest Hflags Hd.
  assert (forall w0, detect_platform h w0 = (Returned (system_name, prefix), w0))
    as supported by (intros w0; by eapply detect_platform_anywhere).
  set (wv := set_VERBOSE (verbose args) w).
  set (Q := fun r : outcome unit * World =>
              exists w0,
                printed wv w0
                /\ forall rows w1,
                     gather_prerequisites h (engine_only args) w0
                       = (Returned (rows, false), w1) ->
                     exists w2,
                       r = (Raised (SystemExit 1), w2)
                       /\ printed w1 w2
                       /\ files w2 = files w).
  change (Q (main h stages args w)).
  unfold main. rewrite Hbump, Htest. cbv iota.
  rewrite (bind_returned (modify (set_VERBOSE (verbose args))) _ w tt wv eq_refl).
  rewrite (bind_returned (ret _) _ wv _ wv eq_refl).
  rewrite Hflags.
  rewrite (bind_returned (when false _) _ wv tt wv eq_refl).
  rewrite (bind_returned _ _ _ _ _ (supported wv)). cbv beta iota.
  rewrite (bind_returned time_time _ wv (clock wv) wv eq_refl).
  apply (bind_printing _ _ _ Q returns_print_header print_header_printed).
  intros [] wa Pa.
  rewrite (bind_returned (get VERBOSE) _ wa (VERBOSE wa) wa eq_refl).
  apply (bind_printing _ _ _ Q);
    [apply returns_print_build_info | apply print_build_info_printed |].
  intros [] wb Pb.
  apply (try_bind_printing _ _ _ _ Q);
    [apply returns_print_step | apply print_step_printed |].
  intros [] wc Pc.
  assert (printed wv wc) as Pvc.
  { apply (frame_trans (R := printed)) with wb; [| done].
    by apply (frame_trans (R := printed)) with wa. }
  exists wc. split; [done |]. intros rows w1 Hg.
  destruct (report_prerequisites_outcome h (system_name, prefix) supported rows false w1)
    as (Hout & Hpr).
  unfold outcome_of, world_after in Hout, Hpr.
  destruct (report_prerequisites h rows false w1) as [o w2] eqn:Hrep.
  simpl in Hout, Hpr. subst o. exists w2.
  assert (check_prerequisites h (engine_only args) wc = (Raised (SystemExit 1), w2))
    as Hcheck by (unfold check_prerequisites; by rewrite (bind_returned _ _ _ _ _ Hg)).
  split; [| split; [done |]].
  - unfold try_with. by rewrite (bind_raised _ _ _ _ _ Hcheck).
  - destruct (gather_prerequisites_world h _ _ _ _ _ Hg)
      as (added & root & wg & _ & (Hf & _ & _) & Hrows).
    assert (files w1 = files wc) as Hf1.
    { destruct (truthy root); destruct Hrows as (_ & _ & ->); done. }
    rewrite (printed_same_files _ _ Hpr), Hf1. by rewrite (printed_same_files _ _ Pvc).
Qed.

Lemma failed_prerequisites_stop_the_build_witness :
  outcome_of (main Demo.linux Demo.idle_stages Demo.no_flags) Demo.world
  = Raised (SystemExit 1).
Proof.
  destruct (failed_prerequisites_stop_the_build Demo.linux Demo.idle_stages Demo.no_flags
              Demo.world "Linux" "linux" eq_refl eq_refl eq_refl eq_refl)
    as (w0 & [l ->] & H).
  edestruct H as (w2 & Hmain & _); [vm_compute; reflexivity |].
  unfold outcome_of. by rewrite Hmain.
Defined.
